(** * Cronos chain query console: a model of [cronosquery.py] and its properties

    The development embeds the console's pure parts (chain switching, path
    parameter substitution, the menu loop and the response formatter) and the
    fragments of the Python runtime they call ([int], [str], [format],
    [str.replace], [str.title], [json.dumps], true division of integers).
    The interactive session ([run], [main]) is embedded over a world that
    holds the object, the input to come, the text written and the number of
    requests sent; the network is a function from the rank of a request and
    its address to an outcome.

    Conventions of the model.
    - A Python [str] is a sequence of Unicode code points.
    - A Python [int] is an unbounded integer; the interpreter's optional limit
      on the length of integer/string conversions is taken to be switched off.
    - A Python [float] is an IEEE 754 binary64 value, given by the standard
      library's [spec_float] with round-to-nearest-even.
    - The Unicode character database and the shortest-digits [repr] of floats
      are not reproduced: they are the fields of the class [PyRuntime], and
      every statement holds for all of them.  ASCII behaviour is spelled out. *)

From Stdlib Require Import String Ascii Decimal DecimalN DecimalFacts.
From Stdlib Require Import Floats.SpecFloat.
From Stdlib Require Import ZArith NArith Bool Lia List.
Import ListNotations.

Set Warnings "-register-all".


(** ** Strings as sequences of code points *)

Definition char := N.
Definition str := list char.

(** Decoding of the UTF-8 bytes of a source literal into code points. *)
Fixpoint utf8_decode (bs : list N) : str :=
  match bs with
  | [] => []
  | b :: r =>
    if (b <? 0x80)%N then b :: utf8_decode r
    else if (b <? 0xE0)%N then
      match r with
      | b1 :: r1 => ((b - 0xC0) * 64 + (b1 - 0x80))%N :: utf8_decode r1
      | [] => [b]
      end
    else if (b <? 0xF0)%N then
      match r with
      | b1 :: b2 :: r2 =>
        ((b - 0xE0) * 4096 + (b1 - 0x80) * 64 + (b2 - 0x80))%N :: utf8_decode r2
      | _ => [b]
      end
    else
      match r with
      | b1 :: b2 :: b3 :: r3 =>
        ((b - 0xF0) * 262144 + (b1 - 0x80) * 4096 + (b2 - 0x80) * 64 + (b3 - 0x80))%N
          :: utf8_decode r3
      | _ => [b]
      end
  end.

(** [u "text"] is the Python literal ["text"]. *)
Definition u (s : string) : str :=
  utf8_decode (map N_of_ascii (list_ascii_of_string s)).

Fixpoint str_eqb (a b : str) : bool :=
  match a, b with
  | [], [] => true
  | x :: a', y :: b' => (x =? y)%N && str_eqb a' b'
  | _, _ => false
  end.

(** [s.startswith(p)] *)
Fixpoint startswith (p s : str) : bool :=
  match p, s with
  | [], _ => true
  | x :: p', y :: s' => (x =? y)%N && startswith p' s'
  | _ :: _, [] => false
  end.

(** [p in s] for two strings *)
Fixpoint str_contains (p s : str) : bool :=
  startswith p s ||
  match s with
  | [] => false
  | _ :: s' => str_contains p s'
  end.

(** [s.replace(old, new)] for a non-empty [old]: the leftmost occurrence is
    replaced and the scan resumes after it; [skip] counts the characters of
    the occurrence still to be passed over. *)
Fixpoint replace_scan (old new : str) (skip : nat) (s : str) : str :=
  match s with
  | [] => []
  | c :: s' =>
    match skip with
    | S k => replace_scan old new k s'
    | O =>
      if startswith old s
      then new ++ replace_scan old new (List.length old - 1) s'
      else c :: replace_scan old new 0 s'
    end
  end.

(** [s.replace(old, new)]; an empty [old] matches before every character
    and at the end. *)
Definition replace (s old new : str) : str :=
  match old with
  | [] => new ++ flat_map (fun c => c :: new) s
  | _ :: _ => replace_scan old new 0 s
  end.

Fixpoint lstrip_with (sp : char -> bool) (s : str) : str :=
  match s with
  | [] => []
  | c :: s' => if sp c then lstrip_with sp s' else s
  end.

Definition strip_with (sp : char -> bool) (s : str) : str :=
  rev (lstrip_with sp (rev (lstrip_with sp s))).

(** ["c" * n] *)
Definition str_mul (c : str) (n : nat) : str := concat (repeat c n).

(** ** Exceptions and results *)

Inductive exn :=
| ValueError | TypeError | AttributeError | KeyError | IndexError
| OverflowError | ZeroDivisionError | EOFError | KeyboardInterrupt
| SystemExit (code : Z).

Inductive result (A : Type) :=
| Ok (a : A)
| Raise (e : exn).
Arguments Ok {A} a.
Arguments Raise {A} e.

Definition bind {A B} (r : result A) (k : A -> result B) : result B :=
  match r with
  | Ok a => k a
  | Raise e => Raise e
  end.

Notation "x <- r ;; k" := (bind r (fun x => k))
  (at level 61, r at next level, right associativity).

(** [try: body / except: handler] with a bare [except] *)
Definition try_except {A} (body : result A) (handler : result A) : result A :=
  match body with
  | Ok a => Ok a
  | Raise _ => handler
  end.

(** ** The parts of the runtime left abstract *)

Class PyRuntime := {
  (** [Py_UNICODE_ISSPACE], consulted for code points from 128 on *)
  uni_isspace : char -> bool;
  (** [Py_UNICODE_TODECIMAL], consulted for code points from 128 on *)
  uni_decimal : char -> option N;
  (** [_PyUnicode_IsCased], consulted for code points from 128 on *)
  uni_iscased : char -> bool;
  (** [_PyUnicode_ToTitleFull], consulted for code points from 128 on *)
  uni_totitle : char -> str;
  (** lower-casing of the character at a position of a string, with the
      final-sigma rule; consulted for code points from 128 on *)
  uni_tolower : str -> nat -> char -> str;
  (** [Py_UNICODE_ISPRINTABLE], consulted for code points from 128 on *)
  uni_isprintable : char -> bool;
  (** [float.__repr__] of a finite float *)
  float_repr : spec_float -> str;
  (** [urllib.parse.urljoin(base, url)], which raises [ValueError] on some
      malformed addresses *)
  urljoin : str -> str -> result str
}.

(** ** Integers and their text *)

Definition digit_of_N (d : N) (r : uint) : uint :=
  match d with
  | 0 => D0 r | 1 => D1 r | 2 => D2 r | 3 => D3 r | 4 => D4 r
  | 5 => D5 r | 6 => D6 r | 7 => D7 r | 8 => D8 r | _ => D9 r
  end%N.

Fixpoint uint_of_digits (ds : list N) : uint :=
  match ds with
  | [] => Nil
  | d :: r => digit_of_N d (uint_of_digits r)
  end.

Fixpoint chars_of_uint (d : uint) : str :=
  match d with
  | Nil => []
  | D0 r => 48%N :: chars_of_uint r
  | D1 r => 49%N :: chars_of_uint r
  | D2 r => 50%N :: chars_of_uint r
  | D3 r => 51%N :: chars_of_uint r
  | D4 r => 52%N :: chars_of_uint r
  | D5 r => 53%N :: chars_of_uint r
  | D6 r => 54%N :: chars_of_uint r
  | D7 r => 55%N :: chars_of_uint r
  | D8 r => 56%N :: chars_of_uint r
  | D9 r => 57%N :: chars_of_uint r
  end.

(** decimal digits of a natural number, without sign *)
Definition digits_of_N (n : N) : str := chars_of_uint (N.to_uint n).

(** [str(n)] for an [int] *)
Definition str_of_int (z : Z) : str :=
  match z with
  | Zneg p => 45%N :: digits_of_N (Npos p)
  | _ => digits_of_N (Z.to_N z)
  end.

(** Grouping for the [,] format option, on the reversed digits. *)
Fixpoint commas_rev (ds : str) (k : nat) : str :=
  match ds with
  | [] => []
  | c :: r =>
    match r with
    | [] => [c]
    | _ :: _ =>
      if Nat.eqb k 2 then c :: 44%N :: commas_rev r 0 else c :: commas_rev r (S k)
    end
  end.

Definition group_thousands (ds : str) : str := rev (commas_rev (rev ds) 0).

(** [f"{n:,}"] for an [int] *)
Definition format_comma (z : Z) : str :=
  match z with
  | Zneg p => 45%N :: group_thousands (digits_of_N (Npos p))
  | _ => group_thousands (digits_of_N (Z.to_N z))
  end.

Section Runtime.
Context {RT : PyRuntime}.

(** White space as [str.strip] sees it. *)
Definition is_space (c : char) : bool :=
  ((c =? 32) || ((9 <=? c) && (c <=? 13)) || ((28 <=? c) && (c <=? 31))
   || ((128 <=? c) && uni_isspace c))%N.

(** White space as [int] skips it around a numeral: the ASCII control
    characters 28 to 31 are not skipped. *)
Definition int_space (c : char) : bool :=
  ((c =? 32) || ((9 <=? c) && (c <=? 13)) || ((128 <=? c) && uni_isspace c))%N.

(** [s.strip()] *)
Definition strip (s : str) : str := strip_with is_space s.

Definition digit_value (c : char) : option N :=
  if ((48 <=? c) && (c <=? 57))%N then Some (c - 48)%N
  else if (c <? 128)%N then None
  else match uni_decimal c with
       | Some d => if (d <? 10)%N then Some d else None
       | None => None
       end.

(** The digits of a numeral body: decimal digits, with single underscores
    allowed between two digits. *)
Fixpoint body_digits (after_digit : bool) (s : str) : option (list N) :=
  match s with
  | [] => if after_digit then Some [] else None
  | c :: s' =>
    if (c =? 95)%N then
      if after_digit then body_digits false s' else None
    else
      match digit_value c with
      | Some d => option_map (cons d) (body_digits true s')
      | None => None
      end
  end.

Definition body_value (s : str) : option Z :=
  option_map (fun ds => Z.of_N (N.of_uint (uint_of_digits ds))) (body_digits false s).

(** [int(s)] for a string [s] *)
Definition int_of_str (s : str) : result Z :=
  let t := strip_with int_space s in
  let v :=
    match t with
    | c :: b =>
      if (c =? 43)%N then body_value b
      else if (c =? 45)%N then option_map Z.opp (body_value b)
      else body_value t
    | [] => body_value t
    end in
  match v with
  | Some z => Ok z
  | None => Raise ValueError
  end.

End Runtime.

(** ** Floats: binary64 *)

Definition prec : Z := 53.
Definition emax : Z := 1024.

(** The float of a Python [int] (correctly rounded). *)
Definition float_of_int (z : Z) : spec_float := binary_normalize prec emax z 0 false.

(** [a / b] for two [int]s: the correctly rounded quotient; a quotient too
    large for a float raises [OverflowError]. *)
Definition int_true_div (a b : Z) : result spec_float :=
  match b with
  | Z0 => Raise ZeroDivisionError
  | _ =>
    match a with
    | Z0 => Ok (S754_zero (b <? 0)%Z)
    | _ =>
      match SFdiv prec emax
              (S754_finite (a <? 0)%Z (Z.to_pos (Z.abs a)) 0)
              (S754_finite (b <? 0)%Z (Z.to_pos (Z.abs b)) 0) with
      | S754_infinity _ => Raise OverflowError
      | q => Ok q
      end
    end
  end.

(** [x * y] for two floats *)
Definition float_mul (x y : spec_float) : spec_float := SFmul prec emax x y.

(** Nearest integer to [num / den], ties to even ([0 <= num], [0 < den]). *)
Definition round_half_even (num den : Z) : Z :=
  let q := (num / den)%Z in
  let r := (num mod den)%Z in
  match (2 * r ?= den)%Z with
  | Lt => q
  | Gt => (q + 1)%Z
  | Eq => if Z.even q then q else (q + 1)%Z
  end.

(** The magnitude [m * 2^e] in tenths, rounded to nearest, ties to even. *)
Definition tenths (m : positive) (e : Z) : Z :=
  match e with
  | Zneg p => round_half_even (10 * Zpos m) (2 ^ Zpos p)
  | _ => (10 * Zpos m * 2 ^ e)%Z
  end.

(** [f"{x:.1f}"] for a float *)
Definition format_1f (x : spec_float) : str :=
  match x with
  | S754_nan => u "nan"
  | S754_infinity s => if s then u "-inf" else u "inf"
  | S754_zero s => if s then u "-0.0" else u "0.0"
  | S754_finite s m e =>
    let t := tenths m e in
    (if s then u "-" else []) ++ digits_of_N (Z.to_N (t / 10))
      ++ u "." ++ digits_of_N (Z.to_N (t mod 10))
  end.

(** [int(x)] for a float: truncation towards zero. *)
Definition int_of_float (x : spec_float) : result Z :=
  match x with
  | S754_nan => Raise ValueError
  | S754_infinity _ => Raise OverflowError
  | S754_zero _ => Ok 0%Z
  | S754_finite s m e =>
    let a := match e with
             | Zneg p => (Zpos m / 2 ^ Zpos p)%Z
             | _ => (Zpos m * 2 ^ e)%Z
             end in
    Ok (if s then (- a)%Z else a)
  end.

(** ** Decoded JSON values *)

Inductive value :=
| PyNone
| PyBool (b : bool)
| PyInt (z : Z)
| PyFloat (f : spec_float)
| PyStr (s : str)
| PyList (l : list value)
| PyDict (d : list (str * value)).

(** A [dict] is kept as its items in insertion order; a key is looked up at
    its first (and, in a dict, only) item. *)
Fixpoint dict_lookup {A} (k : str) (d : list (str * A)) : option A :=
  match d with
  | [] => None
  | (k', v) :: d' => if str_eqb k k' then Some v else dict_lookup k d'
  end.

Definition dict_keys {A} (d : list (str * A)) : list str := map fst d.

(** [k in d] for a dict *)
Definition dict_has {A} (k : str) (d : list (str * A)) : bool :=
  existsb (str_eqb k) (dict_keys d).

(** [bool(v)] *)
Definition truthy (v : value) : bool :=
  match v with
  | PyNone => false
  | PyBool b => b
  | PyInt z => negb (z =? 0)%Z
  | PyFloat (S754_zero _) => false
  | PyFloat _ => true
  | PyStr s => match s with [] => false | _ => true end
  | PyList l => match l with [] => false | _ => true end
  | PyDict d => match d with [] => false | _ => true end
  end.

(** [k in v] for a string [k] *)
Definition py_in (k : str) (v : value) : result bool :=
  match v with
  | PyDict d => Ok (dict_has k d)
  | PyList l =>
    Ok (existsb (fun x => match x with PyStr s => str_eqb k s | _ => false end) l)
  | PyStr s => Ok (str_contains k s)
  | _ => Raise TypeError
  end.

(** [v[k]] for a string [k] *)
Definition py_getitem (v : value) (k : str) : result value :=
  match v with
  | PyDict d => match dict_lookup k d with Some x => Ok x | None => Raise KeyError end
  | _ => Raise TypeError
  end.

(** [v.get(k, default)]: only a dict has the method. *)
Definition py_get (v : value) (k : str) (default : value) : result value :=
  match v with
  | PyDict d => Ok (match dict_lookup k d with Some x => x | None => default end)
  | _ => Raise AttributeError
  end.

(** The items a [for] loop over [v] visits. *)
Definition py_iter (v : value) : result (list value) :=
  match v with
  | PyList l => Ok l
  | PyDict d => Ok (map PyStr (dict_keys d))
  | PyStr s => Ok (map (fun c => PyStr [c]) s)
  | _ => Raise TypeError
  end.

(** [v[:n]]; a dict cannot be sliced. *)
Definition py_slice_to (n : nat) (v : value) : result value :=
  match v with
  | PyList l => Ok (PyList (firstn n l))
  | PyStr s => Ok (PyStr (firstn n s))
  | _ => Raise TypeError
  end.

(** [len(v)] *)
Definition py_len (v : value) : result nat :=
  match v with
  | PyList l => Ok (List.length l)
  | PyDict d => Ok (List.length d)
  | PyStr s => Ok (List.length s)
  | _ => Raise TypeError
  end.

(** [sep.join(parts)] *)
Fixpoint join (sep : str) (parts : list str) : str :=
  match parts with
  | [] => []
  | [p] => p
  | p :: ps => p ++ sep ++ join sep ps
  end.

Definition hex_digit (d : N) : char := if (d <? 10)%N then (48 + d)%N else (87 + d)%N.

(** [n] in lower-case hexadecimal on [width] digits *)
Fixpoint hex_fixed (width : nat) (n : N) : str :=
  match width with
  | O => []
  | S w => hex_fixed w (n / 16)%N ++ [hex_digit (n mod 16)%N]
  end.

(** A string literal of [json.dumps(..., ensure_ascii=False)]: only the
    quote, the backslash and the control characters below 32 are escaped. *)
Definition json_escape (c : char) : str :=
  if (c =? 34)%N then [92; 34]%N
  else if (c =? 92)%N then [92; 92]%N
  else if (c =? 10)%N then [92; 110]%N
  else if (c =? 13)%N then [92; 114]%N
  else if (c =? 9)%N then [92; 116]%N
  else if (c =? 12)%N then [92; 102]%N
  else if (c =? 8)%N then [92; 98]%N
  else if (c <? 32)%N then [92; 117]%N ++ hex_fixed 4 c
  else [c].

Definition json_string (s : str) : str := [34%N] ++ flat_map json_escape s ++ [34%N].

(** A line break followed by the indentation of nesting depth [level]. *)
Definition newline_indent (level : nat) : str := 10%N :: str_mul (u " ") (2 * level).

Section Text.
Context {RT : PyRuntime}.

(** [repr(x)] for a float *)
Definition repr_float (x : spec_float) : str :=
  match x with
  | S754_nan => u "nan"
  | S754_infinity s => if s then u "-inf" else u "inf"
  | S754_zero s => if s then u "-0.0" else u "0.0"
  | S754_finite _ _ _ => float_repr x
  end.

(** The text of a float in [json.dumps]. *)
Definition json_float (x : spec_float) : str :=
  match x with
  | S754_nan => u "NaN"
  | S754_infinity s => if s then u "-Infinity" else u "Infinity"
  | _ => repr_float x
  end.

Definition repr_char (quote : char) (c : char) : str :=
  if ((c =? quote) || (c =? 92))%N then [92%N; c]
  else if (c =? 9)%N then [92; 116]%N
  else if (c =? 10)%N then [92; 110]%N
  else if (c =? 13)%N then [92; 114]%N
  else if ((c <? 32) || (c =? 127))%N then [92; 120]%N ++ hex_fixed 2 c
  else if (c <? 127)%N then [c]
  else if uni_isprintable c then [c]
  else if (c <? 256)%N then [92; 120]%N ++ hex_fixed 2 c
  else if (c <? 65536)%N then [92; 117]%N ++ hex_fixed 4 c
  else [92; 85]%N ++ hex_fixed 8 c.

(** [repr(s)] for a string: single quotes unless the string holds a single
    quote and no double quote. *)
Definition repr_str (s : str) : str :=
  let quote : char :=
    if existsb (N.eqb 39) s && negb (existsb (N.eqb 34) s) then 34%N else 39%N in
  [quote] ++ flat_map (repr_char quote) s ++ [quote].

(** [repr(v)] *)
Fixpoint py_repr (v : value) : str :=
  match v with
  | PyNone => u "None"
  | PyBool b => if b then u "True" else u "False"
  | PyInt z => str_of_int z
  | PyFloat f => repr_float f
  | PyStr s => repr_str s
  | PyList l => u "[" ++ join (u ", ") (map py_repr l) ++ u "]"
  | PyDict d =>
    u "{" ++ join (u ", ") (map (fun kv => repr_str (fst kv) ++ u ": " ++ py_repr (snd kv)) d)
      ++ u "}"
  end.

(** [str(v)], which is also [format(v, "")] and what an f-string field
    without format specification inserts. *)
Definition py_str (v : value) : str :=
  match v with
  | PyStr s => s
  | _ => py_repr v
  end.

(** [int(v)] *)
Definition py_int (v : value) : result Z :=
  match v with
  | PyInt z => Ok z
  | PyBool b => Ok (if b then 1 else 0)%Z
  | PyFloat f => int_of_float f
  | PyStr s => int_of_str s
  | _ => Raise TypeError
  end.

(** [json.dumps(v, indent=2, ensure_ascii=False)] at nesting depth [level]. *)
Fixpoint dumps_at (level : nat) (v : value) : str :=
  match v with
  | PyNone => u "null"
  | PyBool b => if b then u "true" else u "false"
  | PyInt z => str_of_int z
  | PyFloat f => json_float f
  | PyStr s => json_string s
  | PyList [] => u "[]"
  | PyList l =>
    u "[" ++ newline_indent (S level)
      ++ join (u "," ++ newline_indent (S level)) (map (dumps_at (S level)) l)
      ++ newline_indent level ++ u "]"
  | PyDict [] => u "{}"
  | PyDict d =>
    u "{" ++ newline_indent (S level)
      ++ join (u "," ++ newline_indent (S level))
           (map (fun kv => json_string (fst kv) ++ u ": " ++ dumps_at (S level) (snd kv)) d)
      ++ newline_indent level ++ u "}"
  end.

Definition json_dumps (v : value) : str := dumps_at 0 v.

End Text.

(** ** Letter case: [str.title] *)

Definition ascii_isupper (c : char) : bool := ((65 <=? c) && (c <=? 90))%N.
Definition ascii_islower (c : char) : bool := ((97 <=? c) && (c <=? 122))%N.
Definition ascii_upper (c : char) : char := if ascii_islower c then (c - 32)%N else c.
Definition ascii_lower (c : char) : char := if ascii_isupper c then (c + 32)%N else c.

Section Title.
Context {RT : PyRuntime}.

Definition is_cased (c : char) : bool :=
  if (c <? 128)%N then ascii_isupper c || ascii_islower c else uni_iscased c.

Definition to_title (c : char) : str :=
  if (c <? 128)%N then [ascii_upper c] else uni_totitle c.

Definition to_lower (whole : str) (i : nat) (c : char) : str :=
  if (c <? 128)%N then [ascii_lower c] else uni_tolower whole i c.

(** The scan of [str.title]: a character that follows a cased character is
    lower-cased, any other character is title-cased. *)
Fixpoint title_from (whole : str) (i : nat) (previous_is_cased : bool) (s : str) : str :=
  match s with
  | [] => []
  | c :: s' =>
    (if previous_is_cased then to_lower whole i c else to_title c)
      ++ title_from whole (S i) (is_cased c) s'
  end.

(** [s.title()] *)
Definition title (s : str) : str := title_from s 0 false s.

End Title.

(** ** The console *)

Definition nl : str := [10%N].

(** [self.chains] as built by [__init__]. *)
Definition registry : list (str * list (str * str)) :=
  [ (u "evm",
     [ (u "name", u "Cronos EVM Chain");
       (u "base_url", u "https://rest.cronos.org/");
       (u "description",
        u "Cronos EVM-compatible chain for smart contracts and DeFi (DEFAULT)") ]);
    (u "pos",
     [ (u "name", u "Cronos POS Chain");
       (u "base_url", u "https://rest.mainnet.crypto.org/");
       (u "description", u "Cronos Proof-of-Stake chain for Cosmos SDK modules") ]) ].

(** The attributes of a [CronosCLI] object the modelled methods read or
    write (the HTTP session and the table of modules are left out). *)
Record CronosCLI := {
  base_url : str;
  chains : list (str * list (str * str));
  current_chain : str
}.

Definition lookup_or_KeyError {A} (k : str) (d : list (str * A)) : result A :=
  match dict_lookup k d with
  | Some x => Ok x
  | None => Raise KeyError
  end.

(** [self._update_base_url()] *)
Definition _update_base_url (self : CronosCLI) : result CronosCLI :=
  info <- lookup_or_KeyError self.(current_chain) self.(chains) ;;
  url <- lookup_or_KeyError (u "base_url") info ;;
  Ok {| base_url := url; chains := self.(chains); current_chain := self.(current_chain) |}.

(** [CronosCLI(base_url)] *)
Definition __init__ (base_url_arg : str) : result CronosCLI :=
  _update_base_url
    {| base_url := base_url_arg; chains := registry; current_chain := u "evm" |}.

(** [self.switch_chain(chain_key)]: the returned flag and the object after
    the call. *)
Definition switch_chain (self : CronosCLI) (chain_key : str) : result (bool * CronosCLI) :=
  if dict_has chain_key self.(chains) then
    self' <- _update_base_url
               {| base_url := self.(base_url); chains := self.(chains);
                  current_chain := chain_key |} ;;
    Ok (true, self')
  else Ok (false, self).

(** [self.get_current_chain_info()] *)
Definition get_current_chain_info (self : CronosCLI) : result (list (str * str)) :=
  lookup_or_KeyError self.(current_chain) self.(chains).

(** A run of calls to [switch_chain], the object being threaded through. *)
Fixpoint switch_all (self : CronosCLI) (keys : list str) : result CronosCLI :=
  match keys with
  | [] => Ok self
  | k :: ks => r <- switch_chain self k ;; switch_all (snd r) ks
  end.

(** ** Path parameters *)

Section Request.
Context {RT : PyRuntime}.

(** [f"{{{key}}}"] *)
Definition placeholder (key : str) : str := u "{" ++ key ++ u "}".

(** The loop of [make_request] over [params.items()]. *)
Definition substitute_params (url : str) (params : list (str * value)) : str :=
  fold_left (fun url kv => replace url (placeholder (fst kv)) (py_str (snd kv))) params url.

(** The address [make_request] asks the session for; [params] is [None] or
    a dict.  The request itself and the decoding of the answer are outside
    the model. *)
Definition request_url (self : CronosCLI) (endpoint : str)
    (params : option (list (str * value))) : result str :=
  url <- urljoin self.(base_url) endpoint ;;
  match params with
  | Some ((_ :: _) as items) => Ok (substitute_params url items)
  | _ => Ok url
  end.

End Request.

(** ** The menu *)

(** What a call of [input] meets: a line, or the user's interrupt; at the
    end of the input [input] raises [EOFError]. *)
Inductive input_event :=
| Line (s : str)
| Interrupt.

(** [print(s)] appends [s] and a line break to what was written. *)
Definition print (out : list str) (s : str) : list str := out ++ [s ++ nl].

(** The prompt [input] writes. *)
Definition prompt (out : list str) (s : str) : list str := out ++ [s].

Definition str_of_nat (n : nat) : str := digits_of_N (N.of_nat n).

Section Menu.
Context {RT : PyRuntime}.

Definition menu_prompt (options : list (str * str)) : str :=
  nl ++ u "Select an option (1-" ++ str_of_nat (List.length options) ++ u "): ".

Definition out_of_range_message (options : list (str * str)) : str :=
  u "❌ Please enter a number between 1 and " ++ str_of_nat (List.length options).

Definition not_a_number_message : str := u "❌ Please enter a valid number".

(** The [while True] loop of [display_menu]: the result, the input left
    and everything written. *)
Fixpoint menu_loop (options : list (str * str)) (ins : list input_event) (out : list str)
  : result str * list input_event * list str :=
  let out := prompt out (menu_prompt options) in
  match ins with
  | [] => (Raise EOFError, [], out)
  | Interrupt :: ins' =>
    (Raise (SystemExit 0), ins', print out (nl ++ u "👋 Goodbye!"))
  | Line l :: ins' =>
    let choice := strip l in
    match int_of_str choice with
    | Ok choice_num =>
      if ((1 <=? choice_num) && (choice_num <=? Z.of_nat (List.length options)))%Z
      then
        match nth_error (dict_keys options) (Z.to_nat (choice_num - 1)) with
        | Some key => (Ok key, ins', out)
        | None => (Raise IndexError, ins', out)
        end
      else menu_loop options ins' (print out (out_of_range_message options))
    | Raise ValueError => menu_loop options ins' (print out not_a_number_message)
    | Raise e => (Raise e, ins', out)
    end
  end.

(** The numbered lines of the menu, counted from [i]. *)
Fixpoint menu_lines (i : nat) (options : list (str * str)) : list str :=
  match options with
  | [] => []
  | (_, value) :: rest => (str_of_nat i ++ u ". " ++ value ++ nl) :: menu_lines (S i) rest
  end.

(** [self.display_menu(title, options)] *)
Definition display_menu (title : str) (options : list (str * str))
    (ins : list input_event) (out : list str)
  : result str * list input_event * list str :=
  let out := print out (nl ++ u "🔹 " ++ title) in
  let out := print out (str_mul (u "=") 50) in
  menu_loop options ins (out ++ menu_lines 1 options).

End Menu.

(** ** The response formatter *)

Section Formatter.
Context {RT : PyRuntime}.

Definition hundred : spec_float := float_of_int 100.

(** [(count / total) * 100] *)
Definition percent (count total : Z) : result spec_float :=
  q <- int_true_div count total ;;
  Ok (float_mul q hundred).

(** [self._format_tally(tally)] *)
Definition _format_tally (tally : value) : result str :=
  let result := u "🗳️  PROPOSAL TALLY RESULTS" ++ nl in
  let result := result ++ str_mul (u "=") 40 ++ nl in
  yes_raw <- py_get tally (u "yes_count") (PyStr (u "0")) ;;
  yes_count <- py_int yes_raw ;;
  no_raw <- py_get tally (u "no_count") (PyStr (u "0")) ;;
  no_count <- py_int no_raw ;;
  abstain_raw <- py_get tally (u "abstain_count") (PyStr (u "0")) ;;
  abstain_count <- py_int abstain_raw ;;
  veto_raw <- py_get tally (u "no_with_veto_count") (PyStr (u "0")) ;;
  veto_count <- py_int veto_raw ;;
  let total := (yes_count + no_count + abstain_count + veto_count)%Z in
  if (total >? 0)%Z then
    yes_pct <- percent yes_count total ;;
    no_pct <- percent no_count total ;;
    abstain_pct <- percent abstain_count total ;;
    veto_pct <- percent veto_count total ;;
    let result := result ++ u "✅ Yes:     " ++ format_comma yes_count
                    ++ u " (" ++ format_1f yes_pct ++ u "%)" ++ nl in
    let result := result ++ u "❌ No:      " ++ format_comma no_count
                    ++ u " (" ++ format_1f no_pct ++ u "%)" ++ nl in
    let result := result ++ u "⏸️  Abstain: " ++ format_comma abstain_count
                    ++ u " (" ++ format_1f abstain_pct ++ u "%)" ++ nl in
    let result := result ++ u "🚫 Veto:    " ++ format_comma veto_count
                    ++ u " (" ++ format_1f veto_pct ++ u "%)" ++ nl in
    Ok (result ++ nl ++ u "📊 Total Votes: " ++ format_comma total)
  else
    Ok (result ++ u "No votes cast yet").

(** The text shown for an amount: the [try]/[except] of [_format_balances]
    and [_format_validators]. *)
Definition amount_text (amount : value) : str :=
  match py_int amount with
  | Ok amount_num =>
    if (amount_num >? 1000000)%Z then format_comma amount_num else str_of_int amount_num
  | Raise _ => py_str amount
  end.

(** One turn of the loop of [_format_balances]. *)
Definition balance_line (balance : value) : result str :=
  denom <- py_get balance (u "denom") (PyStr (u "unknown")) ;;
  amount <- py_get balance (u "amount") (PyStr (u "0")) ;;
  Ok (u "🪙 " ++ py_str denom ++ u ": " ++ amount_text amount ++ nl).

(** A [for] loop whose body appends one piece of text to [result]. *)
Fixpoint append_each {A} (body : A -> result str) (items : list A) (result0 : str)
  : result str :=
  match items with
  | [] => Ok result0
  | x :: rest => line <- body x ;; append_each body rest (result0 ++ line)
  end.

(** [self._format_balances(data)] *)
Definition _format_balances (data : value) : result str :=
  let result := u "💰 ACCOUNT BALANCES" ++ nl in
  let result := result ++ str_mul (u "=") 30 ++ nl in
  balances <- py_get data (u "balances") (PyList []) ;;
  if negb (truthy balances) then Ok (result ++ u "No balances found")
  else
    items <- py_iter balances ;;
    append_each balance_line items result.

(** [status.replace("PROPOSAL_STATUS_", "").title()]; only a string has
    the methods. *)
Definition clean_status (status : value) : result str :=
  match status with
  | PyStr s => Ok (title (replace s (u "PROPOSAL_STATUS_") []))
  | _ => Raise AttributeError
  end.

(** One turn of the loop of [_format_proposals]. *)
Definition proposal_line (proposal : value) : result str :=
  prop_id <- py_get proposal (u "id") (PyStr (u "unknown")) ;;
  status <- py_get proposal (u "status") (PyStr (u "unknown")) ;;
  status_clean <- clean_status status ;;
  Ok (u "📄 Proposal #" ++ py_str prop_id ++ u ": " ++ status_clean ++ nl).

(** [self._format_proposals(data)] *)
Definition _format_proposals (data : value) : result str :=
  let result := u "📋 GOVERNANCE PROPOSALS" ++ nl in
  let result := result ++ str_mul (u "=") 35 ++ nl in
  proposals <- py_get data (u "proposals") (PyList []) ;;
  if negb (truthy proposals) then Ok (result ++ u "No proposals found")
  else
    shown <- py_slice_to 5 proposals ;;
    items <- py_iter shown ;;
    result <- append_each proposal_line items result ;;
    n <- py_len proposals ;;
    if (5 <? n)%nat
    then Ok (result ++ u "... and " ++ str_of_nat (n - 5) ++ u " more proposals")
    else Ok result.

(** [v.get("status") == "BOND_STATUS_BONDED"] *)
Definition is_bonded (v : value) : result bool :=
  status <- py_get v (u "status") PyNone ;;
  Ok match status with
     | PyStr s => str_eqb s (u "BOND_STATUS_BONDED")
     | _ => false
     end.

(** A list comprehension with a condition. *)
Fixpoint filter_result {A} (cond : A -> result bool) (items : list A) : result (list A) :=
  match items with
  | [] => Ok []
  | x :: rest =>
    b <- cond x ;;
    kept <- filter_result cond rest ;;
    Ok (if b then x :: kept else kept)
  end.

(** One turn of the loop of [_format_validators]; [i] counts from 0. *)
Definition validator_line (iv : nat * value) : result str :=
  let (i, validator) := iv in
  description <- py_get validator (u "description") (PyDict []) ;;
  moniker <- py_get description (u "moniker") (PyStr (u "Unknown")) ;;
  tokens <- py_get validator (u "tokens") (PyStr (u "0")) ;;
  Ok (str_of_nat (i + 1) ++ u ". " ++ py_str moniker ++ u " - " ++ amount_text tokens
        ++ u " tokens" ++ nl).

(** [enumerate(items)] *)
Definition enumerate {A} (items : list A) : list (nat * A) :=
  combine (seq 0 (List.length items)) items.

(** [self._format_validators(data)] *)
Definition _format_validators (data : value) : result str :=
  let result := u "⚡ VALIDATORS" ++ nl in
  let result := result ++ str_mul (u "=") 20 ++ nl in
  validators <- py_get data (u "validators") (PyList []) ;;
  if negb (truthy validators) then Ok (result ++ u "No validators found")
  else
    items <- py_iter validators ;;
    active_validators <- filter_result is_bonded items ;;
    let result := result ++ u "🟢 Active Validators: "
                    ++ str_of_nat (List.length active_validators) ++ nl in
    n <- py_len validators ;;
    let result := result ++ u "📊 Total Validators: " ++ str_of_nat n ++ nl ++ nl in
    append_each validator_line (enumerate (firstn 3 active_validators)) result.

(** [self._format_pool(data)]; what the [try] block has appended to
    [result] stays when the [except] branch runs. *)
Definition _format_pool (data : value) : result str :=
  let result := u "🏊 STAKING POOL" ++ nl in
  let result := result ++ str_mul (u "=") 20 ++ nl in
  pool <- py_get data (u "pool") (PyDict []) ;;
  bonded_tokens <- py_get pool (u "bonded_tokens") (PyStr (u "0")) ;;
  not_bonded_tokens <- py_get pool (u "not_bonded_tokens") (PyStr (u "0")) ;;
  let handler (result : str) : str :=
    result ++ u "🔒 Bonded:     " ++ py_str bonded_tokens ++ nl
      ++ u "🔓 Unbonded:   " ++ py_str not_bonded_tokens in
  match py_int bonded_tokens with
  | Raise _ => Ok (handler result)
  | Ok bonded_num =>
    match py_int not_bonded_tokens with
    | Raise _ => Ok (handler result)
    | Ok not_bonded_num =>
      let total := (bonded_num + not_bonded_num)%Z in
      let result := result ++ u "🔒 Bonded:     " ++ format_comma bonded_num ++ nl in
      let result := result ++ u "🔓 Unbonded:   " ++ format_comma not_bonded_num ++ nl in
      let result := result ++ u "📊 Total:      " ++ format_comma total ++ nl in
      if (total >? 0)%Z then
        match percent bonded_num total with
        | Ok bonded_pct => Ok (result ++ u "📈 Bonded %:   " ++ format_1f bonded_pct ++ u "%")
        | Raise _ => Ok (handler result)
        end
      else Ok result
    end
  end.

(** One turn of the loops of [_format_rewards] and [_format_commission]. *)
Definition coin_line (coin : value) : result str :=
  denom <- py_get coin (u "denom") (PyStr (u "unknown")) ;;
  amount <- py_get coin (u "amount") (PyStr (u "0")) ;;
  Ok (u "🪙 " ++ py_str denom ++ u ": " ++ py_str amount ++ nl).

(** [self._format_rewards(data)] *)
Definition _format_rewards (data : value) : result str :=
  let result := u "🎁 DELEGATION REWARDS" ++ nl in
  let result := result ++ str_mul (u "=") 25 ++ nl in
  rewards <- py_get data (u "rewards") (PyList []) ;;
  total <- py_get data (u "total") (PyList []) ;;
  if truthy total then
    items <- py_iter total ;;
    append_each coin_line items result
  else Ok (result ++ u "No rewards available").

(** [self._format_commission(data)] *)
Definition _format_commission (data : value) : result str :=
  let result := u "💼 VALIDATOR COMMISSION" ++ nl in
  let result := result ++ str_mul (u "=") 30 ++ nl in
  commission <- py_get data (u "commission") (PyDict []) ;;
  commission_amount <- py_get commission (u "commission") (PyList []) ;;
  if truthy commission_amount then
    items <- py_iter commission_amount ;;
    append_each coin_line items result
  else Ok (result ++ u "No commission data").

(** [self._format_block(data)] *)
Definition _format_block (data : value) : result str :=
  let result := u "🧱 BLOCK INFORMATION" ++ nl in
  let result := result ++ str_mul (u "=") 25 ++ nl in
  block <- py_get data (u "block") (PyDict []) ;;
  header <- py_get block (u "header") (PyDict []) ;;
  height <- py_get header (u "height") (PyStr (u "unknown")) ;;
  time <- py_get header (u "time") (PyStr (u "unknown")) ;;
  proposer <- py_get header (u "proposer_address") (PyStr (u "unknown")) ;;
  let result := result ++ u "📏 Height:    " ++ py_str height ++ nl in
  let result := result ++ u "⏰ Time:      " ++ py_str time ++ nl in
  short <- py_slice_to 20 proposer ;;
  Ok (result ++ u "👤 Proposer:  " ++ py_str short ++ u "...").

(** [self._format_node_info(data)] *)
Definition _format_node_info (self : CronosCLI) (data : value) : result str :=
  let result := u "🖥️  NODE INFORMATION" ++ nl in
  let result := result ++ str_mul (u "=") 25 ++ nl in
  node_info <- py_get data (u "node_info") (PyDict []) ;;
  application_version <- py_get node_info (u "application_version") (PyDict []) ;;
  version <- py_get application_version (u "version") (PyStr (u "unknown")) ;;
  name <- py_get application_version (u "name") (PyStr (u "unknown")) ;;
  info <- get_current_chain_info self ;;
  chain_name <- lookup_or_KeyError (u "name") info ;;
  let result := result ++ u "📦 Name:    " ++ py_str name ++ nl in
  let result := result ++ u "🏷️  Version: " ++ py_str version ++ nl in
  Ok (result ++ u "🌐 Network: " ++ chain_name).

(** [self.format_response(data)] *)
Definition format_response (self : CronosCLI) (data : value) : result str :=
  if negb (truthy data) then Ok (u "No data received")
  else
    b <- py_in (u "tally") data ;;
    if b then tally <- py_getitem data (u "tally") ;; _format_tally tally
    else
    b <- py_in (u "balances") data ;;
    if b then _format_balances data
    else
    b <- py_in (u "proposals") data ;;
    if b then _format_proposals data
    else
    b <- py_in (u "validators") data ;;
    if b then _format_validators data
    else
    b <- py_in (u "pool") data ;;
    if b then _format_pool data
    else
    b <- py_in (u "rewards") data ;;
    if b then _format_rewards data
    else
    b <- py_in (u "commission") data ;;
    if b then _format_commission data
    else
    b <- py_in (u "block") data ;;
    if b then _format_block data
    else
    b <- py_in (u "node_info") data ;;
    if b then _format_node_info self data
    else Ok (json_dumps data).

(** The dispatch as the specification puts it: an ordered list of pairs of a
    key and a renderer, of which the first whose key is present is applied. *)
Definition dispatch_table (self : CronosCLI) : list (str * (value -> result str)) :=
  [ (u "tally", fun data => tally <- py_getitem data (u "tally") ;; _format_tally tally);
    (u "balances", _format_balances);
    (u "proposals", _format_proposals);
    (u "validators", _format_validators);
    (u "pool", _format_pool);
    (u "rewards", _format_rewards);
    (u "commission", _format_commission);
    (u "block", _format_block);
    (u "node_info", _format_node_info self) ].

Definition first_rule (self : CronosCLI) (d : list (str * value))
  : option (str * (value -> result str)) :=
  find (fun rule => dict_has (fst rule) d) (dispatch_table self).

End Formatter.

(** ** Vocabulary of the statements *)

(** A runtime for running the model on ASCII data: no code point from 128
    on is a space, a digit or a cased letter, all of them are printable,
    and [urljoin] appends a relative path to a base address that ends in a
    slash (what the library does on the addresses and paths of the
    registry).  Its [float_repr] is a stand-in: no example prints a float.
    It serves to evaluate the model on concrete inputs; every general
    statement below holds for all runtimes. *)
Definition ascii_runtime : PyRuntime :=
  {| uni_isspace := fun _ => false;
     uni_decimal := fun _ => None;
     uni_iscased := fun _ => false;
     uni_totitle := fun c => [c];
     uni_tolower := fun _ _ c => [c];
     uni_isprintable := fun _ => true;
     float_repr := fun _ => u "0.5";
     urljoin := fun base url => Ok (base ++ url) |}.

(** The object right after construction. *)
Definition fresh_cli : CronosCLI :=
  {| base_url := u "https://rest.cronos.org/"; chains := registry;
     current_chain := u "evm" |}.

(** The value of a field of a JSON object, or a default text. *)
Definition field (d : list (str * value)) (k : str) (default : str) : value :=
  match dict_lookup k d with
  | Some v => v
  | None => PyStr default
  end.

Definition is_digit (c : char) : bool := ((48 <=? c) && (c <=? 57))%N.

(** A numeric string: one or more of the digits 0 to 9. *)
Definition digit_string (s : str) : bool :=
  match s with
  | [] => false
  | _ :: _ => forallb is_digit s
  end.

(** The number a numeric string denotes. *)
Definition digits_value (s : str) : Z :=
  Z.of_N (N.of_uint (uint_of_digits (map (fun c => (c - 48)%N) s))).

(** A numeral without superfluous leading zero. *)
Definition canonical_numeral (s : str) : bool :=
  digit_string s &&
  match s with
  | c :: _ :: _ => negb (c =? 48)%N
  | _ => true
  end.

(** A count of a tally as the renderer is meant to read it: an absent field
    counts 0, a present one is a numeric string. *)
Definition count_reads (tally : list (str * value)) (k : str) (n : Z) : Prop :=
  match dict_lookup k tally with
  | None => n = 0%Z
  | Some (PyStr s) => digit_string s = true /\ n = digits_value s
  | Some _ => False
  end.

Definition tally_header : str :=
  u "🗳️  PROPOSAL TALLY RESULTS" ++ nl ++ str_mul (u "=") 40 ++ nl.

(** A category of the tally: its count with thousands separators and its
    percentage with one decimal. *)
Definition category_line (label : str) (count : Z) (pct : spec_float) : str :=
  label ++ format_comma count ++ u " (" ++ format_1f pct ++ u "%)" ++ nl.

Definition no_comma (c : char) : bool := negb (c =? 44)%N.

(** The count fields of a tally. *)
Definition count_fields : list str :=
  [u "yes_count"; u "no_count"; u "abstain_count"; u "no_with_veto_count"].

(** A path template read as literal text and [{name}] tokens. *)
Inductive segment :=
| Lit (text : str)
| Tok (name : str).

Definition no_open_brace (s : str) : bool := forallb (fun c => negb (c =? 123)%N) s.
Definition no_close_brace (s : str) : bool := forallb (fun c => negb (c =? 125)%N) s.
Definition brace_free (s : str) : bool := no_open_brace s && no_close_brace s.

Definition segment_ok (seg : segment) : bool :=
  match seg with
  | Lit text => no_open_brace text
  | Tok name => brace_free name
  end.

(** One step of the substitution on a template: the tokens of one name
    become literal text. *)
Definition subst1 (k new : str) (seg : segment) : segment :=
  match seg with
  | Tok name => if str_eqb name k then Lit new else seg
  | Lit _ => seg
  end.

Definition balances_header : str :=
  u "💰 ACCOUNT BALANCES" ++ nl ++ str_mul (u "=") 30 ++ nl.

Definition proposals_header : str :=
  u "📋 GOVERNANCE PROPOSALS" ++ nl ++ str_mul (u "=") 35 ++ nl.

(** Removal of a prefix, when it is one. *)
Definition strip_prefix (p s : str) : str :=
  if startswith p s then skipn (List.length p) s else s.

(** The status of a proposal is a string or is absent. *)
Definition status_is_text (p : list (str * value)) : bool :=
  match dict_lookup (u "status") p with
  | Some (PyStr _) | None => true
  | Some _ => false
  end.

Section Vocabulary.
Context {RT : PyRuntime}.

Definition render_segment (seg : segment) : str :=
  match seg with
  | Lit text => text
  | Tok name => placeholder name
  end.

(** The text of a template. *)
Definition render_template (segs : list segment) : str := flat_map render_segment segs.

(** A segment after substitution of all parameters at once: a token whose
    name has a value becomes the text of the value, any other token stays. *)
Definition fill (params : list (str * value)) (seg : segment) : str :=
  match seg with
  | Lit text => text
  | Tok name =>
    match dict_lookup name params with
    | Some v => py_str v
    | None => placeholder name
    end
  end.

Definition param_ok (kv : str * value) : bool :=
  brace_free (fst kv) && no_open_brace (py_str (snd kv)).

(** The line of [_format_balances] for one pair. *)
Definition balance_entry (b : list (str * value)) : str :=
  u "🪙 " ++ py_str (field b (u "denom") (u "unknown")) ++ u ": "
    ++ amount_text (field b (u "amount") (u "0")) ++ nl.

(** The status of a proposal as shown. *)
Definition status_shown (p : list (str * value)) : str :=
  match field p (u "status") (u "unknown") with
  | PyStr s => title (replace s (u "PROPOSAL_STATUS_") [])
  | _ => []
  end.

(** The line of [_format_proposals] for one proposal. *)
Definition proposal_entry (p : list (str * value)) : str :=
  u "📄 Proposal #" ++ py_str (field p (u "id") (u "unknown")) ++ u ": "
    ++ status_shown p ++ nl.

(** The trailer of [_format_proposals] for [n] proposals. *)
Definition proposals_trailer (n : nat) : str :=
  if (5 <? n)%nat then u "... and " ++ str_of_nat (n - 5) ++ u " more proposals" else [].

(** The line for one proposal as the specification words it: only a
    leading [PROPOSAL_STATUS_] is taken off before the title-casing. *)
Definition proposal_entry_as_specified (p : list (str * value)) : str :=
  u "📄 Proposal #" ++ py_str (field p (u "id") (u "unknown")) ++ u ": "
    ++ match field p (u "status") (u "unknown") with
       | PyStr s => title (strip_prefix (u "PROPOSAL_STATUS_") s)
       | _ => []
       end
    ++ nl.

(** How the menu takes a line of input. *)
Inductive reading :=
| NotANumber
| OutOfRange
| Choice (n : Z).

Definition read_choice (options : list (str * str)) (l : str) : reading :=
  match int_of_str (strip l) with
  | Ok n =>
    if ((1 <=? n) && (n <=? Z.of_nat (List.length options)))%Z then Choice n else OutOfRange
  | Raise _ => NotANumber
  end.

Definition is_choice (r : reading) : bool :=
  match r with
  | Choice _ => true
  | _ => false
  end.

(** What the menu writes on a refused line: the prompt that was answered
    and the message for the failure. *)
Definition refusal (options : list (str * str)) (l : str) : list str :=
  [ menu_prompt options;
    match read_choice options l with
    | OutOfRange => out_of_range_message options ++ nl
    | _ => not_a_number_message ++ nl
    end ].

(** What [display_menu] writes before its first prompt. *)
Definition menu_head (title : str) (options : list (str * str)) : list str :=
  [nl ++ u "🔹 " ++ title ++ nl; str_mul (u "=") 50 ++ nl] ++ menu_lines 1 options.

End Vocabulary.

(** The tally of the specification's example. *)
Definition example_tally : list (str * value) :=
  [ (u "yes_count", PyStr (u "70")); (u "no_count", PyStr (u "20"));
    (u "abstain_count", PyStr (u "5")); (u "no_with_veto_count", PyStr (u "5")) ].

(** Seven proposals for the examples. *)
Definition seven_proposals : list (list (str * value)) :=
  map (fun i => [(u "id", PyStr (str_of_int i)); (u "status", PyStr (u "PROPOSAL_STATUS_PASSED"))])
      [1; 2; 3; 4; 5; 6; 7]%Z.

(** [loc_ok m l num den]: the number [num / den] lies in [[m, m+1)] at the
    place [l] says. *)
Definition loc_ok (m : Z) (l : location) (num den : Z) : Prop :=
  match l with
  | loc_Exact => num = (m * den)%Z
  | loc_Inexact Lt => (m * den < num /\ 2 * num < (2 * m + 1) * den)%Z
  | loc_Inexact Eq => (2 * num = (2 * m + 1) * den)%Z
  | loc_Inexact Gt => ((2 * m + 1) * den < 2 * num /\ num < (m + 1) * den)%Z
  end.

(** The float built at the end of rounding. *)
Definition float_of (s : bool) (m e : Z) : spec_float :=
  match m with
  | Z0 => S754_zero s
  | Zpos p => if (e <=? emax - prec)%Z then S754_finite s p e else S754_infinity s
  | Zneg _ => S754_nan
  end.

(** The tenths a float is written with by [format_1f]. *)
Definition shown_tenths (x : spec_float) : Z :=
  match x with
  | S754_finite _ m e => tenths m e
  | _ => 0
  end.

(** A percentage as shown: [pct] is written as the decimal of its tenths,
    and these are the true tenths of a percent of [count] in [total] up to
    a half and 4920 / 2^52. *)
Definition shown_percentage_ok (count total : Z) (pct : spec_float) : Prop :=
  format_1f pct
  = digits_of_N (Z.to_N (shown_tenths pct / 10)) ++ u "."
      ++ digits_of_N (Z.to_N (shown_tenths pct mod 10)) /\
  (2 ^ 52 * Z.abs (shown_tenths pct * total - 1000 * count) <= (2 ^ 51 + 4920) * total)%Z.

(** The object is consistent: the current chain is one of the two
    registered keys and the base address is the one registered for it. *)
Definition consistent (self : CronosCLI) : Prop :=
  self.(chains) = registry /\
  (self.(current_chain) = u "evm" \/ self.(current_chain) = u "pos") /\
  exists info,
    dict_lookup self.(current_chain) self.(chains) = Some info /\
    dict_lookup (u "base_url") info = Some self.(base_url).

(** ** The prompt for a parameter *)

Section Prompts.
Context {RT : PyRuntime}.

Definition required_message : str := u "❌ This field is required".

(** [self.get_user_input(prompt, required)]: the result, the input left
    and everything written. *)
Fixpoint get_user_input (prompt_text : str) (required : bool)
    (ins : list input_event) (out : list str)
  : result str * list input_event * list str :=
  let out := prompt out (prompt_text ++ u ": ") in
  match ins with
  | [] => (Raise EOFError, [], out)
  | Interrupt :: ins' =>
    (Raise (SystemExit 0), ins', print out (nl ++ u "👋 Goodbye!"))
  | Line l :: ins' =>
    let value := strip l in
    if negb (truthy (PyStr value)) && required
    then get_user_input prompt_text required ins' (print out required_message)
    else (Ok value, ins', out)
  end.

End Prompts.

(** ** Vocabulary for the prompts and the other renderers *)

(** The field of a JSON object that is itself an object; an absent field
    reads as the empty object, the default of the [get] calls. *)
Definition object_field (d : list (str * value)) (k : str) : option (list (str * value)) :=
  match dict_lookup k d with
  | None => Some []
  | Some (PyDict o) => Some o
  | Some _ => None
  end.

(** The field of a JSON object that is a list; an absent field reads as
    the empty list. *)
Definition list_field (d : list (str * value)) (k : str) : option (list value) :=
  match dict_lookup k d with
  | None => Some []
  | Some (PyList l) => Some l
  | Some _ => None
  end.

(** A number, a boolean or null. *)
Definition is_scalar (v : value) : bool :=
  match v with
  | PyNone | PyBool _ | PyInt _ | PyFloat _ => true
  | _ => false
  end.

Definition validators_header : str := u "⚡ VALIDATORS" ++ nl ++ str_mul (u "=") 20 ++ nl.
Definition pool_header : str := u "🏊 STAKING POOL" ++ nl ++ str_mul (u "=") 20 ++ nl.
Definition rewards_header : str := u "🎁 DELEGATION REWARDS" ++ nl ++ str_mul (u "=") 25 ++ nl.
Definition commission_header : str :=
  u "💼 VALIDATOR COMMISSION" ++ nl ++ str_mul (u "=") 30 ++ nl.
Definition block_header : str := u "🧱 BLOCK INFORMATION" ++ nl ++ str_mul (u "=") 25 ++ nl.
Definition node_info_header : str :=
  u "🖥️  NODE INFORMATION" ++ nl ++ str_mul (u "=") 25 ++ nl.

(** A validator in the bonded state. *)
Definition bonded (v : list (str * value)) : bool :=
  match dict_lookup (u "status") v with
  | Some (PyStr s) => str_eqb s (u "BOND_STATUS_BONDED")
  | _ => false
  end.

(** The description of a validator is an object or is absent. *)
Definition described (v : list (str * value)) : bool :=
  match object_field v (u "description") with
  | Some _ => true
  | None => false
  end.

(** The three lines of [_format_pool] for two counts. *)
Definition pool_amounts (bonded_num not_bonded_num : Z) : str :=
  u "🔒 Bonded:     " ++ format_comma bonded_num ++ nl
    ++ u "🔓 Unbonded:   " ++ format_comma not_bonded_num ++ nl
    ++ u "📊 Total:      " ++ format_comma (bonded_num + not_bonded_num) ++ nl.

(** The key of a registered chain. *)
Definition registered (k : str) : bool := dict_has k registry.

(** A text registered for a chain. *)
Definition chain_text (k f : str) : str :=
  match dict_lookup k registry with
  | Some info => match dict_lookup f info with Some t => t | None => [] end
  | None => []
  end.

(** The base address registered for a chain. *)
Definition chain_address (k : str) : str := chain_text k (u "base_url").

(** The name registered for a chain. *)
Definition chain_name (k : str) : str := chain_text k (u "name").

Definition farewell : str := nl ++ u "👋 Goodbye!" ++ nl.

Section Entries.
Context {RT : PyRuntime}.

(** A line of input that is empty once stripped. *)
Definition blank (l : str) : bool := negb (truthy (PyStr (strip l))).

(** What [get_user_input] writes on a blank line: the prompt that was
    answered and the message. *)
Definition reprompt (prompt_text : str) : list str :=
  [prompt_text ++ u ": "; required_message ++ nl].

(** The line of [_format_validators] for the validator at position [i],
    counted from 0. *)
Definition validator_entry (iv : nat * list (str * value)) : str :=
  str_of_nat (fst iv + 1) ++ u ". "
    ++ py_str match object_field (snd iv) (u "description") with
              | Some d => field d (u "moniker") (u "Unknown")
              | None => PyNone
              end
    ++ u " - " ++ amount_text (field (snd iv) (u "tokens") (u "0")) ++ u " tokens" ++ nl.

(** The line of [_format_rewards] and [_format_commission] for one coin. *)
Definition coin_entry (c : list (str * value)) : str :=
  u "🪙 " ++ py_str (field c (u "denom") (u "unknown")) ++ u ": "
    ++ py_str (field c (u "amount") (u "0")) ++ nl.

(** The two lines [_format_pool] falls back to. *)
Definition pool_verbatim (pool : list (str * value)) : str :=
  u "🔒 Bonded:     " ++ py_str (field pool (u "bonded_tokens") (u "0")) ++ nl
    ++ u "🔓 Unbonded:   " ++ py_str (field pool (u "not_bonded_tokens") (u "0")).

End Entries.

(** The keys [format_response] looks for, in the order of its tests. *)
Definition rendered_keys : list str :=
  [ u "tally"; u "balances"; u "proposals"; u "validators"; u "pool"; u "rewards";
    u "commission"; u "block"; u "node_info" ].

(** ** The table of modules *)

(** An entry of [self.modules[...]["endpoints"]]: its keys [name], [path]
    and [params]. *)
Record endpoint := {
  endpoint_name : str;
  endpoint_path : str;
  endpoint_params : list str
}.

(** An entry of [self.modules]: its keys [name] and [endpoints]. *)
Record module_info := {
  module_name : str;
  module_endpoints : list (str * endpoint)
}.

Definition endpoint_of (name path : string) (params : list string) : endpoint :=
  {| endpoint_name := u name; endpoint_path := u path; endpoint_params := map u params |}.

(** [self.modules] as built by [__init__]; it is never written to
    afterwards. *)
Definition modules : list (str * module_info) :=
  [
    (u "auth",
     {| module_name := u "Authentication & Accounts";
        module_endpoints :=
          [
         (u "account",
          endpoint_of "Get account details"
            "cosmos/auth/v1beta1/accounts/{address}"
            ["address"]);
         (u "accounts",
          endpoint_of "List all accounts"
            "cosmos/auth/v1beta1/accounts"
            []);
         (u "params",
          endpoint_of "Get auth parameters"
            "cosmos/auth/v1beta1/params"
            []) ] |});
    (u "bank",
     {| module_name := u "Bank & Balances";
        module_endpoints :=
          [
         (u "balances",
          endpoint_of "Get account balances"
            "cosmos/bank/v1beta1/balances/{address}"
            ["address"]);
         (u "balance",
          endpoint_of "Get specific token balance"
            "cosmos/bank/v1beta1/balances/{address}/by_denom"
            ["address"; "denom"]);
         (u "supply",
          endpoint_of "Get total supply"
            "cosmos/bank/v1beta1/supply"
            []);
         (u "denom_metadata",
          endpoint_of "Get token metadata"
            "cosmos/bank/v1beta1/denoms_metadata"
            []) ] |});
    (u "gov",
     {| module_name := u "Governance";
        module_endpoints :=
          [
         (u "proposals",
          endpoint_of "List proposals"
            "cosmos/gov/v1/proposals"
            []);
         (u "proposal",
          endpoint_of "Get proposal details"
            "cosmos/gov/v1/proposals/{proposal_id}"
            ["proposal_id"]);
         (u "tally",
          endpoint_of "Get proposal tally"
            "cosmos/gov/v1/proposals/{proposal_id}/tally"
            ["proposal_id"]);
         (u "votes",
          endpoint_of "Get proposal votes"
            "cosmos/gov/v1/proposals/{proposal_id}/votes"
            ["proposal_id"]);
         (u "deposits",
          endpoint_of "Get proposal deposits"
            "cosmos/gov/v1/proposals/{proposal_id}/deposits"
            ["proposal_id"]);
         (u "params",
          endpoint_of "Get governance parameters"
            "cosmos/gov/v1/params"
            []) ] |});
    (u "staking",
     {| module_name := u "Staking";
        module_endpoints :=
          [
         (u "validators",
          endpoint_of "List validators"
            "cosmos/staking/v1beta1/validators"
            []);
         (u "validator",
          endpoint_of "Get validator details"
            "cosmos/staking/v1beta1/validators/{validator_addr}"
            ["validator_addr"]);
         (u "delegations",
          endpoint_of "Get delegations"
            "cosmos/staking/v1beta1/delegations/{delegator_addr}"
            ["delegator_addr"]);
         (u "delegation",
          endpoint_of "Get specific delegation"
            "cosmos/staking/v1beta1/delegators/{delegator_addr}/validators/{validator_addr}"
            ["delegator_addr"; "validator_addr"]);
         (u "unbonding_delegations",
          endpoint_of "Get unbonding delegations"
            "cosmos/staking/v1beta1/delegators/{delegator_addr}/unbonding_delegations"
            ["delegator_addr"]);
         (u "redelegations",
          endpoint_of "Get redelegations"
            "cosmos/staking/v1beta1/delegators/{delegator_addr}/redelegations"
            ["delegator_addr"]);
         (u "pool",
          endpoint_of "Get staking pool"
            "cosmos/staking/v1beta1/pool"
            []);
         (u "params",
          endpoint_of "Get staking parameters"
            "cosmos/staking/v1beta1/params"
            []) ] |});
    (u "distribution",
     {| module_name := u "Distribution & Rewards";
        module_endpoints :=
          [
         (u "rewards",
          endpoint_of "Get delegation rewards"
            "cosmos/distribution/v1beta1/delegators/{delegator_addr}/rewards"
            ["delegator_addr"]);
         (u "commission",
          endpoint_of "Get validator commission"
            "cosmos/distribution/v1beta1/validators/{validator_addr}/commission"
            ["validator_addr"]);
         (u "community_pool",
          endpoint_of "Get community pool"
            "cosmos/distribution/v1beta1/community_pool"
            []);
         (u "params",
          endpoint_of "Get distribution parameters"
            "cosmos/distribution/v1beta1/params"
            []) ] |});
    (u "slashing",
     {| module_name := u "Slashing";
        module_endpoints :=
          [
         (u "signing_infos",
          endpoint_of "Get signing infos"
            "cosmos/slashing/v1beta1/signing_infos"
            []);
         (u "signing_info",
          endpoint_of "Get validator signing info"
            "cosmos/slashing/v1beta1/signing_infos/{cons_address}"
            ["cons_address"]);
         (u "params",
          endpoint_of "Get slashing parameters"
            "cosmos/slashing/v1beta1/params"
            []) ] |});
    (u "mint",
     {| module_name := u "Minting";
        module_endpoints :=
          [
         (u "inflation",
          endpoint_of "Get current inflation"
            "cosmos/mint/v1beta1/inflation"
            []);
         (u "annual_provisions",
          endpoint_of "Get annual provisions"
            "cosmos/mint/v1beta1/annual_provisions"
            []);
         (u "params",
          endpoint_of "Get minting parameters"
            "cosmos/mint/v1beta1/params"
            []) ] |});
    (u "tendermint",
     {| module_name := u "Tendermint Core";
        module_endpoints :=
          [
         (u "node_info",
          endpoint_of "Get node info"
            "cosmos/base/tendermint/v1beta1/node_info"
            []);
         (u "syncing",
          endpoint_of "Get syncing status"
            "cosmos/base/tendermint/v1beta1/syncing"
            []);
         (u "latest_block",
          endpoint_of "Get latest block"
            "cosmos/base/tendermint/v1beta1/blocks/latest"
            []);
         (u "block_by_height",
          endpoint_of "Get block by height"
            "cosmos/base/tendermint/v1beta1/blocks/{height}"
            ["height"]);
         (u "validatorsets",
          endpoint_of "Get validator sets"
            "cosmos/base/tendermint/v1beta1/validatorsets/latest"
            []) ] |}) ]%string.

(** [d[k] = v] *)
Fixpoint dict_set {A} (k : str) (v : A) (d : list (str * A)) : list (str * A) :=
  match d with
  | [] => [(k, v)]
  | (k', v') :: d' => if str_eqb k k' then (k', v) :: d' else (k', v') :: dict_set k v d'
  end.

(** The loop that builds [chain_options] in [run]. *)
Fixpoint chain_options_from (items : list (str * list (str * str)))
    (chain_options : list (str * str)) : result (list (str * str)) :=
  match items with
  | [] => Ok chain_options
  | (key, value) :: rest =>
    name <- lookup_or_KeyError (u "name") value ;;
    description <- lookup_or_KeyError (u "description") value ;;
    let mark := if str_eqb key (u "evm") then u "⭐ " else u "   " in
    chain_options_from rest
      (dict_set key (mark ++ name ++ u " - " ++ description) chain_options)
  end.

(** The question [run] asks for a parameter. *)
Definition param_prompt (param : str) : str :=
  if str_eqb param (u "address") then u "Enter address"
  else if str_eqb param (u "proposal_id") then u "Enter proposal number"
  else if str_eqb param (u "validator_addr") then u "Enter validator address"
  else if str_eqb param (u "delegator_addr") then u "Enter delegator address"
  else if str_eqb param (u "cons_address") then u "Enter consensus address"
  else if str_eqb param (u "height") then u "Enter block height"
  else if str_eqb param (u "denom") then u "Enter token denomination"
  else u "Enter " ++ param.

(** ** The session *)

(** What [self.session.get(url, timeout=30)], [raise_for_status] and
    [response.json()] come to: the decoded body, an exception that is a
    [requests.exceptions.RequestException], or one that is a
    [json.JSONDecodeError] and no [RequestException]; the last two with
    their text. *)
Inductive http_outcome :=
| Answer (data : value)
| RequestException (message : str)
| JSONDecodeError (message : str).

(** What the program acts on: the object, the input still to come,
    everything written, and the number of requests sent. *)
Record world := {
  cli : CronosCLI;
  inputs : list input_event;
  output : list str;
  requests : nat
}.

(** A command: it may raise, and it leaves a world in both cases. *)
Definition io (A : Type) : Type := world -> result A * world.

Definition io_ret {A} (a : A) : io A := fun w => (Ok a, w).

Definition io_bind {A B} (m : io A) (k : A -> io B) : io B :=
  fun w =>
    match m w with
    | (Ok a, w') => k a w'
    | (Raise e, w') => (Raise e, w')
    end.

Notation "x <~ m ;; k" := (io_bind m (fun x => k))
  (at level 61, m at next level, right associativity).

(** A computation without effect. *)
Definition lift {A} (r : result A) : io A := fun w => (r, w).

(** A method that reads the input and writes. *)
Definition console {A}
    (f : list input_event -> list str -> result A * list input_event * list str) : io A :=
  fun w =>
    let '(r, ins, out) := f w.(inputs) w.(output) in
    (r, {| cli := w.(cli); inputs := ins; output := out; requests := w.(requests) |}).

(** [print(s)] *)
Definition io_print (s : str) : io unit :=
  console (fun ins out => (Ok tt, ins, print out s)).

(** [input(s)] *)
Definition io_input (s : str) : io str :=
  console (fun ins out =>
             match ins with
             | [] => (Raise EOFError, [], prompt out s)
             | Interrupt :: ins' => (Raise KeyboardInterrupt, ins', prompt out s)
             | Line l :: ins' => (Ok l, ins', prompt out s)
             end).

(** [self] *)
Definition this : io CronosCLI := fun w => (Ok w.(cli), w).

(** [self.switch_chain(chain_key)] on the object of the world. *)
Definition io_switch_chain (chain_key : str) : io bool :=
  fun w =>
    match switch_chain w.(cli) chain_key with
    | Ok (switched, self') =>
      (Ok switched,
       {| cli := self'; inputs := w.(inputs); output := w.(output);
          requests := w.(requests) |})
    | Raise e => (Raise e, w)
    end.

(** How a turn of the main loop ends. *)
Inductive flow :=
| Continue
| Break.

Section Session.
Context {RT : PyRuntime}.

(** The answer of the network to the [n]-th request of the session, sent
    to an address. *)
Variable session_get : nat -> str -> http_outcome.

(** [str(e)] for a caught exception: the model does not record the text
    an exception carries. *)
Variable exception_text : exn -> str.

(** [s.lower()] *)
Fixpoint lower_from (whole : str) (i : nat) (s : str) : str :=
  match s with
  | [] => []
  | c :: s' => to_lower whole i c ++ lower_from whole (S i) s'
  end.

Definition lower (s : str) : str := lower_from s 0 s.

(** [self.make_request(endpoint, params)]; [None] is returned as
    [PyNone].  An exception of [urljoin] is none of the two that are
    caught. *)
Definition make_request (endpoint : str) (params : option (list (str * value)))
  : io value :=
  self <~ this ;;
  url <~ lift (request_url self endpoint params) ;;
  outcome <~ (fun w =>
                (Ok (session_get w.(requests) url),
                 {| cli := w.(cli); inputs := w.(inputs); output := w.(output);
                    requests := S w.(requests) |})) ;;
  match outcome with
  | Answer data => io_ret data
  | RequestException message =>
    _ <~ io_print (u "❌ Error making request: " ++ message) ;;
    io_ret PyNone
  | JSONDecodeError message =>
    _ <~ io_print (u "❌ Error parsing JSON response: " ++ message) ;;
    io_ret PyNone
  end.

(** The chain menu of [run] (lines 592-599 and 663-670). *)
Definition chain_menu : io str :=
  self <~ this ;;
  chain_options <~ lift (chain_options_from self.(chains) []) ;;
  console (display_menu (u "Which chain would you like to query? (EVM is recommended)")
             chain_options).

(** The switch to the selected chain and its report (lines 601-607 and
    672-677); [verb] is "Selected" or "Switched to". *)
Definition switch_and_report (verb : str) (selected_chain : str) : io bool :=
  switched <~ io_switch_chain selected_chain ;;
  if switched then
    self <~ this ;;
    chain_info <~ lift (get_current_chain_info self) ;;
    name <~ lift (lookup_or_KeyError (u "name") chain_info) ;;
    _ <~ io_print (nl ++ u "✅ " ++ verb ++ u ": " ++ name) ;;
    _ <~ io_print (u "🌐 Base URL: " ++ self.(base_url)) ;;
    io_ret true
  else
    _ <~ io_print (u "❌ Invalid chain selection") ;;
    io_ret false.

(** The loop over [endpoint_info["params"]] (lines 624-642). *)
Fixpoint collect_params (names : list str) (params : list (str * value))
  : io (list (str * value)) :=
  match names with
  | [] => io_ret params
  | param :: rest =>
    value <~ console (get_user_input (param_prompt param) true) ;;
    collect_params rest (dict_set param (PyStr value) params)
  end.

(** Steps 2 and 3 of a turn of the loop and the look-up of the endpoint
    (lines 611-623). *)
Definition select_endpoint : io endpoint :=
  let module_options := map (fun kv => (fst kv, (snd kv).(module_name))) modules in
  selected_module <~ console (display_menu (u "Which module would you like to check?")
                                module_options) ;;
  module_entry <~ lift (lookup_or_KeyError selected_module modules) ;;
  let endpoint_options :=
    map (fun kv => (fst kv, (snd kv).(endpoint_name))) module_entry.(module_endpoints) in
  selected_endpoint <~ console (display_menu
                                  (u "What would you like to check in "
                                     ++ module_entry.(module_name) ++ u "?")
                                  endpoint_options) ;;
  lift (lookup_or_KeyError selected_endpoint module_entry.(module_endpoints)).

(** Step 5 of a turn of the loop (lines 645-653). *)
Definition fetch_and_show (endpoint_info : endpoint) (params : list (str * value))
  : io unit :=
  _ <~ io_print (nl ++ u "🔄 Making request to " ++ endpoint_info.(endpoint_path)
                   ++ u "...") ;;
  result <~ make_request endpoint_info.(endpoint_path) (Some params) ;;
  if truthy result then
    _ <~ io_print (nl ++ u "✅ Result:") ;;
    _ <~ io_print (str_mul (u "-") 50) ;;
    self <~ this ;;
    text <~ lift (format_response self result) ;;
    io_print text
  else io_print (u "❌ Failed to retrieve data").

(** Steps 2 to 5 of a turn of the loop (lines 611-653). *)
Definition query : io unit :=
  endpoint_info <~ select_endpoint ;;
  params <~ collect_params endpoint_info.(endpoint_params) [] ;;
  fetch_and_show endpoint_info params.

(** The end of a turn of the loop (lines 655-680). *)
Definition ask_continue : io flow :=
  self <~ this ;;
  chain_info <~ lift (get_current_chain_info self) ;;
  name <~ lift (lookup_or_KeyError (u "name") chain_info) ;;
  _ <~ io_print (nl ++ u "Current chain: " ++ name) ;;
  line <~ io_input (nl ++ u "Options: (q)uery again, (s)witch chain, (e)xit: ") ;;
  let continue_choice := lower (strip line) in
  if existsb (str_eqb continue_choice) [u "e"; u "exit"] then
    _ <~ io_print (u "👋 Goodbye!") ;;
    io_ret Break
  else if existsb (str_eqb continue_choice) [u "s"; u "switch"] then
    selected_chain <~ chain_menu ;;
    _ <~ switch_and_report (u "Switched to") selected_chain ;;
    io_ret Continue
  else if negb (existsb (str_eqb continue_choice) [u "q"; u "query"; u "y"; u "yes"; []])
  then
    _ <~ io_print (u "👋 Goodbye!") ;;
    io_ret Break
  else io_ret Continue.

(** The [try] statement of the loop: an interrupt ends the loop after the
    farewell, an exit passes through, any other exception is reported and
    the loop goes on. *)
Definition guarded (body : io flow) : io flow :=
  fun w =>
    match body w with
    | (Ok f, w') => (Ok f, w')
    | (Raise KeyboardInterrupt, w') =>
      (Ok Break, snd (io_print (nl ++ u "👋 Goodbye!") w'))
    | (Raise (SystemExit code), w') => (Raise (SystemExit code), w')
    | (Raise e, w') =>
      (Ok Continue, snd (io_print (u "❌ An error occurred: " ++ exception_text e) w'))
    end.

(** A turn of the [while True] loop of [run]. *)
Definition turn : io flow := guarded (_ <~ query ;; ask_continue).

(** The loop, for at most [fuel] turns: [None] when it is still running
    after them. *)
Fixpoint run_loop (fuel : nat) : io (option unit) :=
  match fuel with
  | O => io_ret None
  | S fuel' =>
    f <~ turn ;;
    match f with
    | Break => io_ret (Some tt)
    | Continue => run_loop fuel'
    end
  end.

(** [self.run()], the loop being followed for at most [fuel] turns. *)
Definition run (fuel : nat) : io (option unit) :=
  _ <~ io_print (u "🚀 Welcome to Cronos Chain Data Query CLI") ;;
  _ <~ io_print (str_mul (u "=") 50) ;;
  _ <~ io_print (u "This tool allows you to query data from Cronos EVM and POS chains") ;;
  selected_chain <~ chain_menu ;;
  switched <~ switch_and_report (u "Selected") selected_chain ;;
  if switched then run_loop fuel else io_ret (Some tt).

(** [main()] on a given input. *)
Definition main (fuel : nat) (ins : list input_event)
  : result (result (option unit) * world) :=
  self <- __init__ (u "https://rest.cronos.org/") ;;
  Ok (run fuel {| cli := self; inputs := ins; output := []; requests := 0 |}).

End Session.

(** ** Vocabulary for the table of modules and the session *)

(** Literal text read so far, put before the segments that follow. *)
Definition emit (lit : str) (segs : list segment) : list segment :=
  match lit with
  | [] => segs
  | _ :: _ => Lit lit :: segs
  end.

(** The reading of a path from left to right: [lit] is the literal text
    read since the last token, [name] the token being read, if any.  A
    brace that opens no token stays literal text. *)
Fixpoint parse_from (lit : str) (name : option str) (s : str) : list segment :=
  match s with
  | [] =>
    match name with
    | None => emit lit []
    | Some n => [Lit (lit ++ 123%N :: n)]
    end
  | c :: s' =>
    match name with
    | None =>
      if (c =? 123)%N then parse_from lit (Some []) s'
      else parse_from (lit ++ [c]) None s'
    | Some n =>
      if (c =? 125)%N then emit lit (Tok n :: parse_from [] None s')
      else if (c =? 123)%N then parse_from (lit ++ 123%N :: n) (Some []) s'
      else parse_from lit (Some (n ++ [c])) s'
    end
  end.

Definition parse_template (path : str) : list segment := parse_from [] None path.

(** The names of the tokens of a template. *)
Definition template_tokens (segs : list segment) : list str :=
  flat_map (fun seg => match seg with Tok name => [name] | Lit _ => [] end) segs.

(** A world at the end of its input. *)
Definition at_end_of_input (w : world) : Prop := w.(inputs) = [].

(** The world after more was written. *)
Definition written (w : world) (lines : list str) : world :=
  {| cli := w.(cli); inputs := w.(inputs); output := w.(output) ++ lines;
     requests := w.(requests) |}.

(** An exception that is an [Exception]: neither the interrupt nor the
    exit. *)
Definition is_exception (e : exn) : bool :=
  match e with
  | KeyboardInterrupt | SystemExit _ => false
  | _ => true
  end.

(** The options of the module menu. *)
Definition module_options : list (str * str) :=
  map (fun kv => (fst kv, (snd kv).(module_name))) modules.

(** The options of the chain menu. *)
Definition chain_options : list (str * str) :=
  [ (u "evm",
     u "⭐ Cronos EVM Chain - "
       ++ u "Cronos EVM-compatible chain for smart contracts and DeFi (DEFAULT)");
    (u "pos",
     u "   Cronos POS Chain - " ++ u "Cronos Proof-of-Stake chain for Cosmos SDK modules") ].

(** No string occurs twice. *)
Fixpoint distinct (l : list str) : bool :=
  match l with
  | [] => true
  | x :: r => negb (existsb (str_eqb x) r) && distinct r
  end.

(** What was checked of an endpoint of the table: its path reads as
    literal text and tokens, every token is a declared parameter, every
    declared parameter has its token (the denomination of the endpoint
    "balance" of the module "bank" apart), and the declared parameters are
    names without braces, each declared once. *)
Definition endpoint_checked (module_key endpoint_key : str) (e : endpoint) : bool :=
  let segs := parse_template e.(endpoint_path) in
  forallb segment_ok segs
  && forallb (fun name => existsb (str_eqb name) e.(endpoint_params)) (template_tokens segs)
  && forallb (fun p =>
                existsb (str_eqb p) (template_tokens segs)
                || (str_eqb module_key (u "bank") && str_eqb endpoint_key (u "balance")
                    && str_eqb p (u "denom")))
       e.(endpoint_params)
  && forallb brace_free e.(endpoint_params)
  && distinct e.(endpoint_params).

(** A computation that raises nothing but an [Exception]. *)
Definition safe {A} (r : result A) : Prop :=
  match r with
  | Ok _ => True
  | Raise e => is_exception e = true
  end.

(** How an exception may leave a command of the session: as an
    [Exception], as the interrupt, or as the exit with status 0 that
    follows the farewell. *)
Definition escapes (e : exn) (w : world) : Prop :=
  is_exception e = true \/ e = KeyboardInterrupt \/
  (e = SystemExit 0 /\ last w.(output) [] = farewell).

(** A command whose results satisfy [post] and whose exceptions leave in
    one of these ways. *)
Definition io_safe {A} (post : A -> world -> Prop) (m : io A) : Prop :=
  forall w,
    match m w with
    | (Ok a, w') => post a w'
    | (Raise e, w') => escapes e w'
    end.

(** The loop is left after a farewell only. *)
Definition after_goodbye (f : flow) (w : world) : Prop :=
  f = Break -> last w.(output) [] = u "👋 Goodbye!" ++ nl.

(** What a turn of the loop writes before the module menu is answered. *)
Definition module_menu_text : list str :=
  menu_head (u "Which module would you like to check?") module_options
    ++ [menu_prompt module_options].

(** No condition on a result. *)
Definition anything {A} (a : A) (w : world) : Prop := True.

(** The entry of a module in the table, and of one of its endpoints
    (empty when absent). *)
Definition module_at (module_key : str) : module_info :=
  match dict_lookup module_key modules with
  | Some m => m
  | None => {| module_name := []; module_endpoints := [] |}
  end.

Definition endpoint_at (module_key endpoint_key : str) : endpoint :=
  match dict_lookup endpoint_key (module_at module_key).(module_endpoints) with
  | Some e => e
  | None => {| endpoint_name := []; endpoint_path := []; endpoint_params := [] |}
  end.

(** A world for the examples: the given lines to come, nothing written,
    no request sent. *)
Definition scripted (self : CronosCLI) (lines : list str) : world :=
  {| cli := self; inputs := map Line lines; output := []; requests := 0 |}.

(** A network for the examples on which every request fails. *)
Definition offline (n : nat) (url : str) : http_outcome := RequestException (u "offline").

(** A network for the examples that answers every request with the tally
    of the specification's example. *)
Definition tally_server (n : nat) (url : str) : http_outcome :=
  Answer (PyDict [(u "tally", PyDict example_tally)]).

(** Exception texts for the examples. *)
Definition short_text (e : exn) : str :=
  match e with
  | EOFError => u "EOF when reading a line"
  | _ => u "error"
  end.

(** A command that keeps the object consistent and sends at most [n]
    requests. *)
Definition io_keeps {A} (n : nat) (m : io A) : Prop :=
  forall w,
    consistent w.(cli) ->
    consistent (snd (m w)).(cli) /\
    (w.(requests) <= (snd (m w)).(requests) <= w.(requests) + n)%nat.

(** * Properties *)

(** ** Strings and dictionaries *)

Lemma str_eqb_eq (a b : str) : str_eqb a b = true <-> a = b.
Proof.
  revert b; induction a as [|x a IH]; intros [|y b]; simpl; split; intro H;
    try reflexivity; try discriminate.
  - apply andb_true_iff in H as [Hx Hab].
    apply N.eqb_eq in Hx. apply IH in Hab. now subst.
  - injection H as -> ->. rewrite N.eqb_refl. now apply IH.
Qed.

Lemma str_eqb_refl (a : str) : str_eqb a a = true.
Proof. now apply str_eqb_eq. Qed.

Lemma str_eqb_neq (a b : str) : str_eqb a b = false <-> a <> b.
Proof.
  split.
  - intros H E. apply str_eqb_eq in E. congruence.
  - intros H. destruct (str_eqb a b) eqn:E; [apply str_eqb_eq in E; contradiction | reflexivity].
Qed.

Lemma dict_has_lookup {A} (k : str) (d : list (str * A)) :
  dict_has k d = true <-> exists v, dict_lookup k d = Some v.
Proof.
  unfold dict_has, dict_keys. induction d as [|[k' v] d IH]; simpl.
  - split; [discriminate | intros [v H]; discriminate].
  - destruct (str_eqb k k'); simpl.
    + split; [eauto | reflexivity].
    + exact IH.
Qed.

Lemma dict_has_false_lookup {A} (k : str) (d : list (str * A)) :
  dict_has k d = false <-> dict_lookup k d = None.
Proof.
  unfold dict_has, dict_keys. induction d as [|[k' v] d IH]; simpl.
  - tauto.
  - destruct (str_eqb k k'); simpl; [split; discriminate | exact IH].
Qed.

(** ** Switching chains *)

Lemma registered_keys (key : str) :
  dict_has key registry = true <-> key = u "evm" \/ key = u "pos".
Proof.
  unfold dict_has, registry, dict_keys. cbn [map fst existsb].
  rewrite !orb_true_iff, !str_eqb_eq. intuition discriminate.
Qed.

Lemma switch_registered (self : CronosCLI) (key : str) :
  self.(chains) = registry -> key = u "evm" \/ key = u "pos" ->
  exists url,
    switch_chain self key
      = Ok (true, {| base_url := url; chains := registry; current_chain := key |}) /\
    (exists info, dict_lookup key registry = Some info /\
                  dict_lookup (u "base_url") info = Some url).
Proof.
  intros Hc Hk. unfold switch_chain. rewrite Hc.
  destruct Hk as [-> | ->].
  - exists (u "https://rest.cronos.org/"). split; [vm_compute; reflexivity|].
    eexists; split; vm_compute; reflexivity.
  - exists (u "https://rest.mainnet.crypto.org/"). split; [vm_compute; reflexivity|].
    eexists; split; vm_compute; reflexivity.
Qed.

(** C5.  Switching to a key that is not in the registry of chains returns
    False and leaves the object, hence the current chain and the base
    address, as it was; switching to one of the two registered keys returns
    True and makes that key the current chain. *)
Theorem switch_chain_outcome (self : CronosCLI) (key : str) :
  (dict_has key self.(chains) = false -> switch_chain self key = Ok (false, self)) /\
  (self.(chains) = registry -> key = u "evm" \/ key = u "pos" ->
   exists self', switch_chain self key = Ok (true, self') /\
                 self'.(current_chain) = key /\ self'.(chains) = self.(chains)).
Proof.
  split.
  - intros Hk. unfold switch_chain. now rewrite Hk.
  - intros Hc Hk. destruct (switch_registered self key Hc Hk) as (url & E & _).
    eexists. split; [exact E|]. split; [reflexivity | now rewrite Hc].
Qed.

Lemma switch_chain_outcome_witness :
  dict_has (u "testnet") fresh_cli.(chains) = false /\
  switch_chain fresh_cli (u "testnet") = Ok (false, fresh_cli) /\
  fresh_cli.(chains) = registry /\
  (exists self', switch_chain fresh_cli (u "pos") = Ok (true, self') /\
                 self'.(current_chain) = u "pos" /\ self'.(chains) = fresh_cli.(chains)).
Proof.
  split; [reflexivity|].
  split; [apply (switch_chain_outcome fresh_cli (u "testnet")); reflexivity|].
  split; [reflexivity|].
  apply (switch_chain_outcome fresh_cli (u "pos")); [reflexivity|].
  right. reflexivity.
Defined.

Lemma fresh_cli_consistent : consistent fresh_cli.
Proof.
  split; [reflexivity|]. split; [left; reflexivity|].
  exists [ (u "name", u "Cronos EVM Chain");
           (u "base_url", u "https://rest.cronos.org/");
           (u "description",
            u "Cronos EVM-compatible chain for smart contracts and DeFi (DEFAULT)") ].
  split; vm_compute; reflexivity.
Qed.

Lemma init_consistent (base_url_arg : str) :
  exists self, __init__ base_url_arg = Ok self /\ consistent self.
Proof.
  exists fresh_cli. split; [vm_compute; reflexivity | exact fresh_cli_consistent].
Qed.

Lemma switch_chain_consistent (self : CronosCLI) (key : str) :
  consistent self ->
  exists r, switch_chain self key = Ok r /\ consistent (snd r).
Proof.
  intros (Hc & Hcur & Hurl).
  destruct (dict_has key registry) eqn:Hk.
  - apply registered_keys in Hk.
    destruct (switch_registered self key Hc Hk) as (url & E & info & Hi & Hu).
    eexists. split; [exact E|]. simpl.
    split; [reflexivity|]. split; [exact Hk|].
    exists info. simpl. now split.
  - exists (false, self). split.
    + unfold switch_chain. now rewrite Hc, Hk.
    + simpl. now split.
Qed.

Lemma switch_all_consistent (keys : list str) (self : CronosCLI) :
  consistent self ->
  exists self', switch_all self keys = Ok self' /\ consistent self'.
Proof.
  revert self. induction keys as [|k ks IH]; intros self Hs; simpl.
  - now exists self.
  - destruct (switch_chain_consistent self k Hs) as (r & E & Hr).
    rewrite E. simpl. now apply IH.
Qed.

(** C9.  After construction (whatever base address is passed) and after
    any run of calls to [switch_chain], successful or not, the base address
    is the one registered for the current chain, and the current chain is
    "evm" or "pos". *)
Theorem base_url_follows_current_chain (base_url_arg : str) (keys : list str) :
  exists self0 self,
    __init__ base_url_arg = Ok self0 /\ consistent self0 /\
    switch_all self0 keys = Ok self /\ consistent self.
Proof.
  destruct (init_consistent base_url_arg) as (self0 & E0 & H0).
  destruct (switch_all_consistent keys self0 H0) as (self & E & H).
  now exists self0, self.
Qed.

(** ** Dispatch of the formatter *)

Section Dispatch.
Context {RT : PyRuntime}.

Lemma truthy_nonempty_dict (d : list (str * value)) : d <> [] -> truthy (PyDict d) = true.
Proof. destruct d; [contradiction | reflexivity]. Qed.

(** The members of a non-empty object are written one per line, each
    indented by two spaces per nesting depth. *)
Lemma join_indented (ind sep : str) (f : str * value -> str) (d : list (str * value)) :
  d <> [] ->
  ind ++ join (sep ++ ind) (map f d) = join sep (map (fun kv => ind ++ f kv) d).
Proof.
  induction d as [|kv d IH]; [contradiction|]. intros _.
  destruct d as [|kv' d]; [reflexivity|].
  change (join (sep ++ ind) (map f (kv :: kv' :: d)))
    with (f kv ++ (sep ++ ind) ++ join (sep ++ ind) (map f (kv' :: d))).
  change (join sep (map (fun kv0 => ind ++ f kv0) (kv :: kv' :: d)))
    with ((ind ++ f kv) ++ sep ++ join sep (map (fun kv0 => ind ++ f kv0) (kv' :: d))).
  rewrite <- IH by discriminate. now rewrite <- !app_assoc.
Qed.

Lemma json_dumps_object (d : list (str * value)) :
  d <> [] ->
  json_dumps (PyDict d)
  = u "{" ++ nl
      ++ join (u "," ++ nl)
           (map (fun kv => u "  " ++ json_string (fst kv) ++ u ": " ++ dumps_at 1 (snd kv)) d)
      ++ nl ++ u "}".
Proof.
  intros Hd. destruct d as [|kv d]; [contradiction|].
  unfold json_dumps.
  change (dumps_at 0 (PyDict (kv :: d)))
    with (u "{" ++ (nl ++ u "  ")
            ++ join (u "," ++ nl ++ u "  ")
                 (map (fun kv0 => json_string (fst kv0) ++ u ": " ++ dumps_at 1 (snd kv0))
                      (kv :: d))
            ++ nl ++ u "}").
  rewrite <- (join_indented (u "  ") (u "," ++ nl)
                (fun kv0 => json_string (fst kv0) ++ u ": " ++ dumps_at 1 (snd kv0)))
    by discriminate.
  now rewrite <- !app_assoc.
Qed.

(** A character outside ASCII is written as it is. *)
Lemma json_escape_non_ascii (c : char) : (128 <= c)%N -> json_escape c = [c].
Proof.
  intros H. unfold json_escape.
  repeat match goal with
         | |- context [(c =? ?k)%N] =>
           destruct (N.eqb_spec c k); [subst c; exfalso; revert H; clear; lia|]
         end.
  destruct (N.ltb_spec c 32); [lia | reflexivity].
Qed.

Lemma json_string_plain (s : str) :
  Forall (fun c => (32 <= c)%N /\ c <> 34%N /\ c <> 92%N) s ->
  json_string s = [34%N] ++ s ++ [34%N].
Proof.
  intros H. unfold json_string. f_equal. f_equal.
  induction H as [|c s (H32 & H34 & H92) _ IH]; [reflexivity|].
  simpl. rewrite IH. unfold json_escape.
  repeat match goal with
         | |- context [(c =? ?k)%N] =>
           destruct (N.eqb_spec c k); [subst c; exfalso; (congruence || lia)|]
         end.
  destruct (N.ltb_spec c 32); [lia | reflexivity].
Qed.

(** C1, as amended.  For a non-empty JSON object the formatter applies the
    first rule, in the order tally, balances, proposals, validators, pool,
    rewards, commission, block, node_info, whose key the object has, and
    only that rule; a non-empty object with none of the keys is returned as
    JSON text, its members one per line and indented by two spaces, with
    the characters outside ASCII written as they are. *)
Theorem format_response_dispatch (self : CronosCLI) (d : list (str * value)) :
  d <> [] ->
  format_response self (PyDict d)
  = match first_rule self d with
    | Some rule => snd rule (PyDict d)
    | None =>
      Ok (u "{" ++ nl
            ++ join (u "," ++ nl)
                 (map (fun kv => u "  " ++ json_string (fst kv) ++ u ": "
                                   ++ dumps_at 1 (snd kv)) d)
            ++ nl ++ u "}")
    end
  /\ forall c, (128 <= c)%N -> json_escape c = [c].
Proof.
  intros Hd. split; [|exact json_escape_non_ascii].
  rewrite <- (json_dumps_object d Hd).
  unfold format_response. rewrite (truthy_nonempty_dict d Hd).
  unfold first_rule, dispatch_table.
  cbn [negb py_in bind find fst snd].
  repeat match goal with
         | |- context [dict_has ?k d] => destruct (dict_has k d); [reflexivity|]
         end.
  reflexivity.
Qed.

(** C10.  Data that is empty in Python's sense, the empty object among
    them, yields the fixed text "No data received"; it never reaches the
    JSON branch, whose text for the empty object would be "{}". *)
Theorem falsy_data_no_data_received (self : CronosCLI) (data : value) :
  truthy data = false ->
  format_response self data = Ok (u "No data received") /\
  format_response self data <> Ok (json_dumps (PyDict [])).
Proof.
  intros H. unfold format_response. rewrite H. simpl. split; [reflexivity | discriminate].
Qed.

(** A tally whose count is not a numeral: the failure of [int] leaves the
    formatter as an exception; no JSON text is produced. *)
Example tally_parse_failure_raises (self : CronosCLI) :
  format_response self
    (PyDict [(u "tally", PyDict [(u "yes_count", PyStr (u "abc"))])])
  = Raise ValueError.
Proof. reflexivity. Qed.

(** When a count field of the tally is present and [int] rejects it,
    formatting the response raises: the exception leaves the formatter. *)
Lemma tally_count_rejected_raises (self : CronosCLI) (data tally : list (str * value))
    (k : str) (v : value) (e : exn) :
  dict_lookup (u "tally") data = Some (PyDict tally) ->
  In k count_fields -> dict_lookup k tally = Some v -> py_int v = Raise e ->
  exists e', format_response self (PyDict data) = Raise e'.
Proof.
  intros Hd Hk Hv He.
  assert (Hf : py_int (field tally k (u "0")) = Raise e)
    by (unfold field; now rewrite Hv).
  assert (Ht : exists e', _format_tally (PyDict tally) = Raise e').
  { unfold _format_tally, py_get. cbn [bind].
    fold (field tally (u "yes_count") (u "0")).
    fold (field tally (u "no_count") (u "0")).
    fold (field tally (u "abstain_count") (u "0")).
    fold (field tally (u "no_with_veto_count") (u "0")).
    destruct (py_int (field tally (u "yes_count") (u "0"))) as [y|ey] eqn:Ey;
      [|eexists; reflexivity].
    destruct (py_int (field tally (u "no_count") (u "0"))) as [n|en] eqn:En;
      [|eexists; reflexivity].
    destruct (py_int (field tally (u "abstain_count") (u "0"))) as [a|ea] eqn:Ea;
      [|eexists; reflexivity].
    destruct (py_int (field tally (u "no_with_veto_count") (u "0"))) as [w|ew] eqn:Ew;
      [|eexists; reflexivity].
    exfalso. destruct Hk as [<-|[<-|[<-|[<-|[]]]]]; congruence. }
  destruct Ht as [e' Ht]. exists e'.
  assert (Hne : data <> []) by (intros ->; discriminate Hd).
  unfold format_response. rewrite (truthy_nonempty_dict data Hne).
  cbn [negb py_in bind].
  replace (dict_has (u "tally") data) with true
    by (symmetry; apply dict_has_lookup; eauto).
  unfold py_getitem. rewrite Hd. exact Ht.
Qed.

(** Whatever text the tally renderer returns starts with its header. *)
Lemma format_tally_text (tally : value) (text : str) :
  _format_tally tally = Ok text -> exists rest, text = tally_header ++ rest.
Proof.
  unfold _format_tally.
  repeat match goal with
         | |- context [bind ?r _] => destruct r; cbn [bind]; [|discriminate]
         end.
  match goal with |- context [if ?b then _ else _] => destruct b end.
  - repeat match goal with
           | |- context [bind ?r _] => destruct r; cbn [bind]; [|discriminate]
           end.
    intros [= <-]. eexists. unfold tally_header. cbv zeta.
    rewrite <- !app_assoc. reflexivity.
  - intros [= <-]. eexists. unfold tally_header. cbv zeta.
    rewrite <- !app_assoc. reflexivity.
Qed.

(** C3, as amended.  A response with the key tally is handed to the tally
    renderer and to nothing else: whether its counts are numeric or not,
    the answer is never the JSON text of the response, which is kept for
    responses with none of the recognised keys. *)
Theorem tally_response_is_not_dumped (self : CronosCLI) (data : list (str * value))
    (tally : value) :
  dict_lookup (u "tally") data = Some tally ->
  format_response self (PyDict data) = _format_tally tally /\
  format_response self (PyDict data) <> Ok (json_dumps (PyDict data)).
Proof.
  intros Hd.
  assert (Hne : data <> []) by (intros ->; discriminate Hd).
  assert (E : format_response self (PyDict data) = _format_tally tally).
  { unfold format_response. rewrite (truthy_nonempty_dict data Hne).
    cbn [negb py_in bind].
    replace (dict_has (u "tally") data) with true
      by (symmetry; apply dict_has_lookup; eauto).
    unfold py_getitem. now rewrite Hd. }
  split; [exact E|].
  rewrite E. intros H.
  destruct (format_tally_text tally _ H) as [rest Hrest].
  rewrite (json_dumps_object data Hne) in Hrest.
  apply (f_equal (hd 0%N)) in Hrest. lazy in Hrest. discriminate Hrest.
Qed.

End Dispatch.

Lemma tally_response_is_not_dumped_witness :
  let data := [(u "tally", PyDict [(u "yes_count", PyStr (u "abc"))])] in
  format_response (RT := ascii_runtime) fresh_cli (PyDict data)
  = _format_tally (RT := ascii_runtime) (PyDict [(u "yes_count", PyStr (u "abc"))]) /\
  format_response (RT := ascii_runtime) fresh_cli (PyDict data)
  <> Ok (json_dumps (RT := ascii_runtime) (PyDict data)).
Proof.
  intros data.
  apply (tally_response_is_not_dumped (RT := ascii_runtime) fresh_cli data
           (PyDict [(u "yes_count", PyStr (u "abc"))])).
  vm_compute. reflexivity.
Defined.

(** The claim C3 as stated fails: with a count that is not a numeral the
    formatter raises and returns no JSON text. *)
Lemma non_numeric_count_is_not_dumped :
  ~ (forall (RT : PyRuntime) (self : CronosCLI) (data tally : list (str * value))
            (k s : str),
        dict_lookup (u "tally") data = Some (PyDict tally) ->
        In k count_fields -> dict_lookup k tally = Some (PyStr s) ->
        digit_string s = false ->
        format_response self (PyDict data) = Ok (json_dumps (PyDict data))).
Proof.
  intros H.
  specialize (H ascii_runtime fresh_cli
                [(u "tally", PyDict [(u "yes_count", PyStr (u "abc"))])]
                [(u "yes_count", PyStr (u "abc"))] (u "yes_count") (u "abc")).
  vm_compute in H.
  specialize (H eq_refl (or_introl eq_refl) eq_refl eq_refl). discriminate H.
Qed.

Lemma format_response_dispatch_witness :
  [(u "height", PyStr (u "é"))] <> [] /\
  format_response (RT := ascii_runtime) fresh_cli (PyDict [(u "height", PyStr (u "é"))])
  = Ok (u "{" ++ nl ++ u "  " ++ [34%N] ++ u "height" ++ [34%N] ++ u ": "
          ++ [34%N] ++ u "é" ++ [34%N] ++ nl ++ u "}").
Proof.
  split; [discriminate|].
  exact (proj1 (format_response_dispatch (RT := ascii_runtime) fresh_cli
                  [(u "height", PyStr (u "é"))] ltac:(discriminate))).
Defined.

(** The claim C1 as stated fails on the empty object: it has none of the
    recognised keys, yet it is not returned as JSON text. *)
Lemma empty_object_is_not_dumped :
  ~ (forall (RT : PyRuntime) (self : CronosCLI) (d : list (str * value)),
        first_rule self d = None ->
        format_response self (PyDict d) = Ok (json_dumps (PyDict d))).
Proof.
  intros H.
  specialize (H ascii_runtime fresh_cli [] eq_refl).
  discriminate H.
Qed.

Lemma falsy_data_no_data_received_witness :
  truthy (PyDict []) = false /\
  format_response (RT := ascii_runtime) fresh_cli (PyDict []) = Ok (u "No data received") /\
  format_response (RT := ascii_runtime) fresh_cli (PyDict []) <> Ok (u "{}").
Proof.
  split; [reflexivity|].
  exact (falsy_data_no_data_received (RT := ascii_runtime) fresh_cli (PyDict []) eq_refl).
Defined.

(** ** The menu *)

Section MenuFacts.
Context {RT : PyRuntime}.

Lemma int_of_str_raises (s : str) (e : exn) : int_of_str s = Raise e -> e = ValueError.
Proof.
  unfold int_of_str.
  match goal with
  | |- match ?v with Some _ => _ | None => _ end = _ -> _ =>
    destruct v; [discriminate | congruence]
  end.
Qed.

Lemma read_choice_inv (options : list (str * str)) (l : str) (n : Z) :
  read_choice options l = Choice n <->
  int_of_str (strip l) = Ok n /\ (1 <= n <= Z.of_nat (List.length options))%Z.
Proof.
  unfold read_choice. destruct (int_of_str (strip l)) as [m|e].
  - destruct (Z.leb_spec 1 m), (Z.leb_spec m (Z.of_nat (List.length options))); simpl;
      split; try discriminate.
    + intros [= ->]. split; [reflexivity | lia].
    + intros [[= ->] _]. reflexivity.
    + intros [[= ->] ?]. lia.
    + intros [[= ->] ?]. lia.
    + intros [[= ->] ?]. lia.
  - split; [discriminate | intros [? _]; discriminate].
Qed.

Lemma chosen_key (options : list (str * str)) (n : Z) :
  (1 <= n <= Z.of_nat (List.length options))%Z ->
  exists key, nth_error (dict_keys options) (Z.to_nat (n - 1)) = Some key.
Proof.
  intros H.
  destruct (nth_error (dict_keys options) (Z.to_nat (n - 1))) eqn:E; [eauto|].
  apply nth_error_None in E. unfold dict_keys in E. rewrite length_map in E. lia.
Qed.

Lemma menu_loop_refused (options : list (str * str)) (l : str)
    (ins : list input_event) (out : list str) :
  is_choice (read_choice options l) = false ->
  menu_loop options (Line l :: ins) out = menu_loop options ins (out ++ refusal options l).
Proof.
  unfold refusal, read_choice. cbn [menu_loop]. unfold prompt, print.
  destruct (int_of_str (strip l)) as [m|e] eqn:E.
  - destruct ((1 <=? m)%Z && (m <=? Z.of_nat (List.length options))%Z); [discriminate|].
    intros _. now rewrite <- app_assoc.
  - intros _. rewrite (int_of_str_raises _ _ E). now rewrite <- app_assoc.
Qed.

Lemma menu_loop_chosen (options : list (str * str)) (l : str) (n : Z)
    (ins : list input_event) (out : list str) :
  read_choice options l = Choice n ->
  exists key,
    nth_error (dict_keys options) (Z.to_nat (n - 1)) = Some key /\
    menu_loop options (Line l :: ins) out = (Ok key, ins, out ++ [menu_prompt options]).
Proof.
  intros H. apply read_choice_inv in H as [E Hn].
  destruct (chosen_key options n Hn) as [key Hk]. exists key. split; [exact Hk|].
  cbn [menu_loop]. rewrite E.
  destruct (Z.leb_spec 1 n); [|lia].
  destruct (Z.leb_spec n (Z.of_nat (List.length options))); [|lia].
  simpl. now rewrite Hk.
Qed.

Lemma menu_loop_run (options : list (str * str)) (refused : list str) (l : str) (n : Z)
    (rest : list input_event) (out : list str) :
  Forall (fun r => is_choice (read_choice options r) = false) refused ->
  read_choice options l = Choice n ->
  exists key,
    nth_error (dict_keys options) (Z.to_nat (n - 1)) = Some key /\
    menu_loop options (map Line refused ++ Line l :: rest) out
    = (Ok key, rest, out ++ flat_map (refusal options) refused ++ [menu_prompt options]).
Proof.
  intros Hr Hl. revert out. induction Hr as [|r refused Hr _ IH]; intros out.
  - apply menu_loop_chosen. exact Hl.
  - destruct (IH (out ++ refusal options r)) as (key & Hk & E).
    exists key. split; [exact Hk|].
    cbn [map app]. rewrite (menu_loop_refused options r _ _ Hr), E.
    cbn [flat_map]. now rewrite <- !app_assoc.
Qed.

Lemma menu_loop_returns (options : list (str * str)) (ins : list input_event)
    (out : list str) (key : str) (rest : list input_event) (out' : list str) :
  menu_loop options ins out = (Ok key, rest, out') ->
  exists refused l n,
    ins = map Line refused ++ Line l :: rest /\
    Forall (fun r => is_choice (read_choice options r) = false) refused /\
    read_choice options l = Choice n /\
    nth_error (dict_keys options) (Z.to_nat (n - 1)) = Some key.
Proof.
  revert out. induction ins as [|ev ins IH]; intros out H.
  - discriminate H.
  - destruct ev as [l|]; [|discriminate H].
    destruct (read_choice options l) as [| |n] eqn:R.
    + rewrite menu_loop_refused in H by now rewrite R.
      destruct (IH _ H) as (refused & l' & n' & -> & Hr & Hl & Hk).
      exists (l :: refused), l', n'. repeat split; try assumption.
      constructor; [now rewrite R | exact Hr].
    + rewrite menu_loop_refused in H by now rewrite R.
      destruct (IH _ H) as (refused & l' & n' & -> & Hr & Hl & Hk).
      exists (l :: refused), l', n'. repeat split; try assumption.
      constructor; [now rewrite R | exact Hr].
    + destruct (menu_loop_chosen options l n ins out R) as (key' & Hk & E).
      rewrite E in H. injection H as -> -> _.
      exists [], l, n. repeat split; try assumption. constructor.
Qed.

Lemma messages_differ (options : list (str * str)) :
  not_a_number_message ++ nl <> out_of_range_message options ++ nl.
Proof. unfold not_a_number_message, out_of_range_message. intros H. discriminate H. Qed.

(** C7.  The menu returns on a line that [int] reads as a number between 1
    and the number of options, with the key at that position in insertion
    order; every line before it was refused with the message of its failure
    (not a number, or out of range; the two differ) and a new prompt; and
    the menu returns in no other way. *)
Theorem display_menu_choice (title : str) (options : list (str * str))
    (ins : list input_event) (out : list str) :
  (forall refused l n rest,
      ins = map Line refused ++ Line l :: rest ->
      Forall (fun r => is_choice (read_choice options r) = false) refused ->
      int_of_str (strip l) = Ok n -> (1 <= n <= Z.of_nat (List.length options))%Z ->
      exists key,
        nth_error (dict_keys options) (Z.to_nat (n - 1)) = Some key /\
        display_menu title options ins out
        = (Ok key, rest,
           out ++ menu_head title options ++ flat_map (refusal options) refused
             ++ [menu_prompt options])) /\
  (forall key rest out',
      display_menu title options ins out = (Ok key, rest, out') ->
      exists refused l n,
        ins = map Line refused ++ Line l :: rest /\
        Forall (fun r => is_choice (read_choice options r) = false) refused /\
        int_of_str (strip l) = Ok n /\ (1 <= n <= Z.of_nat (List.length options))%Z /\
        nth_error (dict_keys options) (Z.to_nat (n - 1)) = Some key) /\
  not_a_number_message ++ nl <> out_of_range_message options ++ nl.
Proof.
  split; [|split; [|apply messages_differ]].
  - intros refused l n rest -> Hr E Hn.
    assert (Hl : read_choice options l = Choice n) by now apply read_choice_inv.
    unfold display_menu, print.
    destruct (menu_loop_run options refused l n rest
                (((out ++ [(nl ++ u "🔹 " ++ title) ++ nl]) ++ [str_mul (u "=") 50 ++ nl])
                   ++ menu_lines 1 options) Hr Hl) as (key & Hk & Hrun).
    exists key. split; [exact Hk|]. rewrite Hrun. unfold menu_head.
    now rewrite <- !app_assoc.
  - intros key rest out' H. unfold display_menu in H.
    destruct (menu_loop_returns options _ _ _ _ _ H) as (refused & l & n & -> & Hr & Hl & Hk).
    apply read_choice_inv in Hl as [E Hn].
    now exists refused, l, n.
Qed.

End MenuFacts.

Lemma display_menu_choice_witness :
  let options := [(u "evm", u "Cronos EVM"); (u "pos", u "Cronos POS"); (u "x", u "Other")] in
  exists key,
    nth_error (dict_keys options) (Z.to_nat (2 - 1)) = Some key /\
    display_menu (RT := ascii_runtime) (u "Chain") options
      [Line (u "abc"); Line (u "99"); Line (u "2")] []
    = (Ok key, [],
       [] ++ menu_head (u "Chain") options
          ++ flat_map (refusal (RT := ascii_runtime) options) [u "abc"; u "99"]
          ++ [menu_prompt options]).
Proof.
  intros options.
  apply (proj1 (display_menu_choice (RT := ascii_runtime) (u "Chain") options
                  [Line (u "abc"); Line (u "99"); Line (u "2")] [])
               [u "abc"; u "99"] (u "2") 2%Z []).
  - reflexivity.
  - apply Forall_cons; [vm_compute; reflexivity|].
    apply Forall_cons; [vm_compute; reflexivity|]. apply Forall_nil.
  - vm_compute; reflexivity.
  - vm_compute; split; discriminate.
Defined.

(** With three options and the lines "abc", "99" and "2" the menu prompts
    three times, refuses twice and returns the key of the second option. *)
Example menu_three_lines :
  let options := [(u "evm", u "Cronos EVM"); (u "pos", u "Cronos POS"); (u "x", u "Other")] in
  display_menu (RT := ascii_runtime) (u "Chain") options
    [Line (u "abc"); Line (u "99"); Line (u "2")] []
  = (Ok (u "pos"), [],
     menu_head (u "Chain") options
       ++ [menu_prompt options; u "❌ Please enter a valid number" ++ nl;
           menu_prompt options; u "❌ Please enter a number between 1 and 3" ++ nl;
           menu_prompt options]).
Proof. vm_compute. reflexivity. Qed.

(** ** Path parameters *)

Section Substitution.
Context {RT : PyRuntime}.

Lemma placeholder_eq (key : str) : placeholder key = 123%N :: key ++ [125%N].
Proof. reflexivity. Qed.

Lemma startswith_app (p r : str) : startswith p (p ++ r) = true.
Proof. induction p as [|x p IH]; simpl; [reflexivity | now rewrite N.eqb_refl]. Qed.

Lemma scan_skip (old new t rest : str) :
  replace_scan old new (List.length t) (t ++ rest) = replace_scan old new 0 rest.
Proof. induction t as [|c t IH]; simpl; [reflexivity | exact IH]. Qed.

(** Text without an opening brace holds no occurrence of a token. *)
Lemma scan_plain (o new t rest : str) :
  no_open_brace t = true ->
  replace_scan (123%N :: o) new 0 (t ++ rest) = t ++ replace_scan (123%N :: o) new 0 rest.
Proof.
  unfold no_open_brace.
  induction t as [|c t IH]; intros H; [reflexivity|].
  cbn [forallb] in H. apply andb_true_iff in H as [Hc Ht].
  change ((c :: t) ++ rest) with (c :: t ++ rest).
  cbn [replace_scan startswith].
  destruct (N.eqb_spec 123 c) as [<-|_]; [cbv in Hc; discriminate Hc|].
  cbn [andb app]. now rewrite IH.
Qed.

(** Two tokens with different brace-free names do not match. *)
Lemma token_mismatch (k n rest : str) :
  no_close_brace k = true -> no_close_brace n = true -> k <> n ->
  startswith (k ++ [125%N]) (n ++ 125%N :: rest) = false.
Proof.
  unfold no_close_brace.
  revert n. induction k as [|x k IH]; intros [|y n] Hk Hn Hne;
    cbn [app startswith forallb] in *.
  - contradiction.
  - apply andb_true_iff in Hn as [Hy _].
    destruct (N.eqb_spec 125 y) as [<-|_]; [cbv in Hy; discriminate Hy | reflexivity].
  - apply andb_true_iff in Hk as [Hx _].
    destruct (N.eqb_spec x 125) as [->|_]; [cbv in Hx; discriminate Hx | reflexivity].
  - apply andb_true_iff in Hk as [_ Hk]. apply andb_true_iff in Hn as [_ Hn].
    destruct (N.eqb_spec x y) as [->|_]; [|reflexivity].
    cbn [andb]. apply IH; [assumption | assumption | congruence].
Qed.

Lemma no_open_brace_app (a b : str) :
  no_open_brace (a ++ b) = no_open_brace a && no_open_brace b.
Proof. apply forallb_app. Qed.

(** Replacing one token in a template turns its occurrences, and nothing
    else, into the new text. *)
Lemma replace_template (k new : str) (segs : list segment) :
  brace_free k = true -> forallb segment_ok segs = true ->
  replace (render_template segs) (placeholder k) new
  = render_template (map (subst1 k new) segs).
Proof.
  intros Hk. apply andb_true_iff in Hk as [_ Hkc].
  rewrite placeholder_eq. unfold replace, render_template.
  induction segs as [|seg segs IH]; intros H; [reflexivity|].
  simpl in H. apply andb_true_iff in H as [Hseg Hsegs].
  specialize (IH Hsegs).
  destruct seg as [text|name]; simpl in Hseg.
  - cbn [flat_map map subst1 render_segment].
    rewrite scan_plain by exact Hseg. now rewrite IH.
  - apply andb_true_iff in Hseg as [Hno Hnc].
    cbn [flat_map map subst1 render_segment].
    rewrite placeholder_eq.
    change ((123%N :: name ++ [125%N]) ++ flat_map render_segment segs)
      with (123%N :: (name ++ [125%N]) ++ flat_map render_segment segs).
    destruct (str_eqb name k) eqn:E.
    + apply str_eqb_eq in E. subst name.
      cbn [replace_scan startswith]. rewrite N.eqb_refl, startswith_app.
      cbn [andb render_segment]. f_equal.
      change (List.length (123%N :: k ++ [125%N]) - 1)
        with (List.length (k ++ [125%N]) - 0).
      rewrite Nat.sub_0_r, scan_skip. exact IH.
    + apply str_eqb_neq in E.
      cbn [replace_scan startswith]. rewrite N.eqb_refl.
      rewrite <- app_assoc. cbn [app].
      rewrite token_mismatch by (assumption || congruence).
      cbn [andb render_segment]. rewrite placeholder_eq.
      change (name ++ 125%N :: flat_map render_segment segs)
        with (name ++ [125%N] ++ flat_map render_segment segs).
      rewrite app_assoc, scan_plain.
      * rewrite IH. reflexivity.
      * rewrite no_open_brace_app, Hno. reflexivity.
Qed.

Lemma subst1_ok (k new : str) (segs : list segment) :
  no_open_brace new = true -> forallb segment_ok segs = true ->
  forallb segment_ok (map (subst1 k new) segs) = true.
Proof.
  intros Hn. induction segs as [|seg segs IH]; [reflexivity|].
  simpl. intros H. apply andb_true_iff in H as [Hs Hr].
  rewrite (IH Hr), andb_true_r.
  destruct seg as [t|n]; simpl; [exact Hs|].
  destruct (str_eqb n k); [exact Hn | exact Hs].
Qed.

Lemma fill_subst1 (k : str) (v : value) (params : list (str * value)) (seg : segment) :
  fill params (subst1 k (py_str v) seg) = fill ((k, v) :: params) seg.
Proof.
  destruct seg as [t|n]; [reflexivity|].
  simpl. destruct (str_eqb n k); reflexivity.
Qed.

(** The loop of [make_request] on a template: under the conditions on
    braces it is the substitution of all parameters at once. *)
Lemma substitute_template (params : list (str * value)) (segs : list segment) :
  forallb segment_ok segs = true -> forallb param_ok params = true ->
  substitute_params (render_template segs) params = flat_map (fill params) segs.
Proof.
  revert segs. induction params as [|[k v] params IH]; intros segs Hs Hp.
  - unfold substitute_params. simpl. unfold render_template.
    apply flat_map_ext. now intros [t|n].
  - simpl in Hp. apply andb_true_iff in Hp as [Hkv Hp].
    unfold param_ok in Hkv. simpl in Hkv. apply andb_true_iff in Hkv as [Hk Hv].
    unfold substitute_params in *. cbn [fold_left fst snd].
    rewrite replace_template by assumption.
    rewrite IH by (try apply subst1_ok; assumption).
    rewrite flat_map_concat_map, map_map, <- flat_map_concat_map.
    apply flat_map_ext. intros seg. apply fill_subst1.
Qed.

(** C4, as amended.  The address requested is the joined address in which,
    for each supplied parameter, the tokens [{name}] have been replaced by
    the text of its value; a token whose parameter has no supplied value
    stays in the address, and nothing fails on its account.  (Names and
    literal text are taken without braces, values without opening brace.) *)
Theorem request_url_substitutes (self : CronosCLI) (endpoint : str)
    (params : list (str * value)) (segs : list segment) :
  urljoin self.(base_url) endpoint = Ok (render_template segs) ->
  forallb segment_ok segs = true -> forallb param_ok params = true ->
  request_url self endpoint (Some params) = Ok (flat_map (fill params) segs) /\
  request_url self endpoint None = Ok (render_template segs) /\
  substitute_params (u "cosmos/bank/v1beta1/balances/{address}")
    [(u "address", PyStr (u "cro1abc"))]
  = u "cosmos/bank/v1beta1/balances/cro1abc".
Proof.
  intros Hj Hs Hp. unfold request_url. rewrite Hj. cbn [bind].
  split; [|split; [reflexivity | vm_compute; reflexivity]].
  destruct params as [|kv params].
  - reflexivity.
  - f_equal. apply (substitute_template (kv :: params) segs Hs Hp).
Qed.

End Substitution.

Lemma request_url_substitutes_witness :
  let segs := [Lit (u "https://rest.cronos.org/cosmos/staking/v1beta1/delegators/");
               Tok (u "delegator_addr"); Lit (u "/validators/"); Tok (u "validator_addr")] in
  let params := [(u "delegator_addr", PyStr (u "cro1abc"))] in
  request_url (RT := ascii_runtime) fresh_cli
    (u "cosmos/staking/v1beta1/delegators/{delegator_addr}/validators/{validator_addr}")
    (Some params)
  = Ok (flat_map (fill (RT := ascii_runtime) params) segs).
Proof.
  intros segs params.
  apply (request_url_substitutes (RT := ascii_runtime) fresh_cli
           (u "cosmos/staking/v1beta1/delegators/{delegator_addr}/validators/{validator_addr}")
           params segs);
    vm_compute; reflexivity.
Defined.

(** The claim C4 as stated fails: a template whose parameter has no
    supplied value is turned into an address all the same. *)
Lemma missing_parameter_is_not_reported :
  ~ (forall (RT : PyRuntime) (self : CronosCLI) (endpoint name : str)
            (params : list (str * value)),
        str_contains (placeholder name) endpoint = true ->
        dict_has name params = false ->
        exists e, request_url self endpoint (Some params) = Raise e).
Proof.
  intros H.
  destruct (H ascii_runtime fresh_cli (u "cosmos/bank/v1beta1/balances/{address}")
              (u "address") []) as [e He]; try (vm_compute; reflexivity).
  vm_compute in He. discriminate He.
Qed.

(** What the code does on that input. *)
Example address_token_left_in_place :
  request_url (RT := ascii_runtime) fresh_cli (u "cosmos/bank/v1beta1/balances/{address}")
    (Some [])
  = Ok (u "https://rest.cronos.org/cosmos/bank/v1beta1/balances/{address}").
Proof. vm_compute. reflexivity. Qed.

(** ** Loops of the renderers *)

Lemma append_each_map {A B} (body : B -> result str) (g : A -> B) (f : A -> str)
    (xs : list A) (result0 : str) :
  (forall x, In x xs -> body (g x) = Ok (f x)) ->
  append_each body (map g xs) result0 = Ok (result0 ++ flat_map f xs).
Proof.
  revert result0. induction xs as [|x xs IH]; intros result0 H.
  - simpl. now rewrite app_nil_r.
  - cbn [map append_each flat_map]. rewrite (H x) by now left.
    cbn [bind]. rewrite IH by (intros y Hy; apply H; now right).
    now rewrite <- app_assoc.
Qed.

Lemma in_firstn {A} (n : nat) (l : list A) (x : A) : In x (firstn n l) -> In x l.
Proof.
  intros H. rewrite <- (firstn_skipn n l). apply in_or_app. now left.
Qed.

Lemma replace_absent (x : char) (p new t : str) :
  str_contains (x :: p) t = false -> replace t (x :: p) new = t.
Proof.
  unfold replace. induction t as [|c t IH]; intros H; [reflexivity|].
  cbn [str_contains] in H. apply orb_false_iff in H as [Hs Hc].
  cbn [replace_scan]. rewrite Hs. now rewrite IH.
Qed.

(** When the pattern stands at the front and nowhere in what follows,
    [replace] takes off just that prefix. *)
Lemma replace_only_prefix (x : char) (p rest : str) :
  str_contains (x :: p) rest = false ->
  replace ((x :: p) ++ rest) (x :: p) [] = rest
  /\ strip_prefix (x :: p) ((x :: p) ++ rest) = rest.
Proof.
  intros H. split.
  - unfold replace. change ((x :: p) ++ rest) with (x :: p ++ rest).
    cbn [replace_scan].
    change (x :: p ++ rest) with ((x :: p) ++ rest). rewrite startswith_app.
    change (List.length (x :: p) - 1) with (List.length p - 0).
    rewrite Nat.sub_0_r, scan_skip. cbn [app].
    apply (replace_absent x p [] rest H).
  - unfold strip_prefix. rewrite startswith_app. clear H.
    induction (x :: p) as [|y q IH]; [reflexivity | exact IH].
Qed.

(** ** Proposals *)

Section Proposals.
Context {RT : PyRuntime}.

Lemma py_get_field (d : list (str * value)) (k default : str) :
  py_get (PyDict d) k (PyStr default) = Ok (field d k default).
Proof. reflexivity. Qed.

Lemma proposal_line_entry (p : list (str * value)) :
  status_is_text p = true -> proposal_line (PyDict p) = Ok (proposal_entry p).
Proof.
  unfold status_is_text, proposal_line, proposal_entry, status_shown.
  rewrite !py_get_field. cbn [bind]. unfold field.
  destruct (dict_lookup (u "status") p) as [[| | | |s| |]|]; intros H;
    try discriminate H; reflexivity.
Qed.

(** C8, as amended.  For a list of proposals (JSON objects whose status,
    when present, is a string) the renderer writes one line for each of the
    first five and no other, with the id and the status from which every
    occurrence of PROPOSAL_STATUS_ has been removed, the rest title-cased;
    for more than five proposals it adds how many are left.  For a status
    that has PROPOSAL_STATUS_ at its front and nowhere else, this is the
    removal of the prefix. *)
Theorem proposals_rendering (data : list (str * value)) (ps : list (list (str * value))) :
  dict_lookup (u "proposals") data = Some (PyList (map PyDict ps)) ->
  forallb status_is_text ps = true ->
  _format_proposals (PyDict data)
  = Ok (proposals_header
          ++ match ps with
             | [] => u "No proposals found"
             | _ :: _ =>
               flat_map proposal_entry (firstn 5 ps) ++ proposals_trailer (List.length ps)
             end)
  /\ List.length (firstn 5 ps) = Nat.min 5 (List.length ps)
  /\ forall rest,
       str_contains (u "PROPOSAL_STATUS_") rest = false ->
       replace (u "PROPOSAL_STATUS_" ++ rest) (u "PROPOSAL_STATUS_") [] = rest.
Proof.
  intros Hd Hs. split; [|split].
  - unfold _format_proposals, py_get. rewrite Hd. cbn [bind].
    destruct ps as [|p ps].
    + cbn [map truthy negb]. unfold proposals_header. now rewrite <- !app_assoc.
    + set (all := p :: ps) in *.
      replace (truthy (PyList (map PyDict all))) with true by reflexivity.
      cbn [negb py_slice_to py_iter py_len bind].
      rewrite firstn_map.
      rewrite (append_each_map proposal_line PyDict proposal_entry).
      * cbn [bind]. rewrite length_map. unfold proposals_trailer, proposals_header.
        destruct (5 <? List.length all)%nat.
        -- now rewrite <- !app_assoc.
        -- rewrite app_nil_r. now rewrite <- !app_assoc.
      * intros x Hx. apply proposal_line_entry.
        apply in_firstn in Hx.
        rewrite forallb_forall in Hs. now apply Hs.
  - apply length_firstn.
  - intros rest H.
    exact (proj1 (replace_only_prefix 80%N (u "ROPOSAL_STATUS_") rest H)).
Qed.

End Proposals.

Lemma proposals_rendering_witness :
  _format_proposals (RT := ascii_runtime)
    (PyDict [(u "proposals", PyList (map PyDict seven_proposals))])
  = Ok (proposals_header
          ++ match seven_proposals with
             | [] => u "No proposals found"
             | _ :: _ =>
               flat_map (proposal_entry (RT := ascii_runtime)) (firstn 5 seven_proposals)
                 ++ proposals_trailer (List.length seven_proposals)
             end).
Proof.
  apply (proposals_rendering (RT := ascii_runtime)
           [(u "proposals", PyList (map PyDict seven_proposals))] seven_proposals);
    vm_compute; reflexivity.
Defined.

(** Seven proposals give five lines and the trailer for the other two. *)
Example seven_proposals_text :
  _format_proposals (RT := ascii_runtime)
    (PyDict [(u "proposals", PyList (map PyDict seven_proposals))])
  = Ok (proposals_header
          ++ u "📄 Proposal #1: Passed" ++ nl ++ u "📄 Proposal #2: Passed" ++ nl
          ++ u "📄 Proposal #3: Passed" ++ nl ++ u "📄 Proposal #4: Passed" ++ nl
          ++ u "📄 Proposal #5: Passed" ++ nl ++ u "... and 2 more proposals").
Proof. vm_compute. reflexivity. Qed.

(** The claim C8 as stated fails: a status that holds PROPOSAL_STATUS_
    after its front loses it all the same. *)
Lemma status_is_not_only_stripped_of_a_prefix :
  ~ (forall (RT : PyRuntime) (data : list (str * value)) (ps : list (list (str * value))),
        dict_lookup (u "proposals") data = Some (PyList (map PyDict ps)) ->
        forallb status_is_text ps = true -> ps <> [] ->
        _format_proposals (PyDict data)
        = Ok (proposals_header ++ flat_map proposal_entry_as_specified (firstn 5 ps)
                ++ proposals_trailer (List.length ps))).
Proof.
  intros H.
  specialize (H ascii_runtime
                [(u "proposals",
                  PyList [PyDict [(u "id", PyStr (u "1"));
                                  (u "status", PyStr (u "UN_PROPOSAL_STATUS_SET"))]])]
                [[(u "id", PyStr (u "1")); (u "status", PyStr (u "UN_PROPOSAL_STATUS_SET"))]]).
  vm_compute in H.
  specialize (H eq_refl eq_refl ltac:(discriminate)). discriminate H.
Qed.

(** What the code shows for that status, and what the prefix reading gives. *)
Example status_with_inner_occurrence :
  clean_status (RT := ascii_runtime) (PyStr (u "UN_PROPOSAL_STATUS_SET")) = Ok (u "Un_Set") /\
  title (RT := ascii_runtime) (strip_prefix (u "PROPOSAL_STATUS_") (u "UN_PROPOSAL_STATUS_SET"))
  = u "Un_Proposal_Status_Set".
Proof. split; vm_compute; reflexivity. Qed.

(** ** Numerals *)

Lemma is_digit_cases (c : char) :
  is_digit c = true ->
  c = 48%N \/ c = 49%N \/ c = 50%N \/ c = 51%N \/ c = 52%N \/
  c = 53%N \/ c = 54%N \/ c = 55%N \/ c = 56%N \/ c = 57%N.
Proof.
  unfold is_digit. intros H. apply andb_true_iff in H as [H1 H2].
  apply N.leb_le in H1, H2. lia.
Qed.

Lemma digit_string_forall (s : str) : digit_string s = true -> forallb is_digit s = true.
Proof. destruct s; [discriminate | exact (fun H => H)]. Qed.

(** The digits printed for the number read from a string of digits are
    the string again, up to normalisation of leading zeros. *)
Lemma chars_of_digits (s : str) :
  forallb is_digit s = true ->
  chars_of_uint (uint_of_digits (map (fun c => (c - 48)%N) s)) = s.
Proof.
  induction s as [|c s IH]; [reflexivity|].
  cbn [forallb map uint_of_digits]. intros H. apply andb_true_iff in H as [Hc Hs].
  specialize (IH Hs).
  destruct (is_digit_cases c Hc) as [->|[->|[->|[->|[->|[->|[->|[->|[->| ->]]]]]]]]];
    cbn -[chars_of_uint uint_of_digits map]; cbn [chars_of_uint]; now rewrite IH.
Qed.

Lemma unorm_canonical (s : str) :
  canonical_numeral s = true ->
  unorm (uint_of_digits (map (fun c => (c - 48)%N) s))
  = uint_of_digits (map (fun c => (c - 48)%N) s).
Proof.
  unfold canonical_numeral. intros H. apply andb_true_iff in H as [Hd Hz].
  destruct s as [|c [|c' s]]; [discriminate Hd | |].
  - cbn [digit_string forallb] in Hd. apply andb_true_iff in Hd as [Hc _].
    destruct (is_digit_cases c Hc) as [->|[->|[->|[->|[->|[->|[->|[->|[->| ->]]]]]]]]];
      reflexivity.
  - cbn [digit_string forallb] in Hd. apply andb_true_iff in Hd as [Hc _].
    destruct (is_digit_cases c Hc) as [->|[->|[->|[->|[->|[->|[->|[->|[->| ->]]]]]]]]];
      try discriminate Hz; reflexivity.
Qed.

Lemma str_of_int_of_N (n : N) : str_of_int (Z.of_N n) = digits_of_N n.
Proof. destruct n; reflexivity. Qed.

(** Printing the value of a numeral without superfluous zero gives the
    numeral back. *)
Lemma str_of_int_canonical (s : str) :
  canonical_numeral s = true -> str_of_int (digits_value s) = s.
Proof.
  intros H. unfold digits_value. rewrite str_of_int_of_N. unfold digits_of_N.
  rewrite DecimalN.Unsigned.to_of, (unorm_canonical s H).
  apply chars_of_digits, digit_string_forall.
  unfold canonical_numeral in H. now apply andb_true_iff in H as [Hd _].
Qed.

Lemma no_comma_digits (d : uint) : forallb no_comma (chars_of_uint d) = true.
Proof. induction d; simpl; auto. Qed.

Lemma filter_commas_rev (ds : str) (k : nat) :
  forallb no_comma ds = true -> filter no_comma (commas_rev ds k) = ds.
Proof.
  revert k. induction ds as [|c ds IH]; intros k H; [reflexivity|].
  cbn [forallb] in H. apply andb_true_iff in H as [Hc Hds].
  cbn [commas_rev]. destruct ds as [|c' ds].
  - cbn [filter]. now rewrite Hc.
  - destruct (Nat.eqb k 2); cbn [filter]; rewrite Hc.
    + change (no_comma 44%N) with false. cbn iota. now rewrite IH.
    + now rewrite IH.
Qed.

Lemma filter_group_thousands (ds : str) :
  forallb no_comma ds = true -> filter no_comma (group_thousands ds) = ds.
Proof.
  intros H. unfold group_thousands.
  rewrite filter_rev, filter_commas_rev, rev_involutive; [reflexivity|].
  rewrite forallb_forall in *. intros x Hx. apply H. now apply in_rev.
Qed.

(** The text with thousands separators is the plain decimal text with
    commas put in: taking the commas out gives the plain text back. *)
Lemma format_comma_plain (z : Z) : filter no_comma (format_comma z) = str_of_int z.
Proof.
  unfold format_comma, str_of_int, digits_of_N.
  destruct z; cbn [filter]; change (no_comma 45%N) with true; cbn iota;
    now rewrite filter_group_thousands by apply no_comma_digits.
Qed.

Section Numerals.
Context {RT : PyRuntime}.

Lemma digit_not_int_space (c : char) : is_digit c = true -> int_space c = false.
Proof.
  intros H.
  destruct (is_digit_cases c H) as [->|[->|[->|[->|[->|[->|[->|[->|[->| ->]]]]]]]]];
    reflexivity.
Qed.

Lemma lstrip_with_head (sp : char -> bool) (s : str) :
  (forall c, In c s -> sp c = false) -> lstrip_with sp s = s.
Proof.
  destruct s as [|c s]; [reflexivity|]. intros H. simpl.
  now rewrite (H c) by now left.
Qed.

Lemma strip_digits (s : str) : forallb is_digit s = true -> strip_with int_space s = s.
Proof.
  intros H. unfold strip_with. rewrite forallb_forall in H.
  rewrite (lstrip_with_head int_space s)
    by (intros c Hc; apply digit_not_int_space; now apply H).
  rewrite lstrip_with_head; [apply rev_involutive|].
  intros c Hc. apply digit_not_int_space, H. now apply in_rev.
Qed.

Lemma digit_value_digit (c : char) : is_digit c = true -> digit_value c = Some (c - 48)%N.
Proof. unfold is_digit, digit_value. now intros ->. Qed.

Lemma body_digits_digits (s : str) :
  forallb is_digit s = true ->
  body_digits true s = Some (map (fun c => (c - 48)%N) s).
Proof.
  induction s as [|c s IH]; [reflexivity|].
  cbn [forallb]. intros H. apply andb_true_iff in H as [Hc Hs].
  cbn [body_digits map]. rewrite (digit_value_digit c Hc), (IH Hs).
  destruct (is_digit_cases c Hc) as [->|[->|[->|[->|[->|[->|[->|[->|[->| ->]]]]]]]]];
    reflexivity.
Qed.

Lemma body_value_digits (s : str) :
  digit_string s = true -> body_value s = Some (digits_value s).
Proof.
  intros H. unfold body_value, digits_value.
  destruct s as [|c s]; [discriminate H|].
  cbn [digit_string forallb] in H. apply andb_true_iff in H as [Hc Hs].
  cbn [body_digits]. rewrite (digit_value_digit c Hc), (body_digits_digits s Hs).
  destruct (is_digit_cases c Hc) as [->|[->|[->|[->|[->|[->|[->|[->|[->| ->]]]]]]]]];
    reflexivity.
Qed.

(** [int] reads a string of digits as the number it denotes. *)
Lemma int_of_digit_string (s : str) :
  digit_string s = true -> int_of_str s = Ok (digits_value s).
Proof.
  intros H. unfold int_of_str.
  rewrite (strip_digits s (digit_string_forall s H)).
  pose proof (body_value_digits s H) as Hv.
  destruct s as [|c s']; [discriminate H|].
  assert (Hc : is_digit c = true).
  { cbn [digit_string forallb] in H. now apply andb_true_iff in H as [Hc _]. }
  assert (E : ((c =? 43) = false /\ (c =? 45) = false)%N).
  { destruct (is_digit_cases c Hc) as [->|[->|[->|[->|[->|[->|[->|[->|[->| ->]]]]]]]]];
      split; reflexivity. }
  destruct E as [E1 E2]. cbv beta iota zeta. rewrite E1, E2, Hv. reflexivity.
Qed.

End Numerals.

(** ** Balances *)

Section Balances.
Context {RT : PyRuntime}.

Lemma balance_line_entry (b : list (str * value)) :
  balance_line (PyDict b) = Ok (balance_entry b).
Proof. unfold balance_line. rewrite !py_get_field. reflexivity. Qed.

Lemma amount_text_numeric (amount : value) (n : Z) :
  py_int amount = Ok n ->
  amount_text amount = if (n >? 1000000)%Z then format_comma n else str_of_int n.
Proof. unfold amount_text. now intros ->. Qed.

Lemma amount_text_verbatim (amount : value) (e : exn) :
  py_int amount = Raise e -> amount_text amount = py_str amount.
Proof. unfold amount_text. now intros ->. Qed.

Lemma amount_text_canonical (s : str) :
  canonical_numeral s = true -> (digits_value s <= 1000000)%Z ->
  amount_text (PyStr s) = s.
Proof.
  intros Hc Hle.
  assert (Hd : digit_string s = true)
    by (unfold canonical_numeral in Hc; now apply andb_true_iff in Hc as [Hd _]).
  rewrite (amount_text_numeric (PyStr s) (digits_value s) (int_of_digit_string s Hd)).
  destruct (Z.gtb_spec (digits_value s) 1000000); [lia|].
  now apply str_of_int_canonical.
Qed.

(** C6, as amended.  Every pair of the balances list gets its line, with
    the denom and the amount.  An amount that [int] accepts is written as
    the decimal numeral of its integer value, with thousands separators
    when the value exceeds 1,000,000 and without them otherwise; so a
    numeral without superfluous zero and of value at most 1,000,000 is
    written as it is.  An amount that [int] rejects is written verbatim. *)
Theorem balances_rendering (data : list (str * value)) (bs : list (list (str * value))) :
  dict_lookup (u "balances") data = Some (PyList (map PyDict bs)) ->
  _format_balances (PyDict data)
  = Ok (balances_header
          ++ match bs with
             | [] => u "No balances found"
             | _ :: _ => flat_map balance_entry bs
             end)
  /\ (forall amount n,
        py_int amount = Ok n ->
        amount_text amount = if (n >? 1000000)%Z then format_comma n else str_of_int n)
  /\ (forall n, filter no_comma (format_comma n) = str_of_int n)
  /\ (forall s,
        canonical_numeral s = true -> (digits_value s <= 1000000)%Z ->
        amount_text (PyStr s) = s)
  /\ (forall amount e, py_int amount = Raise e -> amount_text amount = py_str amount)
  /\ amount_text (PyStr (u "2000000")) = u "2,000,000"
  /\ amount_text (PyStr (u "500")) = u "500".
Proof.
  intros Hd. split.
  - unfold _format_balances, py_get. rewrite Hd. cbn [bind].
    destruct bs as [|b bs].
    + cbn [map truthy negb]. unfold balances_header. now rewrite <- !app_assoc.
    + set (all := b :: bs) in *.
      replace (truthy (PyList (map PyDict all))) with true by reflexivity.
      cbn [negb py_iter bind].
      rewrite (append_each_map balance_line PyDict balance_entry)
        by (intros x _; apply balance_line_entry).
      unfold balances_header. now rewrite <- !app_assoc.
  - split; [exact amount_text_numeric|].
    split; [exact format_comma_plain|].
    split; [exact amount_text_canonical|].
    split; [exact amount_text_verbatim|].
    split; vm_compute; reflexivity.
Qed.

End Balances.

Lemma balances_rendering_witness :
  let bs := [ [(u "denom", PyStr (u "basecro")); (u "amount", PyStr (u "2000000"))];
              [(u "denom", PyStr (u "ibc/x")); (u "amount", PyStr (u "500"))] ] in
  _format_balances (RT := ascii_runtime) (PyDict [(u "balances", PyList (map PyDict bs))])
  = Ok (balances_header
          ++ match bs with
             | [] => u "No balances found"
             | _ :: _ => flat_map (balance_entry (RT := ascii_runtime)) bs
             end).
Proof.
  intros bs.
  apply (proj1 (balances_rendering (RT := ascii_runtime)
                  [(u "balances", PyList (map PyDict bs))] bs eq_refl)).
Defined.

(** The two amounts of the specification, in a whole answer. *)
Example two_balances_text :
  _format_balances (RT := ascii_runtime)
    (PyDict [(u "balances",
              PyList [PyDict [(u "denom", PyStr (u "basecro")); (u "amount", PyStr (u "2000000"))];
                      PyDict [(u "denom", PyStr (u "ibc/x")); (u "amount", PyStr (u "500"))]])])
  = Ok (balances_header ++ u "🪙 basecro: 2,000,000" ++ nl ++ u "🪙 ibc/x: 500" ++ nl).
Proof. vm_compute. reflexivity. Qed.

(** The claim C6 as stated fails: a numeric amount of value at most
    1,000,000 is not always written as it is. *)
Lemma numeric_amount_is_not_always_as_is :
  ~ (forall (RT : PyRuntime) (s : str) (n : Z),
        int_of_str s = Ok n -> (n <= 1000000)%Z -> amount_text (PyStr s) = s).
Proof.
  intros H.
  specialize (H ascii_runtime (u "007") 7%Z).
  vm_compute in H. specialize (H eq_refl ltac:(discriminate)). discriminate H.
Qed.

(** What the code writes for that amount. *)
Example amount_with_leading_zeros :
  _format_balances (RT := ascii_runtime)
    (PyDict [(u "balances",
              PyList [PyDict [(u "denom", PyStr (u "basecro")); (u "amount", PyStr (u "007"))]])])
  = Ok (balances_header ++ u "🪙 basecro: 7" ++ nl).
Proof. vm_compute. reflexivity. Qed.

(** ** Binary digits and shifts *)

Lemma digits2_pos_size (p : positive) : digits2_pos p = Pos.size p.
Proof. induction p; simpl; now rewrite ?IHp. Qed.

Lemma Zdigits2_log2 (m : Z) : (0 < m)%Z -> Zdigits2 m = (Z.log2 m + 1)%Z.
Proof.
  destruct m as [|p|p]; try discriminate. intros _.
  unfold Zdigits2. rewrite digits2_pos_size.
  destruct p; simpl; try reflexivity; now rewrite Pos.add_1_r.
Qed.

Lemma Zdigits2_nonneg (m : Z) : (0 <= Zdigits2 m)%Z.
Proof. destruct m; simpl; lia. Qed.

Lemma Zdigits2_le (a b : Z) : (0 <= a <= b)%Z -> (Zdigits2 a <= Zdigits2 b)%Z.
Proof.
  intros H. destruct (Z.eq_dec a 0) as [->|Ha].
  - apply Zdigits2_nonneg.
  - rewrite !Zdigits2_log2 by lia.
    pose proof (Z.log2_le_mono a b). lia.
Qed.

Lemma Zdigits2_pow2 (m k : Z) : (0 <= k)%Z -> (0 <= m <= 2 ^ k)%Z -> (Zdigits2 m <= k + 1)%Z.
Proof.
  intros Hk H. destruct (Z.eq_dec m 0) as [->|Hm]; [simpl; lia|].
  rewrite Zdigits2_log2 by lia.
  pose proof (Z.log2_le_mono m (2 ^ k)). rewrite Z.log2_pow2 in * by lia. lia.
Qed.

Lemma Zdigits2_succ (m : Z) : (0 <= m)%Z -> (Zdigits2 (m + 1) <= Zdigits2 m + 1)%Z.
Proof.
  intros H. destruct (Z.eq_dec m 0) as [->|Hm]; [simpl; lia|].
  rewrite !Zdigits2_log2 by lia.
  pose proof (Z.log2_succ_le m). unfold Z.succ in *. lia.
Qed.

Lemma shr_1_bounds (r : shr_record) :
  (0 <= shr_m r)%Z -> (0 <= shr_m (shr_1 r) <= shr_m r)%Z.
Proof.
  destruct r as [m b1 b2]. simpl. intros H.
  destruct m as [|[p|p|]|p]; simpl; lia.
Qed.

Lemma iter_shr_1_bounds (p : positive) (r : shr_record) :
  (0 <= shr_m r)%Z -> (0 <= shr_m (SpecFloat.iter_pos shr_1 p r) <= shr_m r)%Z.
Proof.
  revert r. induction p as [p IH|p IH|]; intros r H; simpl.
  - pose proof (shr_1_bounds r H). pose proof (IH (shr_1 r) ltac:(lia)).
    pose proof (IH (SpecFloat.iter_pos shr_1 p (shr_1 r)) ltac:(lia)). lia.
  - pose proof (IH r H). pose proof (IH (SpecFloat.iter_pos shr_1 p r) ltac:(lia)). lia.
  - now apply shr_1_bounds.
Qed.

Lemma round_nearest_even_bounds (m : Z) (l : location) :
  (m <= round_nearest_even m l <= m + 1)%Z.
Proof. destruct l as [|[]]; simpl; try lia. destruct (Z.even m); lia. Qed.

(** ** Rounding to a decimal *)

Lemma round_half_even_nearest (num den : Z) :
  (0 <= num)%Z -> (0 < den)%Z ->
  (2 * Z.abs (round_half_even num den * den - num) <= den)%Z.
Proof.
  intros Hn Hd. unfold round_half_even.
  pose proof (Z.div_mod num den ltac:(lia)) as E.
  pose proof (Z.mod_pos_bound num den Hd) as B.
  set (q := (num / den)%Z) in *. set (r := (num mod den)%Z) in *.
  destruct (Z.compare_spec (2 * r) den) as [H|H|H]; [destruct (Z.even q)| |]; nia.
Qed.

(** The decimal written for a float is the multiple of a tenth nearest to
    its value. *)
Lemma tenths_nearest (m : positive) (e : Z) :
  (e < 0 -> 2 * Z.abs (tenths m e * 2 ^ (- e) - 10 * Z.pos m) <= 2 ^ (- e))%Z /\
  (0 <= e -> tenths m e = 10 * Z.pos m * 2 ^ e)%Z.
Proof.
  destruct e as [|p|p]; split; intros H; try lia; try reflexivity.
  cbn [tenths Z.opp].
  apply round_half_even_nearest; [lia | apply Z.pow_pos_nonneg; lia].
Qed.

(** ** Accuracy of the percentages *)

Section Accuracy.
Local Open Scope Z_scope.

Lemma new_location_ok (b q r : Z) :
  0 < b -> 0 <= r < b -> loc_ok q (new_location b r) (q * b + r) b.
Proof.
  intros Hb Hr. unfold new_location, new_location_even, new_location_odd.
  destruct (Z.even b) eqn:Eb.
  - destruct (Z.eqb_spec r 0) as [->|Hr0]; [unfold loc_ok; lia|].
    destruct (Z.compare_spec (2 * r) b); unfold loc_ok; lia.
  - destruct (Z.eqb_spec r 0) as [->|Hr0]; [unfold loc_ok; lia|].
    assert (Hodd : Z.odd b = true) by (rewrite <- Z.negb_even, Eb; reflexivity).
    apply Z.odd_spec in Hodd as [k Hk].
    destruct (Z.compare_spec (2 * r + 1) b); unfold loc_ok; lia.
Qed.

Lemma shr_record_loc (m : Z) (l : location) :
  shr_m (shr_record_of_loc m l) = m /\ loc_of_shr_record (shr_record_of_loc m l) = l.
Proof. destruct l as [|[]]; split; reflexivity. Qed.

Lemma shr_1_ok (r : shr_record) (num den : Z) :
  0 <= shr_m r -> 0 < den ->
  loc_ok (shr_m r) (loc_of_shr_record r) num den ->
  loc_ok (shr_m (shr_1 r)) (loc_of_shr_record (shr_1 r)) num (2 * den).
Proof.
  destruct r as [m b1 b2]. cbn [shr_m]. intros Hm Hd H.
  destruct m as [|[p|p|]|p]; try lia; destruct b1, b2;
    cbn [shr_1 shr_m loc_of_shr_record loc_ok orb] in *; lia.
Qed.

Lemma pow2_xO (p : positive) : 2 ^ Z.pos p~0 = 2 ^ Z.pos p * 2 ^ Z.pos p.
Proof.
  replace (Z.pos p~0) with (Z.pos p + Z.pos p) by lia.
  apply Z.pow_add_r; lia.
Qed.

Lemma pow2_xI (p : positive) : 2 ^ Z.pos p~1 = 2 * (2 ^ Z.pos p * 2 ^ Z.pos p).
Proof.
  replace (Z.pos p~1) with (1 + (Z.pos p + Z.pos p)) by lia.
  rewrite !Z.pow_add_r by lia. now rewrite Z.pow_1_r.
Qed.

Lemma iter_shr_1_ok (p : positive) (r : shr_record) (num den : Z) :
  0 <= shr_m r -> 0 < den ->
  loc_ok (shr_m r) (loc_of_shr_record r) num den ->
  loc_ok (shr_m (SpecFloat.iter_pos shr_1 p r))
         (loc_of_shr_record (SpecFloat.iter_pos shr_1 p r)) num (2 ^ Z.pos p * den).
Proof.
  revert r den. induction p as [p IH|p IH|]; intros r den Hm Hd H; simpl SpecFloat.iter_pos.
  - assert (0 < 2 ^ Z.pos p) by (apply Z.pow_pos_nonneg; lia).
    pose proof (shr_1_bounds r Hm) as B1.
    pose proof (shr_1_ok r num den Hm Hd H) as H1.
    pose proof (iter_shr_1_bounds p (shr_1 r) ltac:(lia)) as B2.
    pose proof (IH (shr_1 r) (2 * den) ltac:(lia) ltac:(lia) H1) as H2.
    pose proof (IH (SpecFloat.iter_pos shr_1 p (shr_1 r)) (2 ^ Z.pos p * (2 * den))
                  ltac:(lia) ltac:(nia) H2) as H3.
    replace (2 ^ Z.pos p~1 * den) with (2 ^ Z.pos p * (2 ^ Z.pos p * (2 * den))); [exact H3|].
    rewrite pow2_xI. ring.
  - pose proof (iter_shr_1_bounds p r Hm) as B2.
    pose proof (IH r den Hm Hd H) as H2.
    assert (0 < 2 ^ Z.pos p) by (apply Z.pow_pos_nonneg; lia).
    pose proof (IH (SpecFloat.iter_pos shr_1 p r) (2 ^ Z.pos p * den)
                  ltac:(lia) ltac:(nia) H2) as H3.
    replace (2 ^ Z.pos p~0 * den) with (2 ^ Z.pos p * (2 ^ Z.pos p * den)); [exact H3|].
    rewrite pow2_xO. ring.
  - rewrite Z.pow_1_r. now apply shr_1_ok.
Qed.

Lemma shr_1_div (r : shr_record) : 0 <= shr_m r -> shr_m (shr_1 r) = shr_m r / 2.
Proof.
  destruct r as [m b1 b2]. cbn [shr_m]. intros H.
  destruct m as [|[p|p|]|p]; cbn [shr_1 shr_m]; try lia.
  - reflexivity.
  - apply Z.div_unique with (r := 1); lia.
  - apply Z.div_unique with (r := 0); lia.
  - reflexivity.
Qed.

Lemma iter_shr_1_div (p : positive) (r : shr_record) :
  0 <= shr_m r -> shr_m (SpecFloat.iter_pos shr_1 p r) = shr_m r / 2 ^ Z.pos p.
Proof.
  revert r. induction p as [p IH|p IH|]; intros r H; simpl SpecFloat.iter_pos.
  - assert (0 < 2 ^ Z.pos p) by (apply Z.pow_pos_nonneg; lia).
    pose proof (shr_1_bounds r H) as B1.
    pose proof (iter_shr_1_bounds p (shr_1 r) ltac:(lia)) as B2.
    rewrite IH, IH, shr_1_div by lia.
    rewrite !Z.div_div by lia. rewrite pow2_xI. f_equal; ring.
  - assert (0 < 2 ^ Z.pos p) by (apply Z.pow_pos_nonneg; lia).
    pose proof (iter_shr_1_bounds p r H) as B2.
    rewrite IH, IH by lia.
    rewrite !Z.div_div by lia. now rewrite pow2_xO.
  - rewrite Z.pow_1_r. now apply shr_1_div.
Qed.

(** The first step of rounding: the mantissa is cut by [n] bits, and the
    place of the number in the new grid is recorded. *)
Lemma shr_fexp_spec (m e : Z) (l : location) (num den : Z) :
  0 <= m -> 0 < den -> loc_ok m l num den ->
  exists n,
    0 <= n /\
    snd (shr_fexp prec emax m e l) = e + n /\
    e + n = Z.max e (fexp prec emax (Zdigits2 m + e)) /\
    shr_m (fst (shr_fexp prec emax m e l)) = m / 2 ^ n /\
    loc_ok (shr_m (fst (shr_fexp prec emax m e l)))
           (loc_of_shr_record (fst (shr_fexp prec emax m e l))) num (2 ^ n * den).
Proof.
  intros Hm Hd H. unfold shr_fexp, shr.
  destruct (shr_record_loc m l) as [Em El].
  destruct (fexp prec emax (Zdigits2 m + e) - e) as [|p|p] eqn:En; cbn [fst snd].
  - exists 0. rewrite Em, El, Z.pow_0_r, Z.div_1_r, Z.mul_1_l.
    repeat split; try lia. exact H.
  - exists (Z.pos p).
    split; [lia|]. split; [reflexivity|]. split; [lia|]. split.
    + rewrite iter_shr_1_div by (rewrite Em; exact Hm). now rewrite Em.
    + apply iter_shr_1_ok; rewrite ?Em, ?El; assumption.
  - exists 0. rewrite Em, El, Z.pow_0_r, Z.div_1_r, Z.mul_1_l.
    repeat split; try lia. exact H.
Qed.

Lemma round_nearest_even_ok (m : Z) (l : location) (num den : Z) :
  0 < den -> loc_ok m l num den ->
  2 * Z.abs (round_nearest_even m l * den - num) <= den.
Proof.
  intros Hd H. destruct l as [|[]]; cbn [round_nearest_even loc_ok] in *.
  - lia.
  - destruct (Z.even m); lia.
  - lia.
  - lia.
Qed.

Lemma Zdigits2_div_pow2 (m n : Z) :
  0 <= m -> 0 <= n -> Zdigits2 (m / 2 ^ n) <= Z.max 0 (Zdigits2 m - n).
Proof.
  intros Hm Hn.
  assert (Hp : 0 < 2 ^ n) by (apply Z.pow_pos_nonneg; lia).
  destruct (Z.eq_dec (m / 2 ^ n) 0) as [->|Hq]; [simpl; lia|].
  assert (0 < m / 2 ^ n) by (pose proof (Z.div_pos m (2 ^ n)); lia).
  assert (0 < m) by (destruct (Z.eq_dec m 0) as [->|]; [rewrite Z.div_0_l in *; lia | lia]).
  assert (2 ^ n <= m).
  { destruct (Z.le_gt_cases (2 ^ n) m) as [Hle|Hgt]; [exact Hle|].
    rewrite Z.div_small in Hq by lia. contradiction. }
  assert (n <= Z.log2 m) by (apply Z.log2_le_pow2; lia).
  rewrite !Zdigits2_log2 by lia.
  rewrite <- Z.shiftr_div_pow2 by lia.
  rewrite Z.log2_shiftr by lia. lia.
Qed.

(** Rounding to nearest even, followed by the final cut: the float
    obtained is within one and a half units of its last place of the
    number rounded. *)
Lemma round_aux_spec (s : bool) (m e : Z) (l : location) (num den : Z) :
  0 <= m -> 0 < den -> loc_ok m l num den ->
  exists m_f e_f n,
    0 <= n /\ e_f = e + n /\ 0 <= m_f /\
    binary_round_aux prec emax s m e l = float_of s m_f e_f /\
    2 * Z.abs (m_f * (2 ^ n * den) - num) <= 3 * (2 ^ n * den) /\
    e_f <= Z.max (Z.max e (fexp prec emax (Zdigits2 m + e)))
                 (fexp prec emax (Z.max (Zdigits2 m + e)
                                        (Z.max e (fexp prec emax (Zdigits2 m + e))) + 1)).
Proof.
  intros Hm Hd H. unfold binary_round_aux.
  destruct (shr_fexp_spec m e l num den Hm Hd H) as (n1 & Hn1 & Ee1 & Emax1 & Em1 & L1).
  destruct (shr_fexp prec emax m e l) as [mrs1 e1]. cbn [fst snd] in *.
  assert (Hp1 : 0 < 2 ^ n1) by (apply Z.pow_pos_nonneg; lia).
  assert (Hm1 : 0 <= shr_m mrs1) by (rewrite Em1; apply Z.div_pos; lia).
  set (m2 := round_nearest_even (shr_m mrs1) (loc_of_shr_record mrs1)).
  pose proof (round_nearest_even_bounds (shr_m mrs1) (loc_of_shr_record mrs1)) as B2.
  pose proof (round_nearest_even_ok _ _ num (2 ^ n1 * den) ltac:(nia) L1) as R2.
  fold m2 in B2, R2.
  assert (L2 : loc_ok m2 loc_Exact (m2 * 1) 1) by (cbn [loc_ok]; lia).
  destruct (shr_fexp_spec m2 e1 loc_Exact (m2 * 1) 1 ltac:(lia) ltac:(lia) L2)
    as (n2 & Hn2 & Ee2 & Emax2 & Em2 & _).
  destruct (shr_fexp prec emax m2 e1 loc_Exact) as [mrs2 e2]. cbn [fst snd] in *.
  assert (Hp2 : 0 < 2 ^ n2) by (apply Z.pow_pos_nonneg; lia).
  exists (shr_m mrs2), e2, (n1 + n2).
  assert (Hmf : 0 <= shr_m mrs2) by (rewrite Em2; apply Z.div_pos; lia).
  split; [lia|]. split; [lia|]. split; [exact Hmf|]. split; [reflexivity|]. split.
  - rewrite Z.pow_add_r by lia.
    pose proof (Z.div_mod m2 (2 ^ n2) ltac:(lia)) as Edm.
    pose proof (Z.mod_pos_bound m2 (2 ^ n2) Hp2) as Bdm.
    rewrite <- Em2 in Edm.
    set (mf := shr_m mrs2) in *. set (rr := m2 mod 2 ^ n2) in *.
    set (P1 := 2 ^ n1) in *. set (P2 := 2 ^ n2) in *.
    assert (Ek : mf * (P1 * P2 * den) - num
                 = (m2 * (P1 * den) - num) - rr * (P1 * den)) by (rewrite Edm; ring).
    rewrite Ek.
    assert (0 <= rr * (P1 * den) <= (P2 - 1) * (P1 * den)) by nia.
    assert (P1 * den <= P1 * P2 * den) by nia.
    lia.
  - assert (Hd1 : Zdigits2 (shr_m mrs1) + e1 <= Z.max (Zdigits2 m + e) e1).
    { rewrite Em1. pose proof (Zdigits2_div_pow2 m n1 Hm Hn1). lia. }
    assert (Hd2 : Zdigits2 m2 <= Zdigits2 (shr_m mrs1) + 1).
    { pose proof (Zdigits2_le m2 (shr_m mrs1 + 1) ltac:(lia)).
      pose proof (Zdigits2_succ (shr_m mrs1) Hm1). lia. }
    unfold fexp in *. lia.
Qed.

Lemma float_of_small (s : bool) (m e : Z) :
  0 <= m -> e <= 971 ->
  float_of s m e = match m with
                   | Zpos p => S754_finite s p e
                   | _ => S754_zero s
                   end.
Proof.
  intros Hm He. unfold float_of. destruct m as [|p|p]; try lia; [reflexivity|].
  replace (e <=? emax - prec) with true; [reflexivity|].
  symmetry. apply Z.leb_le. unfold emax, prec. lia.
Qed.

Lemma abs_scaled_le (x c p : Z) :
  0 < p -> 2 * Z.abs (x * p) <= c * p -> 2 * Z.abs x <= c.
Proof.
  intros Hp H. rewrite Z.abs_mul, (Z.abs_eq p) in H by lia. nia.
Qed.

(** The quotient of a count by a total at least as large: a float within
    one and a half units of its last place, which is at most 2^-51. *)
Lemma int_true_div_spec (a b : Z) :
  0 <= a <= b -> 0 < b ->
  exists m k,
    51 <= k /\ 0 <= m /\
    int_true_div a b = Ok (match m with Zpos p => S754_finite false p (- k) | _ => S754_zero false end) /\
    2 * Z.abs (m * b - a * 2 ^ k) <= 3 * b.
Proof.
  intros Hab Hb. unfold int_true_div.
  destruct b as [|pb|pb]; try lia.
  destruct a as [|pa|pa]; try lia.
  { exists 0, 51. repeat split; try lia. }
  cbn [Z.ltb Z.compare Z.abs Z.to_pos].
  unfold SFdiv, SFdiv_core_binary.
  set (d1 := Zdigits2 (Z.pos pa)). set (d2 := Zdigits2 (Z.pos pb)).
  assert (Hd : d1 <= d2) by (apply Zdigits2_le; lia).
  set (e' := Z.min (fexp prec emax (d1 + 0 - (d2 + 0))) (0 - 0)).
  assert (He' : -1074 <= e' <= -53) by (unfold e', fexp, emin, prec, emax; lia).
  destruct (0 - 0 - e') as [|ps|ps] eqn:Es; try lia.
  rewrite Z.shiftl_mul_pow2 by lia.
  pose proof (Z.div_eucl_eq (Z.pos pa * 2 ^ Z.pos ps) (Z.pos pb) ltac:(lia)) as Hq.
  pose proof (Z.mod_pos_bound (Z.pos pa * 2 ^ Z.pos ps) (Z.pos pb) ltac:(lia)) as Hr.
  unfold Z.modulo in Hr.
  destruct (Z.div_eucl (Z.pos pa * 2 ^ Z.pos ps) (Z.pos pb)) as [q r].
  assert (Hp : 0 < 2 ^ Z.pos ps) by (apply Z.pow_pos_nonneg; lia).
  assert (Hq0 : 0 <= q) by nia.
  assert (Hq1 : q <= 2 ^ Z.pos ps) by nia.
  pose proof (Zdigits2_pow2 q (Z.pos ps) ltac:(lia) ltac:(lia)) as Hdq.
  pose proof (Zdigits2_nonneg q) as Hdq0.
  assert (L : loc_ok q (new_location (Z.pos pb) r) (Z.pos pa * 2 ^ Z.pos ps) (Z.pos pb)).
  { rewrite Hq. replace (Z.pos pb * q + r) with (q * Z.pos pb + r) by ring.
    apply new_location_ok; lia. }
  destruct (round_aux_spec (xorb false false) q e' (new_location (Z.pos pb) r)
              (Z.pos pa * 2 ^ Z.pos ps) (Z.pos pb) Hq0 ltac:(lia) L)
    as (m_f & e_f & n & Hn & Ee & Hmf & Er & Hb2 & He).
  assert (Hef : e_f <= -51) by (unfold fexp, emin, prec, emax in He; lia).
  rewrite Er, float_of_small by lia.
  exists m_f, (- e_f). rewrite Z.opp_involutive.
  split; [lia|]. split; [exact Hmf|]. split.
  - destruct m_f; reflexivity.
  - assert (Hpn : 0 < 2 ^ n) by (apply Z.pow_pos_nonneg; lia).
    replace (Z.pos ps) with (- e_f + n) in Hb2 by lia.
    rewrite Z.pow_add_r in Hb2 by lia.
    apply (abs_scaled_le _ _ (2 ^ n) Hpn).
    replace ((m_f * Z.pos pb - Z.pos pa * 2 ^ (- e_f)) * 2 ^ n)
      with (m_f * (2 ^ n * Z.pos pb) - Z.pos pa * (2 ^ (- e_f) * 2 ^ n)) by ring.
    lia.
Qed.

Lemma Zdigits2_lt_pow2 (m k : Z) : 0 <= k -> 0 <= m < 2 ^ k -> Zdigits2 m <= k.
Proof.
  intros Hk H. destruct (Z.eq_dec m 0) as [->|Hm]; [simpl; lia|].
  rewrite Zdigits2_log2 by lia.
  assert (Z.log2 m < k) by (apply Z.log2_lt_pow2; lia). lia.
Qed.

Lemma hundred_eq : hundred = S754_finite false 7036874417766400 (-46).
Proof. vm_compute. reflexivity. Qed.

(** The product of such a quotient by 100: a float within one and a half
    units of its last place, which is at most 2^-45. *)
Lemma mul_hundred_spec (p : positive) (k : Z) :
  51 <= k -> Z.pos p <= 2 ^ k + 1 ->
  exists m j n,
    45 <= j /\ 0 <= n /\ j + n = k + 46 /\ 0 <= m /\
    float_mul (S754_finite false p (- k)) hundred
    = match m with Zpos q => S754_finite false q (- j) | _ => S754_zero false end /\
    2 * Z.abs (m * 2 ^ n - Z.pos p * (100 * 2 ^ 46)) <= 3 * 2 ^ n.
Proof.
  intros Hk Hp. unfold float_mul. rewrite hundred_eq. cbn [SFmul].
  set (M := Z.pos (p * 7036874417766400)).
  assert (EM : M = Z.pos p * (100 * 2 ^ 46)) by (unfold M; rewrite Pos2Z.inj_mul; reflexivity).
  assert (HA : 0 < 2 ^ k) by (apply Z.pow_pos_nonneg; lia).
  assert (HA4 : 2 ^ 2 <= 2 ^ k) by (apply Z.pow_le_mono_r; lia).
  assert (HM : 0 <= M < 2 ^ (k + 53)).
  { rewrite EM, Z.pow_add_r by lia.
    change (2 ^ 2) with 4 in HA4. change (2 ^ 53) with (128 * 2 ^ 46).
    assert (0 < 2 ^ 46) by reflexivity. nia. }
  pose proof (Zdigits2_lt_pow2 M (k + 53) ltac:(lia) HM) as HdM.
  pose proof (Zdigits2_nonneg M) as HdM0.
  assert (L : loc_ok M loc_Exact (M * 1) 1) by (cbn [loc_ok]; lia).
  destruct (round_aux_spec (xorb false false) M (- k + -46) loc_Exact (M * 1) 1
              ltac:(lia) ltac:(lia) L)
    as (m_f & e_f & n & Hn & Ee & Hmf & Er & Hb2 & He).
  assert (Hef : e_f <= -45) by (unfold fexp, emin, prec, emax in He; lia).
  rewrite Er, float_of_small by lia.
  exists m_f, (- e_f), n. rewrite Z.opp_involutive.
  split; [lia|]. split; [lia|]. split; [lia|]. split; [exact Hmf|]. split.
  - destruct m_f; reflexivity.
  - rewrite <- EM. rewrite !Z.mul_1_r in Hb2. exact Hb2.
Qed.

Lemma combine_errors (T a b m_y m_q A B S : Z) :
  0 < b -> 0 < S -> 2 ^ 51 <= A -> 2 ^ 45 <= B -> B * S = A * 2 ^ 46 ->
  2 * Z.abs (T * B - 10 * m_y) <= B ->
  2 * Z.abs (m_y * S - m_q * (100 * 2 ^ 46)) <= 3 * S ->
  2 * Z.abs (m_q * b - a * A) <= 3 * b ->
  2 ^ 52 * Z.abs (T * b - 1000 * a) <= (2 ^ 51 + 4920) * b.
Proof.
  intros Hb HS HA HB HBS H1 H2 H3.
  set (W := B * S) in *.
  assert (HW : 0 < W) by (unfold W; change (2 ^ 45) with 35184372088832 in HB; nia).
  set (d1 := T * B - 10 * m_y) in *.
  set (d2 := m_y * S - m_q * (100 * 2 ^ 46)) in *.
  set (d3 := m_q * b - a * A) in *.
  assert (Hid : (T * b - 1000 * a) * W
                = b * S * d1 + 10 * b * d2 + 1000 * 2 ^ 46 * d3).
  { unfold d1, d2, d3.
    replace ((T * b - 1000 * a) * W) with (T * b * W - 1000 * a * W) by ring.
    rewrite HBS at 2. unfold W. ring. }
  change (2 ^ 46) with 70368744177664 in *.
  change (2 ^ 51) with 2251799813685248 in *.
  change (2 ^ 45) with 35184372088832 in *.
  change (2 ^ 52) with 4503599627370496.
  assert (E1 : 2 * Z.abs (b * S * d1) <= b * W).
  { rewrite Z.abs_mul, (Z.abs_eq (b * S)) by nia. unfold W. nia. }
  assert (E2 : 2 * Z.abs (b * d2) <= 3 * (b * S)).
  { rewrite Z.abs_mul, (Z.abs_eq b) by lia. nia. }
  assert (E3 : 35184372088832 * (b * S) <= b * W).
  { replace (b * W) with (B * (b * S)) by (unfold W; ring).
    apply Z.mul_le_mono_nonneg_r; [nia | exact HB]. }
  assert (E4 : 2251799813685248 * 70368744177664 * b <= b * W).
  { replace (b * W) with (A * (70368744177664 * b)) by (fold W in HBS; rewrite HBS; ring).
    rewrite <- Z.mul_assoc. apply Z.mul_le_mono_nonneg_r; [lia | exact HA]. }
  apply (Z.mul_le_mono_pos_r _ _ W HW).
  replace (4503599627370496 * Z.abs (T * b - 1000 * a) * W)
    with (4503599627370496 * Z.abs ((T * b - 1000 * a) * W))
    by (rewrite Z.abs_mul, (Z.abs_eq W) by lia; ring).
  rewrite Hid.
  pose proof (Z.abs_triangle (b * S * d1 + 10 * b * d2) (1000 * 70368744177664 * d3)) as T1.
  pose proof (Z.abs_triangle (b * S * d1) (10 * b * d2)) as T2.
  replace (10 * b * d2) with (10 * (b * d2)) in * by ring.
  rewrite (Z.abs_mul 10) in T2. rewrite (Z.abs_mul (1000 * 70368744177664)) in T1.
  change (Z.abs 10) with 10 in T2.
  change (Z.abs (1000 * 70368744177664)) with (1000 * 70368744177664) in T1.
  set (bW := b * W) in *. set (bS := b * S) in *.
  replace ((2251799813685248 + 4920) * b * W) with ((2251799813685248 + 4920) * bW)
    by (unfold bW; ring).
  lia.
Qed.

Lemma format_1f_shown (x : spec_float) :
  match x with
  | S754_zero false => True
  | S754_finite false _ e => e < 0
  | _ => False
  end ->
  format_1f x = digits_of_N (Z.to_N (shown_tenths x / 10)) ++ u "."
                  ++ digits_of_N (Z.to_N (shown_tenths x mod 10)).
Proof.
  destruct x as [[|]|[|]| |[|] m e]; try contradiction; intros H.
  - vm_compute. reflexivity.
  - reflexivity.
Qed.

(** The percentage of a count in a total, as computed in floating point
    and written with one decimal, is the true percentage up to half a
    tenth and a relative excess below 2^-38. *)
Theorem percent_accuracy (a b : Z) :
  0 <= a <= b -> 0 < b ->
  exists p,
    percent a b = Ok p /\
    format_1f p = digits_of_N (Z.to_N (shown_tenths p / 10)) ++ u "."
                    ++ digits_of_N (Z.to_N (shown_tenths p mod 10)) /\
    2 ^ 52 * Z.abs (shown_tenths p * b - 1000 * a) <= (2 ^ 51 + 4920) * b.
Proof.
  intros Hab Hb.
  destruct (int_true_div_spec a b Hab Hb) as (m_q & k & Hk & Hmq & Ediv & HD).
  assert (HA : 2 ^ 51 <= 2 ^ k) by (apply Z.pow_le_mono_r; lia).
  unfold percent. rewrite Ediv. cbn [bind]. eexists. split; [reflexivity|].
  destruct m_q as [|pq|pq]; try lia.
  - (* the quotient is rounded to zero *)
    replace (float_mul (S754_zero false) hundred) with (S754_zero false)
      by (rewrite hundred_eq; reflexivity).
    split; [apply format_1f_shown; exact I|].
    cbn [shown_tenths].
    assert (a * 2 ^ 51 <= a * 2 ^ k) by (apply Z.mul_le_mono_nonneg_l; lia).
    change (2 ^ 51) with 2251799813685248 in *.
    change (2 ^ 52) with 4503599627370496. lia.
  - assert (Hpq : Z.pos pq <= 2 ^ k + 1).
    { assert (0 < 2 ^ k) by lia. nia. }
    destruct (mul_hundred_spec pq k Hk Hpq) as (m_y & j & n & Hj & Hn & Hjn & Hmy & Emul & HM).
    rewrite Emul.
    assert (HS : 0 < 2 ^ n) by (apply Z.pow_pos_nonneg; lia).
    assert (HB : 2 ^ 45 <= 2 ^ j) by (apply Z.pow_le_mono_r; lia).
    assert (HBS : 2 ^ j * 2 ^ n = 2 ^ k * 2 ^ 46)
      by (rewrite <- !Z.pow_add_r by lia; f_equal; lia).
    destruct m_y as [|py|py]; try lia.
    + split; [apply format_1f_shown; exact I|].
      cbn [shown_tenths].
      apply (combine_errors 0 a b 0 (Z.pos pq) (2 ^ k) (2 ^ j) (2 ^ n)); try assumption.
      change (2 ^ 45) with 35184372088832 in HB. rewrite Z.mul_0_l, Z.mul_0_r. cbn. lia.
    + split; [apply format_1f_shown; lia|].
      cbn [shown_tenths].
      apply (combine_errors _ a b (Z.pos py) (Z.pos pq) (2 ^ k) (2 ^ j) (2 ^ n));
        try assumption.
      destruct (tenths_nearest py (- j)) as [Hneg _].
      rewrite Z.opp_involutive in Hneg. apply Hneg. lia.
Qed.

End Accuracy.

(** ** The tally *)

Section Tally.
Context {RT : PyRuntime}.

Lemma count_reads_int (tally : list (str * value)) (k : str) (n : Z) :
  count_reads tally k n ->
  py_int (field tally k (u "0")) = Ok n /\ (0 <= n)%Z.
Proof.
  unfold count_reads, field.
  destruct (dict_lookup k tally) as [[| | | |s| |]|]; try contradiction.
  - intros [Hd ->]. split.
    + exact (int_of_digit_string s Hd).
    + unfold digits_value. lia.
  - intros ->. split; [|lia].
    exact (int_of_digit_string (u "0") eq_refl).
Qed.

Lemma percent_shown (count total : Z) :
  (0 <= count <= total)%Z -> (0 < total)%Z ->
  exists p, percent count total = Ok p /\ shown_percentage_ok count total p.
Proof.
  intros H Ht. destruct (percent_accuracy count total H Ht) as (p & Hp & Hf & Hb).
  exists p. split; [exact Hp | split; [exact Hf | exact Hb]].
Qed.

(** C2.  For a tally whose counts are numeric strings (an absent count
    being 0), the renderer adds the four counts up; with a positive total
    it writes each category with its count, thousands-separated, and its
    percentage [(count / total) * 100], computed in floating point and
    written with one decimal, then the total; with no vote it writes the
    "no votes" line.  The percentage written is the true percentage of the
    count in the total up to half a tenth (and 4920 / 2^52 of a tenth), and
    the separated count is the plain count with commas put in.  For the
    counts 70, 20, 5 and 5 the total is 100 and the first line reads
    "Yes: 70 (70.0%)". *)
Theorem tally_rendering (tally : list (str * value)) (yes no abstain veto : Z) :
  count_reads tally (u "yes_count") yes ->
  count_reads tally (u "no_count") no ->
  count_reads tally (u "abstain_count") abstain ->
  count_reads tally (u "no_with_veto_count") veto ->
  let total := (yes + no + abstain + veto)%Z in
  ((0 < total)%Z ->
   exists yes_pct no_pct abstain_pct veto_pct,
     (percent yes total = Ok yes_pct /\ shown_percentage_ok yes total yes_pct) /\
     (percent no total = Ok no_pct /\ shown_percentage_ok no total no_pct) /\
     (percent abstain total = Ok abstain_pct /\
      shown_percentage_ok abstain total abstain_pct) /\
     (percent veto total = Ok veto_pct /\ shown_percentage_ok veto total veto_pct) /\
     _format_tally (PyDict tally)
     = Ok (tally_header
             ++ category_line (u "✅ Yes:     ") yes yes_pct
             ++ category_line (u "❌ No:      ") no no_pct
             ++ category_line (u "⏸️  Abstain: ") abstain abstain_pct
             ++ category_line (u "🚫 Veto:    ") veto veto_pct
             ++ nl ++ u "📊 Total Votes: " ++ format_comma total)) /\
  ((total <= 0)%Z ->
   _format_tally (PyDict tally) = Ok (tally_header ++ u "No votes cast yet")) /\
  _format_tally (PyDict example_tally)
  = Ok (tally_header
          ++ u "✅ Yes:     70 (70.0%)" ++ nl
          ++ u "❌ No:      20 (20.0%)" ++ nl
          ++ u "⏸️  Abstain: 5 (5.0%)" ++ nl
          ++ u "🚫 Veto:    5 (5.0%)" ++ nl
          ++ nl ++ u "📊 Total Votes: 100") /\
  (forall n, filter no_comma (format_comma n) = str_of_int n).
Proof.
  intros Hy Hn Ha Hv total.
  apply count_reads_int in Hy as [Ey Py], Hn as [En Pn], Ha as [Ea Pa], Hv as [Ev Pv].
  assert (Hrun : _format_tally (PyDict tally)
                 = if (total >? 0)%Z then
                     yes_pct <- percent yes total ;;
                     no_pct <- percent no total ;;
                     abstain_pct <- percent abstain total ;;
                     veto_pct <- percent veto total ;;
                     Ok (tally_header
                           ++ category_line (u "✅ Yes:     ") yes yes_pct
                           ++ category_line (u "❌ No:      ") no no_pct
                           ++ category_line (u "⏸️  Abstain: ") abstain abstain_pct
                           ++ category_line (u "🚫 Veto:    ") veto veto_pct
                           ++ nl ++ u "📊 Total Votes: " ++ format_comma total)
                   else Ok (tally_header ++ u "No votes cast yet")).
  { unfold _format_tally. rewrite !py_get_field. cbn [bind].
    rewrite Ey. cbn [bind]. rewrite En. cbn [bind]. rewrite Ea. cbn [bind].
    rewrite Ev. cbn [bind]. fold total.
    destruct (total >? 0)%Z.
    - destruct (percent yes total); [|reflexivity]. cbn [bind].
      destruct (percent no total); [|reflexivity]. cbn [bind].
      destruct (percent abstain total); [|reflexivity]. cbn [bind].
      destruct (percent veto total); [|reflexivity]. cbn [bind].
      unfold tally_header, category_line. now rewrite <- !app_assoc.
    - unfold tally_header. now rewrite <- !app_assoc. }
  split; [|split; [|split]].
  - intros Ht.
    destruct (percent_shown yes total ltac:(lia) Ht) as (py & Hpy & Sy).
    destruct (percent_shown no total ltac:(lia) Ht) as (pn & Hpn & Sn).
    destruct (percent_shown abstain total ltac:(lia) Ht) as (pa & Hpa & Sa).
    destruct (percent_shown veto total ltac:(lia) Ht) as (pv & Hpv & Sv).
    exists py, pn, pa, pv.
    split; [now split|]. split; [now split|]. split; [now split|]. split; [now split|].
    rewrite Hrun. destruct (Z.gtb_spec total 0); [|lia].
    rewrite Hpy, Hpn, Hpa, Hpv. reflexivity.
  - intros Ht. rewrite Hrun. destruct (Z.gtb_spec total 0); [lia | reflexivity].
  - vm_compute. reflexivity.
  - exact format_comma_plain.
Qed.

End Tally.

Lemma tally_rendering_witness :
  exists yes_pct no_pct abstain_pct veto_pct,
    (percent 70 (70 + 20 + 5 + 5) = Ok yes_pct /\
     shown_percentage_ok 70 (70 + 20 + 5 + 5) yes_pct) /\
    (percent 20 (70 + 20 + 5 + 5) = Ok no_pct /\
     shown_percentage_ok 20 (70 + 20 + 5 + 5) no_pct) /\
    (percent 5 (70 + 20 + 5 + 5) = Ok abstain_pct /\
     shown_percentage_ok 5 (70 + 20 + 5 + 5) abstain_pct) /\
    (percent 5 (70 + 20 + 5 + 5) = Ok veto_pct /\
     shown_percentage_ok 5 (70 + 20 + 5 + 5) veto_pct) /\
    _format_tally (RT := ascii_runtime) (PyDict example_tally)
    = Ok (tally_header
            ++ category_line (u "✅ Yes:     ") 70 yes_pct
            ++ category_line (u "❌ No:      ") 20 no_pct
            ++ category_line (u "⏸️  Abstain: ") 5 abstain_pct
            ++ category_line (u "🚫 Veto:    ") 5 veto_pct
            ++ nl ++ u "📊 Total Votes: " ++ format_comma (70 + 20 + 5 + 5)).
Proof.
  apply (proj1 (tally_rendering (RT := ascii_runtime) example_tally 70 20 5 5
                  ltac:(vm_compute; split; reflexivity)
                  ltac:(vm_compute; split; reflexivity)
                  ltac:(vm_compute; split; reflexivity)
                  ltac:(vm_compute; split; reflexivity))).
  reflexivity.
Defined.

(** ** The prompt for a parameter *)

Lemma lstrip_with_idem (sp : char -> bool) (s : str) :
  lstrip_with sp (lstrip_with sp s) = lstrip_with sp s.
Proof.
  induction s as [|c s IH]; [reflexivity|].
  cbn [lstrip_with]. destruct (sp c) eqn:E; [exact IH|].
  cbn [lstrip_with]. now rewrite E.
Qed.

Lemma lstrip_with_snoc (sp : char -> bool) (a : str) (c : char) :
  sp c = false -> lstrip_with sp (a ++ [c]) = lstrip_with sp a ++ [c].
Proof.
  intros H. induction a as [|x a IH]; cbn [app lstrip_with].
  - now rewrite H.
  - destruct (sp x); [exact IH | reflexivity].
Qed.

Lemma lstrip_with_first (sp : char -> bool) (s : str) (c : char) (r : str) :
  lstrip_with sp s = c :: r -> sp c = false.
Proof.
  induction s as [|x s IH]; [discriminate|].
  cbn [lstrip_with]. destruct (sp x) eqn:E; [exact IH|].
  intros [= <- _]. exact E.
Qed.

(** Stripping a stripped string changes nothing. *)
Lemma strip_with_idem (sp : char -> bool) (s : str) :
  strip_with sp (strip_with sp s) = strip_with sp s.
Proof.
  unfold strip_with. destruct (lstrip_with sp s) as [|c r] eqn:E; [reflexivity|].
  pose proof (lstrip_with_first sp s c r E) as Hc.
  cbn [rev]. rewrite (lstrip_with_snoc sp (rev r) c Hc).
  rewrite rev_app_distr. cbn [rev app lstrip_with]. rewrite Hc.
  cbn [rev]. rewrite rev_involutive.
  rewrite (lstrip_with_snoc sp _ c Hc), lstrip_with_idem.
  rewrite rev_app_distr. reflexivity.
Qed.

Section PromptFacts.
Context {RT : PyRuntime}.

Lemma get_user_input_blank (prompt_text l : str) (ins : list input_event) (out : list str) :
  blank l = true ->
  get_user_input prompt_text true (Line l :: ins) out
  = get_user_input prompt_text true ins (out ++ reprompt prompt_text).
Proof.
  unfold blank. intros H. cbn [get_user_input]. rewrite H. cbn [andb].
  unfold prompt, print, reprompt. now rewrite <- app_assoc.
Qed.

Lemma get_user_input_answer (prompt_text l : str) (required : bool)
    (ins : list input_event) (out : list str) :
  blank l && required = false ->
  get_user_input prompt_text required (Line l :: ins) out
  = (Ok (strip l), ins, out ++ [prompt_text ++ u ": "]).
Proof.
  unfold blank. intros H. cbn [get_user_input]. now rewrite H.
Qed.

Lemma get_user_input_run (prompt_text : str) (blanks : list str) (ins : list input_event)
    (out : list str) :
  Forall (fun b => blank b = true) blanks ->
  get_user_input prompt_text true (map Line blanks ++ ins) out
  = get_user_input prompt_text true ins
      (out ++ flat_map (fun _ => reprompt prompt_text) blanks).
Proof.
  intros Hb. revert out. induction Hb as [|b blanks Hb _ IH]; intros out.
  - cbn [map app flat_map]. now rewrite app_nil_r.
  - cbn [map app flat_map]. rewrite (get_user_input_blank _ _ _ _ Hb), IH.
    now rewrite <- app_assoc.
Qed.

(** X1.  [get_user_input] with [required] set returns the first line that
    is not blank, stripped, having answered every blank line before it with
    the message and a new prompt; it returns in no other way, so what it
    returns is never empty and has no white space at either end.  With
    [required] unset the first line is returned, blank or not. *)
Theorem get_user_input_required (prompt_text : str) (ins : list input_event)
    (out : list str) :
  (forall blanks l rest,
      ins = map Line blanks ++ Line l :: rest ->
      Forall (fun b => blank b = true) blanks -> blank l = false ->
      get_user_input prompt_text true ins out
      = (Ok (strip l), rest,
         out ++ flat_map (fun _ => reprompt prompt_text) blanks
           ++ [prompt_text ++ u ": "])) /\
  (forall value rest out',
      get_user_input prompt_text true ins out = (Ok value, rest, out') ->
      (exists blanks l,
          ins = map Line blanks ++ Line l :: rest /\
          Forall (fun b => blank b = true) blanks /\ blank l = false /\
          value = strip l) /\
      value <> [] /\ strip value = value) /\
  (forall l rest,
      ins = Line l :: rest ->
      get_user_input prompt_text false ins out
      = (Ok (strip l), rest, out ++ [prompt_text ++ u ": "])).
Proof.
  split; [|split].
  - intros blanks l rest -> Hb Hl.
    rewrite (get_user_input_run _ _ _ _ Hb), get_user_input_answer by now rewrite Hl.
    now rewrite <- app_assoc.
  - intros value rest out' H.
    assert (Hex : exists blanks l,
               ins = map Line blanks ++ Line l :: rest /\
               Forall (fun b => blank b = true) blanks /\ blank l = false /\
               value = strip l).
    { revert out H. induction ins as [|ev ins IH]; intros out H; [discriminate H|].
      destruct ev as [l|]; [|discriminate H].
      destruct (blank l) eqn:Hl.
      - rewrite get_user_input_blank in H by exact Hl.
        destruct (IH _ H) as (blanks & l' & -> & Hb & Hl' & Hv).
        exists (l :: blanks), l'. repeat split; try assumption.
        constructor; assumption.
      - rewrite get_user_input_answer in H by now rewrite Hl.
        injection H as <- <- _. exists [], l. repeat split; try assumption.
        constructor. }
    split; [exact Hex|].
    destruct Hex as (blanks & l & _ & _ & Hl & ->). split.
    + unfold blank in Hl. intros E. rewrite E in Hl. discriminate Hl.
    + apply strip_with_idem.
  - intros l rest ->. apply get_user_input_answer. apply andb_false_r.
Qed.

(** X2.  An interrupt at the prompt of [get_user_input] ends the program
    with exit status 0 after the farewell; at the end of the input the
    [EOFError] of [input] leaves the method, which handles no other
    exception. *)
Theorem get_user_input_ends (prompt_text : str) (required : bool) (blanks : list str)
    (rest : list input_event) (out : list str) :
  Forall (fun b => blank b = true) blanks ->
  get_user_input prompt_text true (map Line blanks ++ Interrupt :: rest) out
  = (Raise (SystemExit 0), rest,
     out ++ flat_map (fun _ => reprompt prompt_text) blanks
       ++ [prompt_text ++ u ": "; farewell]) /\
  get_user_input prompt_text true (map Line blanks) out
  = (Raise EOFError, [],
     out ++ flat_map (fun _ => reprompt prompt_text) blanks ++ [prompt_text ++ u ": "]) /\
  get_user_input prompt_text required (Interrupt :: rest) out
  = (Raise (SystemExit 0), rest, out ++ [prompt_text ++ u ": "; farewell]) /\
  get_user_input prompt_text required [] out
  = (Raise EOFError, [], out ++ [prompt_text ++ u ": "]).
Proof.
  intros Hb. split; [|split; [|split]].
  - rewrite (get_user_input_run _ _ _ _ Hb). cbn [get_user_input].
    unfold prompt, print, farewell. now rewrite <- !app_assoc.
  - rewrite <- (app_nil_r (map Line blanks)), (get_user_input_run _ _ _ _ Hb).
    cbn [get_user_input]. unfold prompt. now rewrite <- !app_assoc.
  - cbn [get_user_input]. unfold prompt, print, farewell. now rewrite <- !app_assoc.
  - reflexivity.
Qed.

End PromptFacts.

Lemma get_user_input_required_witness :
  get_user_input (RT := ascii_runtime) (u "Enter address") true
    [Line (u "  "); Line (u " cro1abc ")] []
  = (Ok (strip (RT := ascii_runtime) (u " cro1abc ")), [],
     [] ++ flat_map (fun _ => reprompt (u "Enter address")) [u "  "]
       ++ [u "Enter address" ++ u ": "]).
Proof.
  apply (proj1 (get_user_input_required (RT := ascii_runtime) (u "Enter address")
                  [Line (u "  "); Line (u " cro1abc ")] [])
               [u "  "] (u " cro1abc ") []).
  - reflexivity.
  - apply Forall_cons; [vm_compute; reflexivity | apply Forall_nil].
  - vm_compute; reflexivity.
Defined.

Lemma get_user_input_ends_witness :
  get_user_input (RT := ascii_runtime) (u "Enter address") true
    (map Line [u "  "] ++ Interrupt :: [Line (u "cro1abc")]) []
  = (Raise (SystemExit 0), [Line (u "cro1abc")],
     [] ++ flat_map (fun _ => reprompt (u "Enter address")) [u "  "]
       ++ [u "Enter address" ++ u ": "; farewell]).
Proof.
  refine (proj1 (get_user_input_ends (RT := ascii_runtime) (u "Enter address") true
                   [u "  "] [Line (u "cro1abc")] [] _)).
  apply Forall_cons; [vm_compute; reflexivity | apply Forall_nil].
Defined.

(** A blank line, then an address between spaces: one refusal, and the
    address comes back without the spaces. *)
Example address_after_blank_line :
  get_user_input (RT := ascii_runtime) (u "Enter address") true
    [Line (u "  "); Line (u " cro1abc "); Line (u "next")] []
  = (Ok (u "cro1abc"), [Line (u "next")],
     [u "Enter address: "; u "❌ This field is required" ++ nl; u "Enter address: "]).
Proof. vm_compute. reflexivity. Qed.

(** ** How the menu ends *)

Section MenuEnds.
Context {RT : PyRuntime}.

Lemma menu_loop_skip (options : list (str * str)) (refused : list str)
    (ins : list input_event) (out : list str) :
  Forall (fun r => is_choice (read_choice options r) = false) refused ->
  menu_loop options (map Line refused ++ ins) out
  = menu_loop options ins (out ++ flat_map (refusal options) refused).
Proof.
  intros Hr. revert out. induction Hr as [|r refused Hr _ IH]; intros out.
  - cbn [map app flat_map]. now rewrite app_nil_r.
  - cbn [map app flat_map]. rewrite (menu_loop_refused options r _ _ Hr), IH.
    now rewrite <- app_assoc.
Qed.

Lemma menu_loop_outcomes (options : list (str * str)) (ins : list input_event)
    (out : list str) (r : result str) (rest : list input_event) (out' : list str) :
  menu_loop options ins out = (r, rest, out') ->
  match r with
  | Ok key => In key (dict_keys options)
  | Raise e =>
    (e = SystemExit 0 /\ last out' [] = farewell) \/ (e = EOFError /\ rest = [])
  end.
Proof.
  revert out. induction ins as [|ev ins IH]; intros out H.
  - cbn [menu_loop] in H. injection H as <- <- <-. right. now split.
  - destruct ev as [l|].
    + destruct (is_choice (read_choice options l)) eqn:R.
      * destruct (read_choice options l) as [| |n] eqn:R'; try discriminate R.
        destruct (menu_loop_chosen options l n ins out R') as (key & Hk & E).
        rewrite E in H. injection H as <- <- <-.
        exact (nth_error_In _ _ Hk).
      * rewrite menu_loop_refused in H by exact R. exact (IH _ H).
    + cbn [menu_loop] in H. injection H as <- <- <-. left. split; [reflexivity|].
      unfold print, prompt, farewell. rewrite last_last. reflexivity.
Qed.

(** X3.  [display_menu] returns nothing but a key of the mapping it was
    given, so with an empty mapping it never returns; and it raises nothing
    but the exit with status 0, the farewell being the last thing written,
    and the [EOFError] of [input] at the end of the input: the index of the
    chosen key is never out of range. *)
Theorem display_menu_outcomes (title : str) (options : list (str * str))
    (ins : list input_event) (out : list str) :
  (forall key rest out',
      display_menu title options ins out = (Ok key, rest, out') ->
      In key (dict_keys options)) /\
  (forall e rest out',
      display_menu title options ins out = (Raise e, rest, out') ->
      (e = SystemExit 0 /\ last out' [] = farewell) \/ (e = EOFError /\ rest = [])) /\
  (options = [] ->
   forall key rest out', display_menu title options ins out <> (Ok key, rest, out')).
Proof.
  assert (Hkey : forall key rest out',
             display_menu title options ins out = (Ok key, rest, out') ->
             In key (dict_keys options)).
  { intros key rest out' H. exact (menu_loop_outcomes _ _ _ _ _ _ H). }
  split; [exact Hkey|]. split.
  - intros e rest out' H. exact (menu_loop_outcomes _ _ _ _ _ _ H).
  - intros -> key rest out' H. exact (Hkey key rest out' H).
Qed.

(** X4.  After lines that are all refused, an interrupt ends the program
    from within [display_menu] with exit status 0, the farewell having been
    written after the prompt; when the input ends instead, [EOFError]
    leaves the method after the prompt. *)
Theorem display_menu_ends (title : str) (options : list (str * str))
    (refused : list str) (rest : list input_event) (out : list str) :
  Forall (fun r => is_choice (read_choice options r) = false) refused ->
  display_menu title options (map Line refused ++ Interrupt :: rest) out
  = (Raise (SystemExit 0), rest,
     out ++ menu_head title options ++ flat_map (refusal options) refused
       ++ [menu_prompt options; farewell]) /\
  display_menu title options (map Line refused) out
  = (Raise EOFError, [],
     out ++ menu_head title options ++ flat_map (refusal options) refused
       ++ [menu_prompt options]).
Proof.
  intros Hr. unfold display_menu. split.
  - rewrite (menu_loop_skip _ _ _ _ Hr). cbn [menu_loop].
    unfold prompt, print, farewell, menu_head. now rewrite <- !app_assoc.
  - rewrite <- (app_nil_r (map Line refused)), (menu_loop_skip _ _ _ _ Hr).
    cbn [menu_loop]. unfold prompt, print, menu_head. now rewrite <- !app_assoc.
Qed.

End MenuEnds.

Lemma display_menu_ends_witness :
  let options := [(u "evm", u "Cronos EVM"); (u "pos", u "Cronos POS")] in
  display_menu (RT := ascii_runtime) (u "Chain") options
    (map Line [u "abc"; u "3"] ++ Interrupt :: [Line (u "1")]) []
  = (Raise (SystemExit 0), [Line (u "1")],
     [] ++ menu_head (u "Chain") options
        ++ flat_map (refusal (RT := ascii_runtime) options) [u "abc"; u "3"]
        ++ [menu_prompt options; farewell]).
Proof.
  intros options.
  refine (proj1 (display_menu_ends (RT := ascii_runtime) (u "Chain") options
                   [u "abc"; u "3"] [Line (u "1")] [] _)).
  apply Forall_cons; [vm_compute; reflexivity|].
  apply Forall_cons; [vm_compute; reflexivity | apply Forall_nil].
Defined.

Lemma display_menu_outcomes_witness :
  In (u "pos")
     (dict_keys [(u "evm", u "Cronos EVM"); (u "pos", u "Cronos POS")]).
Proof.
  apply (proj1 (display_menu_outcomes (RT := ascii_runtime) (u "Chain")
                  [(u "evm", u "Cronos EVM"); (u "pos", u "Cronos POS")]
                  [Line (u "2")] [])
               (u "pos") []
               ([] ++ menu_head (u "Chain")
                        [(u "evm", u "Cronos EVM"); (u "pos", u "Cronos POS")]
                   ++ [menu_prompt [(u "evm", u "Cronos EVM"); (u "pos", u "Cronos POS")]])).
  vm_compute. reflexivity.
Defined.

(** ** The chain after a run of switches *)

Lemma last_cons_default {A} (l : list A) (a d : A) : last (a :: l) d = last l a.
Proof.
  revert a d. induction l as [|b l IH]; intros a d; [reflexivity|].
  change (last (a :: b :: l) d) with (last (b :: l) d).
  now rewrite (IH b d), (IH b a).
Qed.

Lemma consistent_record (self : CronosCLI) :
  consistent self ->
  self = {| base_url := chain_address self.(current_chain); chains := registry;
            current_chain := self.(current_chain) |}.
Proof.
  destruct self as [b c k]. intros (Hc & Hk & info & Hi & Hu).
  cbn [base_url chains current_chain] in *. subst c.
  destruct Hk as [-> | ->].
  - vm_compute in Hi. injection Hi as <-. vm_compute in Hu. injection Hu as <-.
    vm_compute. reflexivity.
  - vm_compute in Hi. injection Hi as <-. vm_compute in Hu. injection Hu as <-.
    vm_compute. reflexivity.
Qed.

Lemma switch_chain_to (self : CronosCLI) (key : str) :
  consistent self ->
  switch_chain self key
  = Ok (registered key,
        if registered key
        then {| base_url := chain_address key; chains := registry; current_chain := key |}
        else self).
Proof.
  intros Hs. pose proof Hs as (Hc & _). unfold switch_chain, registered. rewrite Hc.
  destruct (dict_has key registry) eqn:Hk; [|reflexivity].
  apply registered_keys in Hk. destruct Hk as [-> | ->]; vm_compute; reflexivity.
Qed.

Lemma switch_chain_to_consistent (self : CronosCLI) (key : str) :
  consistent self ->
  consistent (if registered key
              then {| base_url := chain_address key; chains := registry;
                      current_chain := key |}
              else self).
Proof.
  intros Hs. destruct (switch_chain_consistent self key Hs) as (r & E & Hr).
  rewrite (switch_chain_to self key Hs) in E. injection E as <-. exact Hr.
Qed.

(** X5.  After any run of calls to [switch_chain] on a consistent object,
    the current chain is the last registered key of the run, or the chain
    before the run when no key of the run is registered, and the base
    address is the one registered for it: a key that is refused undoes
    nothing. *)
Theorem switch_all_last_registered (keys : list str) (self : CronosCLI) :
  consistent self ->
  switch_all self keys
  = Ok {| base_url := chain_address (last (filter registered keys) self.(current_chain));
          chains := registry;
          current_chain := last (filter registered keys) self.(current_chain) |}.
Proof.
  revert self. induction keys as [|k ks IH]; intros self Hs.
  - cbn [switch_all filter last]. f_equal. exact (consistent_record self Hs).
  - cbn [switch_all filter]. rewrite (switch_chain_to self k Hs). cbn [bind snd].
    rewrite (IH _ (switch_chain_to_consistent self k Hs)).
    destruct (registered k); [|reflexivity].
    cbn [current_chain]. now rewrite last_cons_default.
Qed.

Lemma switch_all_last_registered_witness :
  switch_all fresh_cli [u "pos"; u "testnet"]
  = Ok {| base_url :=
            chain_address
              (last (filter registered [u "pos"; u "testnet"]) fresh_cli.(current_chain));
          chains := registry;
          current_chain :=
            last (filter registered [u "pos"; u "testnet"]) fresh_cli.(current_chain) |}.
Proof.
  apply (switch_all_last_registered [u "pos"; u "testnet"] fresh_cli).
  split; [reflexivity|]. split; [left; reflexivity|].
  exists [ (u "name", u "Cronos EVM Chain");
           (u "base_url", u "https://rest.cronos.org/");
           (u "description",
            u "Cronos EVM-compatible chain for smart contracts and DeFi (DEFAULT)") ].
  split; vm_compute; reflexivity.
Defined.

(** Switching to "pos" and then to an unknown key leaves the object on the
    POS chain. *)
Example switch_then_unknown_key :
  switch_all fresh_cli [u "pos"; u "testnet"]
  = Ok {| base_url := u "https://rest.mainnet.crypto.org/"; chains := registry;
          current_chain := u "pos" |}.
Proof. vm_compute. reflexivity. Qed.

(** ** The other renderers *)

Lemma enumerate_map {A B} (g : A -> B) (l : list A) :
  enumerate (map g l) = map (fun iv => (fst iv, g (snd iv))) (enumerate l).
Proof.
  unfold enumerate. generalize 0%nat. induction l as [|x l IH]; intros i; [reflexivity|].
  cbn [map List.length seq combine fst snd]. f_equal. apply IH.
Qed.

Lemma in_enumerate {A} (l : list A) (iv : nat * A) : In iv (enumerate l) -> In (snd iv) l.
Proof. destruct iv as [i x]. unfold enumerate. intros H. exact (in_combine_r _ _ _ _ H). Qed.

Section Renderers.
Context {RT : PyRuntime}.

Lemma py_get_object (d o : list (str * value)) (k : str) :
  object_field d k = Some o -> py_get (PyDict d) k (PyDict []) = Ok (PyDict o).
Proof.
  unfold object_field, py_get.
  destruct (dict_lookup k d) as [[| | | | | |o']|]; intros H; try discriminate H;
    now injection H as <-.
Qed.

Lemma py_get_list (d : list (str * value)) (l : list value) (k : str) :
  list_field d k = Some l -> py_get (PyDict d) k (PyList []) = Ok (PyList l).
Proof.
  unfold list_field, py_get.
  destruct (dict_lookup k d) as [[| | | | |l'|]|]; intros H; try discriminate H;
    now injection H as <-.
Qed.

Lemma is_bonded_object (v : list (str * value)) : is_bonded (PyDict v) = Ok (bonded v).
Proof.
  unfold is_bonded, bonded, py_get.
  destruct (dict_lookup (u "status") v) as [[| | | | | |]|]; reflexivity.
Qed.

Lemma filter_result_bonded (vs : list (list (str * value))) :
  filter_result is_bonded (map PyDict vs) = Ok (map PyDict (filter bonded vs)).
Proof.
  induction vs as [|v vs IH]; [reflexivity|].
  cbn [map filter_result filter]. rewrite is_bonded_object, IH. cbn [bind].
  now destruct (bonded v).
Qed.

Lemma validator_line_entry (iv : nat * list (str * value)) :
  described (snd iv) = true ->
  validator_line (fst iv, PyDict (snd iv)) = Ok (validator_entry iv).
Proof.
  destruct iv as [i v]. unfold described, validator_line, validator_entry.
  cbn [fst snd]. destruct (object_field v (u "description")) as [d|] eqn:E;
    [|discriminate].
  intros _. rewrite (py_get_object _ _ _ E). cbn [bind]. rewrite !py_get_field.
  reflexivity.
Qed.

(** X6.  For a non-empty list of validators (JSON objects) the renderer
    counts the validators whose status is BOND_STATUS_BONDED and all the
    validators, and lists the first three bonded ones only, numbered from 1
    in the order of the response, each with its moniker and its tokens; the
    description is only read for those three.  An empty or absent list
    gives the "no validators" line. *)
Theorem validators_rendering (data : list (str * value)) (vs : list (list (str * value))) :
  list_field data (u "validators") = Some (map PyDict vs) ->
  Forall (fun v => described v = true) (firstn 3 (filter bonded vs)) ->
  _format_validators (PyDict data)
  = Ok (validators_header
          ++ match vs with
             | [] => u "No validators found"
             | _ :: _ =>
               u "🟢 Active Validators: " ++ str_of_nat (List.length (filter bonded vs)) ++ nl
                 ++ u "📊 Total Validators: " ++ str_of_nat (List.length vs) ++ nl ++ nl
                 ++ flat_map validator_entry (enumerate (firstn 3 (filter bonded vs)))
             end) /\
  (List.length (filter bonded vs) <= List.length vs)%nat /\
  (List.length (firstn 3 (filter bonded vs)) <= 3)%nat.
Proof.
  intros Hd Hv. split; [|split].
  - unfold _format_validators. rewrite (py_get_list _ _ _ Hd). cbn [bind].
    destruct vs as [|v vs'].
    + cbn [map truthy negb]. unfold validators_header. now rewrite <- !app_assoc.
    + remember (v :: vs') as vs eqn:Evs.
      assert (Ht : truthy (PyList (map PyDict vs)) = true) by now subst vs.
      rewrite Ht. cbn [negb py_iter bind]. rewrite filter_result_bonded.
      cbn [bind py_len]. rewrite !length_map, firstn_map, enumerate_map.
      rewrite (append_each_map validator_line
                 (fun iv => (fst iv, PyDict (snd iv))) validator_entry).
      * unfold validators_header. now rewrite <- !app_assoc.
      * intros iv Hin. apply validator_line_entry.
        rewrite Forall_forall in Hv. apply Hv. exact (in_enumerate _ _ Hin).
  - apply filter_length_le.
  - apply firstn_le_length.
Qed.

Lemma pool_fields (data pool : list (str * value)) :
  object_field data (u "pool") = Some pool ->
  exists rest, _format_pool (PyDict data) = Ok (pool_header ++ rest).
Proof.
  intros Hp. unfold _format_pool. rewrite (py_get_object _ _ _ Hp). cbn [bind].
  rewrite !py_get_field. cbn [bind].
  destruct (py_int (field pool (u "bonded_tokens") (u "0"))) as [b|];
    [destruct (py_int (field pool (u "not_bonded_tokens") (u "0"))) as [nb|];
     [destruct (b + nb >? 0)%Z; [destruct (percent b (b + nb))|]|]|];
    eexists; unfold pool_header; rewrite <- !app_assoc; reflexivity.
Qed.

(** X7.  For a response whose pool is an object (or is absent),
    [_format_pool] never raises, whatever the two token fields hold: the
    text starts with the header, and when [int] rejects one of the two
    fields both are written verbatim, without total and percentage. *)
Theorem pool_never_raises (data pool : list (str * value)) :
  object_field data (u "pool") = Some pool ->
  (exists rest, _format_pool (PyDict data) = Ok (pool_header ++ rest)) /\
  (forall e,
      py_int (field pool (u "bonded_tokens") (u "0")) = Raise e \/
      py_int (field pool (u "not_bonded_tokens") (u "0")) = Raise e ->
      _format_pool (PyDict data) = Ok (pool_header ++ pool_verbatim pool)).
Proof.
  intros Hp. split; [exact (pool_fields data pool Hp)|].
  intros e He. unfold _format_pool. rewrite (py_get_object _ _ _ Hp). cbn [bind].
  rewrite !py_get_field. cbn [bind].
  destruct (py_int (field pool (u "bonded_tokens") (u "0"))) as [b|e1].
  - destruct He as [He|He]; [discriminate He|]. rewrite He.
    unfold pool_header, pool_verbatim. now rewrite <- !app_assoc.
  - unfold pool_header, pool_verbatim. now rewrite <- !app_assoc.
Qed.

(** X8.  For a pool whose two token fields are numeric strings (an absent
    one counting 0), [_format_pool] writes the two counts and their sum
    with thousands separators and, when the sum is positive, the bonded
    share [(bonded / total) * 100] with one decimal, which is the true
    percentage up to half a tenth (and 4920 / 2^52 of a tenth); with a sum
    of 0 no percentage is written. *)
Theorem pool_rendering (data pool : list (str * value)) (bonded_num not_bonded_num : Z) :
  object_field data (u "pool") = Some pool ->
  count_reads pool (u "bonded_tokens") bonded_num ->
  count_reads pool (u "not_bonded_tokens") not_bonded_num ->
  let total := (bonded_num + not_bonded_num)%Z in
  ((0 < total)%Z ->
   exists bonded_pct,
     percent bonded_num total = Ok bonded_pct /\
     shown_percentage_ok bonded_num total bonded_pct /\
     _format_pool (PyDict data)
     = Ok (pool_header ++ pool_amounts bonded_num not_bonded_num
             ++ u "📈 Bonded %:   " ++ format_1f bonded_pct ++ u "%")) /\
  (total = 0%Z ->
   _format_pool (PyDict data) = Ok (pool_header ++ pool_amounts bonded_num not_bonded_num)).
Proof.
  intros Hp Hb Hn total.
  destruct (count_reads_int pool _ _ Hb) as [Eb Hb0].
  destruct (count_reads_int pool _ _ Hn) as [En Hn0].
  assert (E : _format_pool (PyDict data)
              = if (total >? 0)%Z
                then match percent bonded_num total with
                     | Ok bonded_pct =>
                       Ok (pool_header ++ pool_amounts bonded_num not_bonded_num
                             ++ u "📈 Bonded %:   " ++ format_1f bonded_pct ++ u "%")
                     | Raise _ =>
                       Ok ((pool_header ++ pool_amounts bonded_num not_bonded_num)
                             ++ pool_verbatim pool)
                     end
                else Ok (pool_header ++ pool_amounts bonded_num not_bonded_num)).
  { unfold _format_pool. rewrite (py_get_object _ _ _ Hp). cbn [bind].
    rewrite !py_get_field. cbn [bind]. rewrite Eb, En. fold total.
    unfold pool_header, pool_amounts, pool_verbatim. fold total.
    destruct (total >? 0)%Z; [destruct (percent bonded_num total)|];
      rewrite <- !app_assoc; reflexivity. }
  split.
  - intros Ht. destruct (percent_shown bonded_num total) as (p & Ep & Hs); [lia | lia |].
    exists p. split; [exact Ep|]. split; [exact Hs|].
    rewrite E, Ep. now destruct (Z.gtb_spec total 0); [|lia].
  - intros Ht. rewrite E, Ht. reflexivity.
Qed.

Lemma coin_line_entry (c : list (str * value)) : coin_line (PyDict c) = Ok (coin_entry c).
Proof. unfold coin_line. rewrite !py_get_field. reflexivity. Qed.

Lemma truthy_list_of_objects (x : list (str * value)) (xs : list (list (str * value))) :
  truthy (PyList (map PyDict (x :: xs))) = true.
Proof. reflexivity. Qed.

(** X9.  [_format_rewards] shows the coins of the field [total], one line
    each with the denom and the amount as received (no thousands
    separators here), and the "no rewards" line when [total] is empty or
    absent; the field [rewards], although read, has no effect on the
    text. *)
Theorem rewards_rendering (data : list (str * value)) (coins : list (list (str * value))) :
  list_field data (u "total") = Some (map PyDict coins) ->
  _format_rewards (PyDict data)
  = Ok (rewards_header
          ++ match coins with
             | [] => u "No rewards available"
             | _ :: _ => flat_map coin_entry coins
             end).
Proof.
  intros Ht. unfold _format_rewards. cbn [py_get bind].
  change (match dict_lookup (u "total") data with
          | Some x => x
          | None => PyList []
          end)
    with (match py_get (PyDict data) (u "total") (PyList []) with
          | Ok v => v
          | Raise _ => PyNone
          end).
  rewrite (py_get_list _ _ _ Ht). destruct coins as [|c coins].
  - cbn [map truthy]. unfold rewards_header. now rewrite <- !app_assoc.
  - rewrite truthy_list_of_objects. cbn [py_iter bind].
    rewrite (append_each_map coin_line PyDict coin_entry)
      by (intros x _; apply coin_line_entry).
    unfold rewards_header. now rewrite <- !app_assoc.
Qed.

(** X10.  [_format_commission] shows the coins listed under
    [commission.commission], one line each with the denom and the amount as
    received, and the "no commission" line when the list is empty or
    absent, or the whole [commission] object is absent. *)
Theorem commission_rendering (data commission : list (str * value))
    (coins : list (list (str * value))) :
  object_field data (u "commission") = Some commission ->
  list_field commission (u "commission") = Some (map PyDict coins) ->
  _format_commission (PyDict data)
  = Ok (commission_header
          ++ match coins with
             | [] => u "No commission data"
             | _ :: _ => flat_map coin_entry coins
             end).
Proof.
  intros Hc Hl. unfold _format_commission. rewrite (py_get_object _ _ _ Hc). cbn [bind].
  rewrite (py_get_list _ _ _ Hl). cbn [bind]. destruct coins as [|c coins].
  - cbn [map truthy]. unfold commission_header. now rewrite <- !app_assoc.
  - rewrite truthy_list_of_objects. cbn [py_iter bind].
    rewrite (append_each_map coin_line PyDict coin_entry)
      by (intros x _; apply coin_line_entry).
    unfold commission_header. now rewrite <- !app_assoc.
Qed.

(** X11.  [_format_block] shows the height, the time and the proposer
    address of the block header, each "unknown" when absent (as when the
    block or its header is absent); of a proposer address that is a string
    at most the first 20 characters are shown, and the three dots follow
    them whether something was cut or not. *)
Theorem block_rendering (data block header : list (str * value)) (proposer : str) :
  object_field data (u "block") = Some block ->
  object_field block (u "header") = Some header ->
  field header (u "proposer_address") (u "unknown") = PyStr proposer ->
  _format_block (PyDict data)
  = Ok (block_header
          ++ u "📏 Height:    " ++ py_str (field header (u "height") (u "unknown")) ++ nl
          ++ u "⏰ Time:      " ++ py_str (field header (u "time") (u "unknown")) ++ nl
          ++ u "👤 Proposer:  " ++ firstn 20 proposer ++ u "...") /\
  (List.length (firstn 20 proposer) <= 20)%nat /\
  ((List.length proposer <= 20)%nat -> firstn 20 proposer = proposer).
Proof.
  intros Hb Hh Hp. split; [|split].
  - unfold _format_block. rewrite (py_get_object _ _ _ Hb). cbn [bind].
    rewrite (py_get_object _ _ _ Hh). cbn [bind]. rewrite !py_get_field, Hp.
    cbn [bind py_slice_to py_str]. unfold block_header. now rewrite <- !app_assoc.
  - apply firstn_le_length.
  - apply firstn_all2.
Qed.

(** X12.  A proposer address that is a number, a boolean or null cannot be
    sliced: [_format_block] raises [TypeError] (and writes nothing). *)
Theorem block_proposer_not_text (data block header : list (str * value)) :
  object_field data (u "block") = Some block ->
  object_field block (u "header") = Some header ->
  is_scalar (field header (u "proposer_address") (u "unknown")) = true ->
  _format_block (PyDict data) = Raise TypeError.
Proof.
  intros Hb Hh Hp. unfold _format_block. rewrite (py_get_object _ _ _ Hb). cbn [bind].
  rewrite (py_get_object _ _ _ Hh). cbn [bind]. rewrite !py_get_field. cbn [bind].
  destruct (field header (u "proposer_address") (u "unknown")); try discriminate Hp;
    reflexivity.
Qed.

Lemma chain_name_of_current (self : CronosCLI) :
  consistent self ->
  exists info,
    get_current_chain_info self = Ok info /\
    lookup_or_KeyError (u "name") info = Ok (chain_name self.(current_chain)).
Proof.
  intros (Hc & Hk & _). unfold get_current_chain_info. rewrite Hc.
  destruct Hk as [-> | ->]; eexists; split; vm_compute; reflexivity.
Qed.

Lemma node_info_text (self : CronosCLI) (data node_info version : list (str * value)) :
  consistent self ->
  object_field data (u "node_info") = Some node_info ->
  object_field node_info (u "application_version") = Some version ->
  _format_node_info self (PyDict data)
  = Ok (node_info_header
          ++ u "📦 Name:    " ++ py_str (field version (u "name") (u "unknown")) ++ nl
          ++ u "🏷️  Version: " ++ py_str (field version (u "version") (u "unknown")) ++ nl
          ++ u "🌐 Network: " ++ chain_name self.(current_chain)).
Proof.
  intros Hs Hn Hv. destruct (chain_name_of_current self Hs) as (info & Ei & En).
  unfold _format_node_info. rewrite (py_get_object _ _ _ Hn). cbn [bind].
  rewrite (py_get_object _ _ _ Hv). cbn [bind]. rewrite !py_get_field. cbn [bind].
  rewrite Ei. cbn [bind]. rewrite En. cbn [bind].
  unfold node_info_header. now rewrite <- !app_assoc.
Qed.

(** X13.  The network [_format_node_info] names is the chain the object is
    on: after a call of [switch_chain] on a consistent object it is the
    registered name of the key when the key is registered, and the name of
    the chain before the call when the key was refused; name and version of
    the application are "unknown" when absent. *)
Theorem node_info_after_switch (self : CronosCLI) (key : str)
    (data node_info version : list (str * value)) :
  consistent self ->
  object_field data (u "node_info") = Some node_info ->
  object_field node_info (u "application_version") = Some version ->
  exists self',
    switch_chain self key = Ok (registered key, self') /\
    _format_node_info self' (PyDict data)
    = Ok (node_info_header
            ++ u "📦 Name:    " ++ py_str (field version (u "name") (u "unknown")) ++ nl
            ++ u "🏷️  Version: " ++ py_str (field version (u "version") (u "unknown")) ++ nl
            ++ u "🌐 Network: "
            ++ chain_name (if registered key then key else self.(current_chain))) /\
    chain_name (u "evm") = u "Cronos EVM Chain" /\
    chain_name (u "pos") = u "Cronos POS Chain".
Proof.
  intros Hs Hn Hv. eexists. split; [exact (switch_chain_to self key Hs)|].
  split; [|split; vm_compute; reflexivity].
  rewrite (node_info_text _ data node_info version
             (switch_chain_to_consistent self key Hs) Hn Hv).
  now destruct (registered key).
Qed.

(** X14.  A response that is not a JSON object is never rendered: a number
    or a boolean (other than 0 and false) makes [format_response] raise
    [TypeError]; a string or a list is dumped as JSON when it holds none of
    the nine keys, and raises [TypeError] or [AttributeError] when it holds
    one of them. *)
Theorem non_object_response (self : CronosCLI) (data : value) :
  truthy data = true -> (forall d, data <> PyDict d) ->
  (is_scalar data = true -> format_response self data = Raise TypeError) /\
  ((forall k, In k rendered_keys -> py_in k data = Ok false) ->
   format_response self data = Ok (json_dumps data)) /\
  (forall k, In k rendered_keys -> py_in k data = Ok true ->
             format_response self data = Raise TypeError \/
             format_response self data = Raise AttributeError).
Proof.
  intros Ht Hd. split; [|split].
  - intros Hs. unfold format_response. rewrite Ht.
    destruct data; try discriminate Hs; reflexivity.
  - intros Hk. unfold format_response. rewrite Ht. cbn [negb].
    rewrite !Hk by (unfold rendered_keys; cbn [In]; tauto). reflexivity.
  - intros k Hin Hpy. unfold format_response. rewrite Ht.
    destruct data as [| | | |s|l|d]; try discriminate Hpy; [| |now elim (Hd d)];
      cbn [negb py_in bind];
      repeat match goal with
             | |- context [if ?b then _ else _] =>
               let E := fresh "E" in destruct b eqn:E
             end;
      try (left; reflexivity); try (right; reflexivity);
      exfalso; cbn [py_in] in Hpy; unfold rendered_keys in Hin; cbn [In] in Hin;
      intuition (subst k; congruence).
Qed.

End Renderers.

Lemma validators_rendering_witness :
  let vs :=
    [ [ (u "status", PyStr (u "BOND_STATUS_BONDED"));
        (u "description", PyDict [(u "moniker", PyStr (u "Alpha"))]);
        (u "tokens", PyStr (u "2500000")) ];
      [ (u "status", PyStr (u "BOND_STATUS_UNBONDED")); (u "description", PyNone) ];
      [ (u "status", PyStr (u "BOND_STATUS_BONDED")); (u "tokens", PyStr (u "7")) ] ] in
  _format_validators (RT := ascii_runtime) (PyDict [(u "validators", PyList (map PyDict vs))])
  = Ok (validators_header
          ++ match vs with
             | [] => u "No validators found"
             | _ :: _ =>
               u "🟢 Active Validators: " ++ str_of_nat (List.length (filter bonded vs)) ++ nl
                 ++ u "📊 Total Validators: " ++ str_of_nat (List.length vs) ++ nl ++ nl
                 ++ flat_map (validator_entry (RT := ascii_runtime))
                      (enumerate (firstn 3 (filter bonded vs)))
             end) /\
  (List.length (filter bonded vs) <= List.length vs)%nat /\
  (List.length (firstn 3 (filter bonded vs)) <= 3)%nat.
Proof.
  intros vs.
  apply (validators_rendering (RT := ascii_runtime)
           [(u "validators", PyList (map PyDict vs))] vs).
  - vm_compute; reflexivity.
  - vm_compute. apply Forall_cons; [reflexivity|].
    apply Forall_cons; [reflexivity | apply Forall_nil].
Defined.

(** Two bonded validators out of three: the unbonded one is counted in the
    total only, and the bonded ones are numbered 1 and 2. *)
Example validators_text :
  _format_validators (RT := ascii_runtime)
    (PyDict
       [ (u "validators",
          PyList
            [ PyDict [ (u "status", PyStr (u "BOND_STATUS_BONDED"));
                       (u "description", PyDict [(u "moniker", PyStr (u "Alpha"))]);
                       (u "tokens", PyStr (u "2500000")) ];
              PyDict [ (u "status", PyStr (u "BOND_STATUS_UNBONDED"));
                       (u "description", PyNone) ];
              PyDict [ (u "status", PyStr (u "BOND_STATUS_BONDED"));
                       (u "tokens", PyStr (u "7")) ] ]) ])
  = Ok (validators_header
          ++ u "🟢 Active Validators: 2" ++ nl ++ u "📊 Total Validators: 3" ++ nl ++ nl
          ++ u "1. Alpha - 2,500,000 tokens" ++ nl ++ u "2. Unknown - 7 tokens" ++ nl).
Proof. vm_compute. reflexivity. Qed.

Lemma pool_never_raises_witness :
  exists rest,
    _format_pool (RT := ascii_runtime)
      (PyDict [(u "pool", PyDict [(u "bonded_tokens", PyStr (u "many"))])])
    = Ok (pool_header ++ rest).
Proof.
  apply (pool_never_raises (RT := ascii_runtime)
           [(u "pool", PyDict [(u "bonded_tokens", PyStr (u "many"))])]
           [(u "bonded_tokens", PyStr (u "many"))]).
  vm_compute; reflexivity.
Defined.

(** A count that is no number: both fields as received, no total. *)
Example pool_verbatim_text :
  _format_pool (RT := ascii_runtime)
    (PyDict [(u "pool", PyDict [(u "bonded_tokens", PyStr (u "many"))])])
  = Ok (pool_header ++ u "🔒 Bonded:     many" ++ nl ++ u "🔓 Unbonded:   0").
Proof. vm_compute. reflexivity. Qed.

Lemma pool_rendering_witness :
  exists bonded_pct,
    percent 3000000 (3000000 + 1000000) = Ok bonded_pct /\
    shown_percentage_ok 3000000 (3000000 + 1000000) bonded_pct /\
    _format_pool (RT := ascii_runtime)
      (PyDict [(u "pool", PyDict [ (u "bonded_tokens", PyStr (u "3000000"));
                                   (u "not_bonded_tokens", PyStr (u "1000000")) ])])
    = Ok (pool_header ++ pool_amounts 3000000 1000000
            ++ u "📈 Bonded %:   " ++ format_1f bonded_pct ++ u "%").
Proof.
  apply (proj1 (pool_rendering (RT := ascii_runtime)
                  [(u "pool", PyDict [ (u "bonded_tokens", PyStr (u "3000000"));
                                       (u "not_bonded_tokens", PyStr (u "1000000")) ])]
                  [ (u "bonded_tokens", PyStr (u "3000000"));
                    (u "not_bonded_tokens", PyStr (u "1000000")) ]
                  3000000 1000000 eq_refl
                  ltac:(vm_compute; split; reflexivity)
                  ltac:(vm_compute; split; reflexivity))).
  reflexivity.
Defined.

(** Three million bonded out of four: 75.0%. *)
Example pool_text :
  _format_pool (RT := ascii_runtime)
    (PyDict [(u "pool", PyDict [ (u "bonded_tokens", PyStr (u "3000000"));
                                 (u "not_bonded_tokens", PyStr (u "1000000")) ])])
  = Ok (pool_header ++ u "🔒 Bonded:     3,000,000" ++ nl
          ++ u "🔓 Unbonded:   1,000,000" ++ nl ++ u "📊 Total:      4,000,000" ++ nl
          ++ u "📈 Bonded %:   75.0%").
Proof. vm_compute. reflexivity. Qed.

Lemma rewards_rendering_witness :
  let coins := [[(u "denom", PyStr (u "basecro")); (u "amount", PyStr (u "12.5"))]] in
  _format_rewards (RT := ascii_runtime)
    (PyDict [(u "rewards", PyList []); (u "total", PyList (map PyDict coins))])
  = Ok (rewards_header
          ++ match coins with
             | [] => u "No rewards available"
             | _ :: _ => flat_map (coin_entry (RT := ascii_runtime)) coins
             end).
Proof.
  intros coins.
  apply (rewards_rendering (RT := ascii_runtime)
           [(u "rewards", PyList []); (u "total", PyList (map PyDict coins))] coins).
  vm_compute; reflexivity.
Defined.

(** Rewards listed per validator but no total: nothing is shown. *)
Example rewards_without_total :
  _format_rewards (RT := ascii_runtime)
    (PyDict
       [ (u "rewards",
          PyList
            [ PyDict
                [ (u "validator_address", PyStr (u "crocncl1x"));
                  (u "reward",
                   PyList [PyDict [ (u "denom", PyStr (u "basecro"));
                                    (u "amount", PyStr (u "12.5")) ]]) ] ]) ])
  = Ok (rewards_header ++ u "No rewards available").
Proof. vm_compute. reflexivity. Qed.

Lemma commission_rendering_witness :
  let coins := [[(u "denom", PyStr (u "basecro")); (u "amount", PyStr (u "1000000"))]] in
  _format_commission (RT := ascii_runtime)
    (PyDict [(u "commission", PyDict [(u "commission", PyList (map PyDict coins))])])
  = Ok (commission_header
          ++ match coins with
             | [] => u "No commission data"
             | _ :: _ => flat_map (coin_entry (RT := ascii_runtime)) coins
             end).
Proof.
  intros coins.
  apply (commission_rendering (RT := ascii_runtime)
           [(u "commission", PyDict [(u "commission", PyList (map PyDict coins))])]
           [(u "commission", PyList (map PyDict coins))] coins);
    vm_compute; reflexivity.
Defined.

Lemma block_rendering_witness :
  let header := [ (u "height", PyStr (u "1024"));
                  (u "proposer_address", PyStr (u "ABCDEFGHIJKLMNOPQRSTUVWXYZ")) ] in
  _format_block (RT := ascii_runtime) (PyDict [(u "block", PyDict [(u "header", PyDict header)])])
  = Ok (block_header
          ++ u "📏 Height:    " ++ py_str (RT := ascii_runtime) (field header (u "height") (u "unknown"))
          ++ nl
          ++ u "⏰ Time:      " ++ py_str (RT := ascii_runtime) (field header (u "time") (u "unknown")) ++ nl
          ++ u "👤 Proposer:  " ++ firstn 20 (u "ABCDEFGHIJKLMNOPQRSTUVWXYZ") ++ u "...") /\
  (List.length (firstn 20 (u "ABCDEFGHIJKLMNOPQRSTUVWXYZ")) <= 20)%nat /\
  ((List.length (u "ABCDEFGHIJKLMNOPQRSTUVWXYZ") <= 20)%nat ->
   firstn 20 (u "ABCDEFGHIJKLMNOPQRSTUVWXYZ") = u "ABCDEFGHIJKLMNOPQRSTUVWXYZ").
Proof.
  intros header.
  apply (block_rendering (RT := ascii_runtime)
           [(u "block", PyDict [(u "header", PyDict header)])]
           [(u "header", PyDict header)] header (u "ABCDEFGHIJKLMNOPQRSTUVWXYZ"));
    vm_compute; reflexivity.
Defined.

(** A long proposer address is cut after 20 characters; an absent one
    reads "unknown..." all the same. *)
Example block_text :
  _format_block (RT := ascii_runtime)
    (PyDict [(u "block",
              PyDict [(u "header",
                       PyDict [ (u "height", PyStr (u "1024"));
                                (u "proposer_address",
                                 PyStr (u "ABCDEFGHIJKLMNOPQRSTUVWXYZ")) ])])])
  = Ok (block_header ++ u "📏 Height:    1024" ++ nl ++ u "⏰ Time:      unknown" ++ nl
          ++ u "👤 Proposer:  ABCDEFGHIJKLMNOPQRST...") /\
  _format_block (RT := ascii_runtime) (PyDict [(u "block", PyDict [])])
  = Ok (block_header ++ u "📏 Height:    unknown" ++ nl ++ u "⏰ Time:      unknown" ++ nl
          ++ u "👤 Proposer:  unknown...").
Proof. split; vm_compute; reflexivity. Qed.

Lemma block_proposer_not_text_witness :
  _format_block (RT := ascii_runtime)
    (PyDict [(u "block", PyDict [(u "header", PyDict [(u "proposer_address", PyNone)])])])
  = Raise TypeError.
Proof.
  apply (block_proposer_not_text (RT := ascii_runtime)
           [(u "block", PyDict [(u "header", PyDict [(u "proposer_address", PyNone)])])]
           [(u "header", PyDict [(u "proposer_address", PyNone)])]
           [(u "proposer_address", PyNone)]);
    vm_compute; reflexivity.
Defined.

Lemma node_info_after_switch_witness :
  let version := [(u "name", PyStr (u "chain-maind")); (u "version", PyStr (u "4.2.9"))] in
  exists self',
    switch_chain fresh_cli (u "pos") = Ok (registered (u "pos"), self') /\
    _format_node_info (RT := ascii_runtime) self'
      (PyDict [(u "node_info", PyDict []); (u "application_version", PyDict version)])
    = Ok (node_info_header
            ++ u "📦 Name:    " ++ py_str (RT := ascii_runtime) (field [] (u "name") (u "unknown"))
            ++ nl
            ++ u "🏷️  Version: "
            ++ py_str (RT := ascii_runtime) (field [] (u "version") (u "unknown")) ++ nl
            ++ u "🌐 Network: "
            ++ chain_name (if registered (u "pos") then u "pos"
                           else fresh_cli.(current_chain))) /\
    chain_name (u "evm") = u "Cronos EVM Chain" /\
    chain_name (u "pos") = u "Cronos POS Chain".
Proof.
  intros version.
  apply (node_info_after_switch (RT := ascii_runtime) fresh_cli (u "pos")
           [(u "node_info", PyDict []); (u "application_version", PyDict version)] [] []).
  - split; [reflexivity|]. split; [left; reflexivity|].
    exists [ (u "name", u "Cronos EVM Chain");
             (u "base_url", u "https://rest.cronos.org/");
             (u "description",
              u "Cronos EVM-compatible chain for smart contracts and DeFi (DEFAULT)") ].
    split; vm_compute; reflexivity.
  - vm_compute; reflexivity.
  - vm_compute; reflexivity.
Defined.

(** The application version is looked for inside [node_info]: one that
    stands next to it is not found, and name and version read "unknown". *)
Example node_info_text_unknown :
  _format_node_info (RT := ascii_runtime) fresh_cli
    (PyDict [ (u "default_node_info", PyDict [(u "network", PyStr (u "cronosmainnet_25-1"))]);
              (u "application_version",
               PyDict [(u "name", PyStr (u "cronos")); (u "version", PyStr (u "1.4.0"))]) ])
  = Ok (node_info_header ++ u "📦 Name:    unknown" ++ nl ++ u "🏷️  Version: unknown" ++ nl
          ++ u "🌐 Network: Cronos EVM Chain").
Proof. vm_compute. reflexivity. Qed.

Lemma non_object_response_witness :
  format_response (RT := ascii_runtime) fresh_cli (PyList [PyStr (u "tally")])
  = Raise TypeError \/
  format_response (RT := ascii_runtime) fresh_cli (PyList [PyStr (u "tally")])
  = Raise AttributeError.
Proof.
  apply (proj2 (proj2 (non_object_response (RT := ascii_runtime) fresh_cli
                         (PyList [PyStr (u "tally")]) eq_refl
                         (fun d H => eq_ind (PyList [PyStr (u "tally")])
                                       (fun v => match v with PyList _ => True | _ => False end)
                                       I (PyDict d) H)))
               (u "tally")).
  - left. reflexivity.
  - vm_compute; reflexivity.
Defined.

(** ** The table of modules *)

Lemma render_emit (lit : str) (segs : list segment) :
  render_template (emit lit segs) = lit ++ render_template segs.
Proof. destruct lit; reflexivity. Qed.

(** A path is the text of its reading. *)
Lemma render_parse_from (s : str) (lit : str) (name : option str) :
  render_template (parse_from lit name s)
  = lit ++ match name with None => [] | Some n => 123%N :: n end ++ s.
Proof.
  revert lit name. induction s as [|c s IH]; intros lit name; cbn [parse_from].
  - destruct name as [n|].
    + cbn [render_template flat_map render_segment]. now rewrite !app_nil_r.
    + rewrite render_emit. reflexivity.
  - destruct name as [n|].
    + destruct (N.eqb_spec c 125) as [->|_].
      * rewrite render_emit. cbn [render_template flat_map render_segment].
        fold (render_template (parse_from [] None s)). rewrite IH, placeholder_eq.
        cbn [app]. now rewrite <- !app_assoc.
      * destruct (N.eqb_spec c 123) as [->|_]; rewrite IH.
        -- cbn [app]. now rewrite <- !app_assoc.
        -- cbn [app]. now rewrite <- !app_assoc.
    + destruct (N.eqb_spec c 123) as [->|_]; rewrite IH.
      * reflexivity.
      * cbn [app]. now rewrite <- !app_assoc.
Qed.

Lemma render_parse_template (path : str) : render_template (parse_template path) = path.
Proof. unfold parse_template. now rewrite render_parse_from. Qed.

Lemma existsb_str_eqb (k : str) (l : list str) : existsb (str_eqb k) l = true <-> In k l.
Proof.
  rewrite existsb_exists. split.
  - intros (x & Hx & E). apply str_eqb_eq in E. now subst x.
  - intros H. exists k. split; [exact H | apply str_eqb_refl].
Qed.

Lemma distinct_NoDup (l : list str) : distinct l = true -> NoDup l.
Proof.
  induction l as [|x l IH]; [constructor|].
  cbn [distinct]. rewrite andb_true_iff, negb_true_iff. intros [Hx Hl].
  constructor; [|now apply IH].
  intros Hin. apply existsb_str_eqb in Hin. congruence.
Qed.

Lemma modules_checked :
  forallb (fun m =>
             forallb (fun e => endpoint_checked (fst m) (fst e) (snd e))
               (snd m).(module_endpoints))
    modules = true.
Proof. vm_compute. reflexivity. Qed.

Lemma endpoint_in_table (module_key : str) (module_entry : module_info)
    (endpoint_key : str) (e : endpoint) :
  In (module_key, module_entry) modules ->
  In (endpoint_key, e) module_entry.(module_endpoints) ->
  endpoint_checked module_key endpoint_key e = true.
Proof.
  intros Hm He. pose proof modules_checked as H.
  rewrite forallb_forall in H. specialize (H _ Hm). cbn [fst snd] in H.
  rewrite forallb_forall in H. exact (H _ He).
Qed.

(** X15.  In the table of modules every path reads as literal text and
    [{name}] tokens without stray brace; every token of a path is one of
    the parameters declared for the endpoint, so a value is asked for it;
    and every declared parameter has its token in the path, except the
    denomination of the endpoint "balance" of the module "bank", whose
    value is asked for and used nowhere.  No endpoint declares a parameter
    twice. *)
Theorem registry_paths (module_key : str) (module_entry : module_info)
    (endpoint_key : str) (e : endpoint) :
  In (module_key, module_entry) modules ->
  In (endpoint_key, e) module_entry.(module_endpoints) ->
  let segs := parse_template e.(endpoint_path) in
  render_template segs = e.(endpoint_path) /\
  forallb segment_ok segs = true /\
  (forall name, In name (template_tokens segs) -> In name e.(endpoint_params)) /\
  (forall p, In p e.(endpoint_params) ->
             In p (template_tokens segs) \/
             (module_key = u "bank" /\ endpoint_key = u "balance" /\ p = u "denom")) /\
  NoDup e.(endpoint_params) /\
  ~ In (u "denom")
      (template_tokens (parse_template (u "cosmos/bank/v1beta1/balances/{address}/by_denom"))).
Proof.
  intros Hm He segs. pose proof (endpoint_in_table _ _ _ _ Hm He) as H.
  unfold endpoint_checked in H. fold segs in H.
  rewrite !andb_true_iff in H. destruct H as ((((Hs & Ht) & Hp) & _) & Hn).
  split; [apply render_parse_template|]. split; [exact Hs|]. split; [|split; [|split]].
  - intros name Hin. rewrite forallb_forall in Ht. apply existsb_str_eqb. now apply Ht.
  - intros p Hin. rewrite forallb_forall in Hp. specialize (Hp p Hin).
    apply orb_true_iff in Hp as [Hp|Hp].
    + left. now apply existsb_str_eqb.
    + right. rewrite !andb_true_iff, !str_eqb_eq in Hp. tauto.
  - now apply distinct_NoDup.
  - vm_compute. intuition discriminate.
Qed.

(** ** The session: choosing an endpoint and its parameters *)

Lemma dict_lookup_in {A} (k : str) (d : list (str * A)) (v : A) :
  dict_lookup k d = Some v -> In (k, v) d.
Proof.
  induction d as [|[k' v'] d IH]; [discriminate|].
  cbn [dict_lookup]. destruct (str_eqb k k') eqn:E.
  - apply str_eqb_eq in E. intros [= ->]. subst k'. now left.
  - intros H. right. now apply IH.
Qed.

Lemma key_lookup {A} (k : str) (d : list (str * A)) :
  In k (dict_keys d) -> exists v, dict_lookup k d = Some v.
Proof.
  intros H. apply dict_has_lookup. unfold dict_has. now apply existsb_str_eqb.
Qed.

Lemma dict_keys_map {A B} (g : A -> B) (d : list (str * A)) :
  dict_keys (map (fun kv => (fst kv, g (snd kv))) d) = dict_keys d.
Proof. unfold dict_keys. rewrite map_map. reflexivity. Qed.

Lemma dict_set_fresh {A} (k : str) (v : A) (d : list (str * A)) :
  ~ In k (dict_keys d) -> dict_set k v d = d ++ [(k, v)].
Proof.
  induction d as [|[k' v'] d IH]; intros H; [reflexivity|].
  cbn [dict_set app]. destruct (str_eqb k k') eqn:E.
  - apply str_eqb_eq in E. subst k'. exfalso. apply H. now left.
  - f_equal. apply IH. intros Hin. apply H. now right.
Qed.

Section SessionFacts.
Context {RT : PyRuntime}.
Variable session_get : nat -> str -> http_outcome.
Variable exception_text : exn -> str.

Lemma display_menu_result (title : str) (options : list (str * str))
    (ins : list input_event) (out : list str) (r : result str)
    (rest : list input_event) (out' : list str) :
  display_menu title options ins out = (r, rest, out') ->
  match r with
  | Ok key => In key (dict_keys options)
  | Raise e =>
    (e = SystemExit 0 /\ last out' [] = farewell) \/ (e = EOFError /\ rest = [])
  end.
Proof. unfold display_menu. apply menu_loop_outcomes. Qed.

(** X16.  The look-ups of the chosen module and of the chosen endpoint in
    the table never fail: choosing an endpoint either gives an endpoint of
    the table, or ends by the exit with status 0 (after the farewell) or by
    the [EOFError] of an exhausted input, as the menus do; no [KeyError]
    arises. *)
Theorem select_endpoint_outcomes (w : world) (r : result endpoint) (w' : world) :
  select_endpoint w = (r, w') ->
  match r with
  | Ok e =>
    exists module_key module_entry endpoint_key,
      In (module_key, module_entry) modules /\
      In (endpoint_key, e) module_entry.(module_endpoints)
  | Raise e =>
    (e = SystemExit 0 /\ last w'.(output) [] = farewell) \/
    (e = EOFError /\ w'.(inputs) = [])
  end.
Proof.
  unfold select_endpoint, io_bind, console, lift.
  destruct (display_menu (u "Which module would you like to check?")
              (map (fun kv => (fst kv, module_name (snd kv))) modules)
              (inputs w) (output w)) as [[r1 ins1] out1] eqn:E1.
  pose proof (display_menu_result _ _ _ _ _ _ _ E1) as H1.
  destruct r1 as [module_key|e1].
  - rewrite dict_keys_map in H1. destruct (key_lookup _ _ H1) as [module_entry Hm].
    unfold lookup_or_KeyError at 1. rewrite Hm. cbn [inputs output cli requests].
    destruct (display_menu
                (u "What would you like to check in " ++ module_name module_entry ++ u "?")
                (map (fun kv => (fst kv, endpoint_name (snd kv)))
                   (module_endpoints module_entry))
                ins1 out1) as [[r2 ins2] out2] eqn:E2.
    pose proof (display_menu_result _ _ _ _ _ _ _ E2) as H2.
    destruct r2 as [endpoint_key|e2].
    + rewrite dict_keys_map in H2. destruct (key_lookup _ _ H2) as [e He].
      unfold lookup_or_KeyError. rewrite He. intros [= <- <-].
      exists module_key, module_entry, endpoint_key.
      split; now apply dict_lookup_in.
    + intros [= <- <-]. exact H2.
  - intros [= <- <-]. exact H1.
Qed.

Lemma collect_params_run (names : list str) :
  forall (answers : list str) (params : list (str * value)) (w : world)
         (rest : list input_event),
    NoDup names -> (forall n, In n names -> ~ In n (dict_keys params)) ->
    List.length answers = List.length names ->
    Forall (fun a => blank a = false) answers ->
    w.(inputs) = map Line answers ++ rest ->
    collect_params names params w
    = (Ok (params ++ combine names (map (fun a => PyStr (strip a)) answers)),
       {| cli := w.(cli); inputs := rest;
          output := w.(output) ++ map (fun n => param_prompt n ++ u ": ") names;
          requests := w.(requests) |}).
Proof.
  induction names as [|n names IH]; intros answers params w rest Hn Hf Hl Ha Hi.
  - destruct answers; [|discriminate Hl]. cbn [collect_params combine map].
    unfold io_ret. rewrite !app_nil_r. destruct w; cbn in *. now subst.
  - destruct answers as [|a answers]; [discriminate Hl|].
    inversion Hn as [|? ? Hnot Hn']; subst. inversion Ha as [|? ? Ha1 Ha']; subst.
    cbn [collect_params]. unfold io_bind at 1, console. rewrite Hi. cbn [map app].
    rewrite get_user_input_answer by now rewrite Ha1.
    rewrite (dict_set_fresh n _ params) by (apply Hf; now left).
    rewrite (IH answers _ _ rest Hn').
    + cbn [inputs output cli requests combine map]. now rewrite <- !app_assoc.
    + intros m Hm. unfold dict_keys. rewrite map_app, in_app_iff. cbn [map fst In].
      intros [Hin|[<-|[]]]; [|contradiction].
      exact (Hf m (or_intror Hm) Hin).
    + now injection Hl.
    + exact Ha'.
    + reflexivity.
Qed.

(** X17.  For parameters declared once each, answered by lines that are
    not blank, the loop of [run] asks one question per parameter, in the
    order of the declaration, and builds the mapping of each parameter to
    its stripped answer, in that order; nothing else is written and no
    request is sent. *)
Theorem collect_params_answers (names answers : list str) (w : world)
    (rest : list input_event) :
  NoDup names -> List.length answers = List.length names ->
  Forall (fun a => blank a = false) answers ->
  w.(inputs) = map Line answers ++ rest ->
  collect_params names [] w
  = (Ok (combine names (map (fun a => PyStr (strip a)) answers)),
     {| cli := w.(cli); inputs := rest;
        output := w.(output) ++ map (fun n => param_prompt n ++ u ": ") names;
        requests := w.(requests) |}) /\
  dict_keys (combine names (map (fun a => PyStr (strip a)) answers)) = names.
Proof.
  intros Hn Hl Ha Hi. split.
  - now rewrite (collect_params_run names answers [] w rest Hn (fun _ _ H => H) Hl Ha Hi).
  - unfold dict_keys. clear Hn Ha Hi. revert answers Hl.
    induction names as [|n names IH]; intros [|a answers] Hl; try discriminate Hl;
      [reflexivity|].
    cbn [combine map fst]. f_equal. apply IH. now injection Hl.
Qed.

Lemma consistent_base_url (self : CronosCLI) :
  consistent self ->
  self.(base_url) = chain_address self.(current_chain) /\
  no_open_brace self.(base_url) = true.
Proof.
  intros Hs. pose proof (consistent_record self Hs) as E.
  destruct Hs as (_ & Hk & _).
  assert (Hb : base_url self = chain_address (current_chain self))
    by (rewrite E at 1; reflexivity).
  split; [exact Hb|]. rewrite Hb. destruct Hk as [-> | ->]; vm_compute; reflexivity.
Qed.

Lemma params_ok (names answers : list str) :
  forallb brace_free names = true -> Forall (fun a => no_open_brace a = true) answers ->
  forallb param_ok (combine names (map PyStr answers)) = true.
Proof.
  revert answers. induction names as [|n names IH]; intros answers Hn Ha; [reflexivity|].
  destruct Ha as [|a answers Ha1 Ha']; [reflexivity|].
  cbn [forallb] in Hn. apply andb_true_iff in Hn as [Hn1 Hn'].
  cbn [combine map forallb]. unfold param_ok at 1. cbn [fst snd py_str].
  now rewrite Hn1, Ha1, IH.
Qed.

Lemma lookup_answer (names answers : list str) (name : str) :
  In name names -> List.length answers = List.length names ->
  exists a, dict_lookup name (combine names (map PyStr answers)) = Some (PyStr a) /\
            In a answers.
Proof.
  revert answers. induction names as [|n names IH]; intros answers Hin Hl; [contradiction|].
  destruct answers as [|a answers]; [discriminate Hl|].
  cbn [combine map dict_lookup]. destruct (str_eqb name n) eqn:E.
  - exists a. split; [reflexivity | now left].
  - destruct Hin as [->|Hin]; [now rewrite str_eqb_refl in E|].
    destruct (IH answers Hin ltac:(now injection Hl)) as (b & Hb & Hb').
    exists b. split; [exact Hb | now right].
Qed.

Lemma substitute_nothing (url : str) : substitute_params url [] = url.
Proof. reflexivity. Qed.

Lemma request_url_some (self : CronosCLI) (endpoint url : str)
    (params : list (str * value)) :
  urljoin self.(base_url) endpoint = Ok url ->
  request_url self endpoint (Some params) = Ok (substitute_params url params).
Proof. intros Hj. unfold request_url. rewrite Hj. now destruct params. Qed.

(** X18.  For an endpoint of the table and values without opening brace
    for its declared parameters, the address requested on a consistent
    object is the base address of the current chain followed by the path
    in which every token has been replaced by the value of its parameter:
    no brace is left in it.  ([urljoin] is taken to append the path to the
    base address, as it does for the addresses and paths of the tables.) *)
Theorem request_address (self : CronosCLI) (module_key : str) (module_entry : module_info)
    (endpoint_key : str) (e : endpoint) (answers : list str) :
  consistent self ->
  In (module_key, module_entry) modules ->
  In (endpoint_key, e) module_entry.(module_endpoints) ->
  List.length answers = List.length e.(endpoint_params) ->
  Forall (fun a => no_open_brace a = true) answers ->
  urljoin self.(base_url) e.(endpoint_path) = Ok (self.(base_url) ++ e.(endpoint_path)) ->
  let params := combine e.(endpoint_params) (map PyStr answers) in
  let url := chain_address self.(current_chain)
               ++ flat_map (fill params) (parse_template e.(endpoint_path)) in
  request_url self e.(endpoint_path) (Some params) = Ok url /\
  no_open_brace url = true.
Proof.
  intros Hs Hm He Hl Ha Hj params url.
  pose proof (endpoint_in_table _ _ _ _ Hm He) as H.
  unfold endpoint_checked in H. rewrite !andb_true_iff in H.
  destruct H as ((((Hseg & Htok) & _) & Hbr) & _).
  destruct (consistent_base_url self Hs) as [Hb Hnb].
  assert (Hfill : forall seg, In seg (parse_template (endpoint_path e)) ->
                              no_open_brace (fill params seg) = true).
  { intros [text|name] Hin.
    - rewrite forallb_forall in Hseg. exact (Hseg _ Hin).
    - assert (Hname : In name (endpoint_params e)).
      { rewrite forallb_forall in Htok. apply existsb_str_eqb. apply Htok.
        unfold template_tokens. apply in_flat_map. exists (Tok name).
        split; [exact Hin | now left]. }
      destruct (lookup_answer _ answers name Hname Hl) as (a & Ea & Hina).
      cbn [fill]. fold params. unfold params at 1. rewrite Ea. cbn [py_str].
      rewrite Forall_forall in Ha. exact (Ha a Hina). }
  split.
  - rewrite (request_url_some self _ _ params Hj). f_equal.
    rewrite <- (render_parse_template (endpoint_path e)) at 1.
    change (base_url self ++ render_template (parse_template (endpoint_path e)))
      with (render_template (Lit (base_url self) :: parse_template (endpoint_path e))).
    rewrite substitute_template.
    + cbn [flat_map fill]. unfold url. now rewrite Hb.
    + cbn [forallb segment_ok]. now rewrite Hnb, Hseg.
    + now apply params_ok.
  - unfold url. rewrite no_open_brace_app, <- Hb, Hnb. cbn [andb].
    unfold no_open_brace. rewrite forallb_forall. intros c Hc.
    apply in_flat_map in Hc as (seg & Hseg' & Hc).
    specialize (Hfill seg Hseg'). unfold no_open_brace in Hfill.
    rewrite forallb_forall in Hfill. exact (Hfill c Hc).
Qed.



End SessionFacts.

(** ** Exceptions of the formatter *)

Section Exceptions.
Context {RT : PyRuntime}.

Lemma safe_bind {A B} (r : result A) (k : A -> result B) :
  safe r -> (forall a, safe (k a)) -> safe (bind r k).
Proof. destruct r as [a|e]; intros Hr Hk; [apply Hk | exact Hr]. Qed.

Lemma safe_py_get (v : value) (k : str) (default : value) : safe (py_get v k default).
Proof. destruct v; exact I || reflexivity. Qed.

Lemma safe_py_in (k : str) (v : value) : safe (py_in k v).
Proof. destruct v; exact I || reflexivity. Qed.

Lemma safe_py_getitem (v : value) (k : str) : safe (py_getitem v k).
Proof.
  destruct v as [| | | | | |d]; try reflexivity.
  cbn [py_getitem]. destruct (dict_lookup k d); exact I || reflexivity.
Qed.

Lemma safe_py_iter (v : value) : safe (py_iter v).
Proof. destruct v; exact I || reflexivity. Qed.

Lemma safe_py_slice_to (n : nat) (v : value) : safe (py_slice_to n v).
Proof. destruct v; exact I || reflexivity. Qed.

Lemma safe_py_len (v : value) : safe (py_len v).
Proof. destruct v; exact I || reflexivity. Qed.

Lemma safe_int_of_str (s : str) : safe (int_of_str s).
Proof.
  destruct (int_of_str s) as [z|e] eqn:E; [exact I|].
  now rewrite (int_of_str_raises s e E).
Qed.

Lemma safe_py_int (v : value) : safe (py_int v).
Proof.
  destruct v as [| | |f|s| |]; try (exact I || reflexivity).
  - destruct f; exact I || reflexivity.
  - apply safe_int_of_str.
Qed.

Lemma safe_percent (count total : Z) : safe (percent count total).
Proof.
  unfold percent. apply safe_bind; [|intros; exact I].
  unfold int_true_div. destruct total; [reflexivity| |];
    (destruct count; [exact I| |]);
    match goal with
    | |- safe match ?x with _ => _ end => destruct x; exact I || reflexivity
    end.
Qed.

Lemma safe_lookup {A} (k : str) (d : list (str * A)) : safe (lookup_or_KeyError k d).
Proof. unfold lookup_or_KeyError. destruct (dict_lookup k d); exact I || reflexivity. Qed.

Lemma safe_append_each {A} (body : A -> result str) (items : list A) (result0 : str) :
  (forall x, safe (body x)) -> safe (append_each body items result0).
Proof.
  intros Hb. revert result0. induction items as [|x items IH]; intros result0; [exact I|].
  cbn [append_each]. apply safe_bind; [apply Hb | intros; apply IH].
Qed.

Lemma safe_filter_result {A} (cond : A -> result bool) (items : list A) :
  (forall x, safe (cond x)) -> safe (filter_result cond items).
Proof.
  intros Hc. induction items as [|x items IH]; [exact I|].
  cbn [filter_result]. apply safe_bind; [apply Hc|]. intros b.
  apply safe_bind; [exact IH | intros; exact I].
Qed.

Ltac safe_steps :=
  repeat first
    [ exact I
    | apply safe_py_get | apply safe_py_in | apply safe_py_getitem | apply safe_py_iter
    | apply safe_py_slice_to | apply safe_py_len | apply safe_py_int | apply safe_percent
    | apply safe_lookup
    | apply safe_bind; [|intros ?]
    | match goal with
      | |- safe (if ?b then _ else _) => destruct b
      | |- safe (match ?x with Ok _ => _ | Raise _ => _ end) => destruct x
      end ].

Lemma safe_format_tally (tally : value) : safe (_format_tally tally).
Proof. unfold _format_tally. safe_steps. Qed.

Lemma safe_balance_line (balance : value) : safe (balance_line balance).
Proof. unfold balance_line. safe_steps. Qed.

Lemma safe_format_balances (data : value) : safe (_format_balances data).
Proof.
  unfold _format_balances. safe_steps.
  apply safe_append_each, safe_balance_line.
Qed.

Lemma safe_proposal_line (proposal : value) : safe (proposal_line proposal).
Proof.
  unfold proposal_line. safe_steps.
  match goal with |- safe (clean_status ?s) => destruct s; exact I || reflexivity end.
Qed.

Lemma safe_format_proposals (data : value) : safe (_format_proposals data).
Proof.
  unfold _format_proposals. safe_steps.
  apply safe_append_each, safe_proposal_line.
Qed.

Lemma safe_is_bonded (v : value) : safe (is_bonded v).
Proof. unfold is_bonded. safe_steps. Qed.

Lemma safe_validator_line (iv : nat * value) : safe (validator_line iv).
Proof. destruct iv as [i v]. unfold validator_line. safe_steps. Qed.

Lemma safe_format_validators (data : value) : safe (_format_validators data).
Proof.
  unfold _format_validators. safe_steps.
  - apply safe_filter_result, safe_is_bonded.
  - apply safe_append_each, safe_validator_line.
Qed.

Lemma safe_format_pool (data : value) : safe (_format_pool data).
Proof. unfold _format_pool. safe_steps. Qed.

Lemma safe_coin_line (coin : value) : safe (coin_line coin).
Proof. unfold coin_line. safe_steps. Qed.

Lemma safe_format_rewards (data : value) : safe (_format_rewards data).
Proof.
  unfold _format_rewards. safe_steps. apply safe_append_each, safe_coin_line.
Qed.

Lemma safe_format_commission (data : value) : safe (_format_commission data).
Proof.
  unfold _format_commission. safe_steps. apply safe_append_each, safe_coin_line.
Qed.

Lemma safe_format_block (data : value) : safe (_format_block data).
Proof. unfold _format_block. safe_steps. Qed.

Lemma safe_format_node_info (self : CronosCLI) (data : value) :
  safe (_format_node_info self data).
Proof. unfold _format_node_info, get_current_chain_info. safe_steps. Qed.

(** The formatter raises nothing but an [Exception]: neither the
    interrupt nor an exit. *)
Lemma safe_format_response (self : CronosCLI) (data : value) :
  safe (format_response self data).
Proof.
  unfold format_response. destruct (negb (truthy data)); [exact I|].
  apply safe_bind; [apply safe_py_in|]; intros [|].
  { apply safe_bind; [apply safe_py_getitem | intros; apply safe_format_tally]. }
  apply safe_bind; [apply safe_py_in|]; intros [|]; [apply safe_format_balances|].
  apply safe_bind; [apply safe_py_in|]; intros [|]; [apply safe_format_proposals|].
  apply safe_bind; [apply safe_py_in|]; intros [|]; [apply safe_format_validators|].
  apply safe_bind; [apply safe_py_in|]; intros [|]; [apply safe_format_pool|].
  apply safe_bind; [apply safe_py_in|]; intros [|]; [apply safe_format_rewards|].
  apply safe_bind; [apply safe_py_in|]; intros [|]; [apply safe_format_commission|].
  apply safe_bind; [apply safe_py_in|]; intros [|]; [apply safe_format_block|].
  apply safe_bind; [apply safe_py_in|]; intros [|]; [apply safe_format_node_info|].
  exact I.
Qed.

End Exceptions.

(** ** The main loop *)

Lemma written_written (w : world) (a b : list str) :
  written (written w a) b = written w (a ++ b).
Proof. unfold written. cbn [cli inputs output requests]. now rewrite app_assoc. Qed.

Lemma written_nothing (w : world) : written w [] = w.
Proof.
  destruct w as [self ins out n]. unfold written. cbn [cli inputs output requests].
  now rewrite app_nil_r.
Qed.

Lemma io_bind_assoc {A B C} (m : io A) (k : A -> io B) (h : B -> io C) (w : world) :
  io_bind (io_bind m k) h w = io_bind m (fun x => io_bind (k x) h) w.
Proof. unfold io_bind. now destruct (m w) as [[a|e] w1]. Qed.

Section LoopFacts.
Context {RT : PyRuntime}.
Variable session_get : nat -> str -> http_outcome.
Variable exception_text : exn -> str.

Lemma io_safe_bind {A B} (post1 : A -> world -> Prop) (post : B -> world -> Prop)
    (m : io A) (k : A -> io B) :
  io_safe post1 m -> (forall a, io_safe post (k a)) -> io_safe post (io_bind m k).
Proof.
  intros Hm Hk w. unfold io_bind. specialize (Hm w).
  destruct (m w) as [[a|e] w1]; [apply Hk | exact Hm].
Qed.

Lemma io_safe_lift {A} (r : result A) : safe r -> io_safe anything (lift r).
Proof.
  intros Hr w. unfold lift. destruct r as [a|e]; [exact I | now left].
Qed.

Lemma io_safe_ret {A} (a : A) : io_safe anything (io_ret a).
Proof. intros w. exact I. Qed.

Lemma io_safe_this : io_safe anything this.
Proof. intros w. exact I. Qed.

Lemma io_safe_print (s : str) : io_safe anything (io_print s).
Proof. intros w. exact I. Qed.

Lemma io_safe_input (s : str) : io_safe anything (io_input s).
Proof.
  intros w. unfold io_input, console. destruct (inputs w) as [|[l|] ins].
  - now left.
  - exact I.
  - right. now left.
Qed.

Lemma io_safe_menu (title : str) (options : list (str * str)) :
  io_safe anything (console (display_menu title options)).
Proof.
  intros w. unfold console.
  destruct (display_menu title options (inputs w) (output w)) as [[r ins] out] eqn:E.
  pose proof (display_menu_result _ _ _ _ _ _ _ E) as H.
  destruct r as [key|e]; [exact I|].
  destruct H as [[-> Hl]|[-> _]]; [right; right; now split | now left].
Qed.

Lemma get_user_input_result (prompt_text : str) (required : bool)
    (ins : list input_event) (out : list str) (r : result str)
    (rest : list input_event) (out' : list str) :
  get_user_input prompt_text required ins out = (r, rest, out') ->
  match r with
  | Ok _ => True
  | Raise e =>
    (e = SystemExit 0 /\ last out' [] = farewell) \/ (e = EOFError /\ rest = [])
  end.
Proof.
  revert out. induction ins as [|ev ins IH]; intros out H.
  - cbn [get_user_input] in H. injection H as <- <- <-. right. now split.
  - destruct ev as [l|].
    + cbn [get_user_input] in H.
      destruct (negb (truthy (PyStr (strip l))) && required).
      * exact (IH _ H).
      * now injection H as <- <- <-.
    + cbn [get_user_input] in H. injection H as <- <- <-. left. split; [reflexivity|].
      unfold print, prompt, farewell. rewrite last_last. reflexivity.
Qed.

Lemma io_safe_question (prompt_text : str) (required : bool) :
  io_safe anything (console (get_user_input prompt_text required)).
Proof.
  intros w. unfold console.
  destruct (get_user_input prompt_text required (inputs w) (output w))
    as [[r ins] out] eqn:E.
  pose proof (get_user_input_result _ _ _ _ _ _ _ E) as H.
  destruct r as [v|e]; [exact I|].
  destruct H as [[-> Hl]|[-> _]]; [right; right; now split | now left].
Qed.

Lemma safe_switch_chain (self : CronosCLI) (key : str) : safe (switch_chain self key).
Proof.
  unfold switch_chain, _update_base_url. destruct (dict_has key (chains self)); [|exact I].
  apply safe_bind; [|intros; exact I].
  apply safe_bind; [apply safe_lookup | intros info].
  apply safe_bind; [apply safe_lookup | intros url]. exact I.
Qed.

Lemma io_safe_switch (key : str) : io_safe anything (io_switch_chain key).
Proof.
  intros w. unfold io_switch_chain. pose proof (safe_switch_chain (cli w) key) as H.
  destruct (switch_chain (cli w) key) as [[b self']|e]; [exact I | now left].
Qed.

Lemma safe_chain_options_from (items : list (str * list (str * str)))
    (options : list (str * str)) :
  safe (chain_options_from items options).
Proof.
  revert options. induction items as [|[key value] items IH]; intros options; [exact I|].
  cbn [chain_options_from].
  apply safe_bind; [apply safe_lookup | intros ?].
  apply safe_bind; [apply safe_lookup | intros ?]. apply IH.
Qed.

Lemma io_safe_chain_menu : io_safe anything chain_menu.
Proof.
  unfold chain_menu.
  apply (io_safe_bind anything); [apply io_safe_this | intros self].
  apply (io_safe_bind anything);
    [apply io_safe_lift, safe_chain_options_from | intros options].
  apply io_safe_menu.
Qed.

Lemma io_safe_switch_and_report (verb key : str) :
  io_safe anything (switch_and_report verb key).
Proof.
  unfold switch_and_report.
  apply (io_safe_bind anything); [apply io_safe_switch | intros [|]].
  - apply (io_safe_bind anything); [apply io_safe_this | intros self].
    apply (io_safe_bind anything);
      [apply io_safe_lift; unfold get_current_chain_info; apply safe_lookup | intros info].
    apply (io_safe_bind anything); [apply io_safe_lift, safe_lookup | intros name].
    apply (io_safe_bind anything); [apply io_safe_print | intros _].
    apply (io_safe_bind anything); [apply io_safe_print | intros _].
    apply io_safe_ret.
  - apply (io_safe_bind anything); [apply io_safe_print | intros _]. apply io_safe_ret.
Qed.

Lemma io_safe_collect_params (names : list str) (params : list (str * value)) :
  io_safe anything (collect_params names params).
Proof.
  revert params. induction names as [|n names IH]; intros params.
  - apply io_safe_ret.
  - cbn [collect_params].
    apply (io_safe_bind anything); [apply io_safe_question | intros v]. apply IH.
Qed.

Lemma io_safe_select_endpoint : io_safe anything select_endpoint.
Proof.
  unfold select_endpoint.
  apply (io_safe_bind anything); [apply io_safe_menu | intros module_key].
  apply (io_safe_bind anything); [apply io_safe_lift, safe_lookup | intros module_entry].
  apply (io_safe_bind anything); [apply io_safe_menu | intros endpoint_key].
  apply io_safe_lift, safe_lookup.
Qed.

Section Joined.
Hypothesis urljoin_safe : forall base url, safe (urljoin base url).

Lemma safe_request_url (self : CronosCLI) (endpoint : str)
    (params : option (list (str * value))) :
  safe (request_url self endpoint params).
Proof.
  unfold request_url. apply safe_bind; [apply urljoin_safe | intros url].
  destruct params as [[|kv items]|]; exact I.
Qed.

Lemma io_safe_make_request (endpoint : str) (params : option (list (str * value))) :
  io_safe anything (make_request session_get endpoint params).
Proof.
  unfold make_request.
  apply (io_safe_bind anything); [apply io_safe_this | intros self].
  apply (io_safe_bind anything); [apply io_safe_lift, safe_request_url | intros url].
  apply (io_safe_bind anything); [intros w; exact I | intros [data|message|message]].
  - apply io_safe_ret.
  - apply (io_safe_bind anything); [apply io_safe_print | intros _]. apply io_safe_ret.
  - apply (io_safe_bind anything); [apply io_safe_print | intros _]. apply io_safe_ret.
Qed.

Lemma io_safe_fetch_and_show (e : endpoint) (params : list (str * value)) :
  io_safe anything (fetch_and_show session_get e params).
Proof.
  unfold fetch_and_show.
  apply (io_safe_bind anything); [apply io_safe_print | intros _].
  apply (io_safe_bind anything); [apply io_safe_make_request | intros data].
  destruct (truthy data); [|apply io_safe_print].
  apply (io_safe_bind anything); [apply io_safe_print | intros _].
  apply (io_safe_bind anything); [apply io_safe_print | intros _].
  apply (io_safe_bind anything); [apply io_safe_this | intros self].
  apply (io_safe_bind anything);
    [apply io_safe_lift, safe_format_response | intros text].
  apply io_safe_print.
Qed.

Lemma io_safe_query : io_safe anything (query session_get).
Proof.
  unfold query.
  apply (io_safe_bind anything); [apply io_safe_select_endpoint | intros e].
  apply (io_safe_bind anything); [apply io_safe_collect_params | intros params].
  apply io_safe_fetch_and_show.
Qed.

Lemma io_safe_goodbye :
  io_safe after_goodbye (_ <~ io_print (u "👋 Goodbye!") ;; io_ret Break).
Proof.
  intros w. unfold io_bind, io_print, console, io_ret, after_goodbye.
  cbn [output]. intros _. unfold print. apply last_last.
Qed.

Lemma io_safe_continue : io_safe after_goodbye (io_ret Continue).
Proof. intros w. unfold io_ret, after_goodbye. discriminate. Qed.

Lemma io_safe_ask_continue : io_safe after_goodbye ask_continue.
Proof.
  unfold ask_continue.
  apply (io_safe_bind anything); [apply io_safe_this | intros self].
  apply (io_safe_bind anything);
    [apply io_safe_lift; unfold get_current_chain_info; apply safe_lookup | intros info].
  apply (io_safe_bind anything); [apply io_safe_lift, safe_lookup | intros name].
  apply (io_safe_bind anything); [apply io_safe_print | intros _].
  apply (io_safe_bind anything); [apply io_safe_input | intros line].
  cbv zeta.
  destruct (existsb (str_eqb (lower (strip line))) [u "e"; u "exit"]);
    [apply io_safe_goodbye|].
  destruct (existsb (str_eqb (lower (strip line))) [u "s"; u "switch"]).
  - apply (io_safe_bind anything); [apply io_safe_chain_menu | intros key].
    apply (io_safe_bind anything); [apply io_safe_switch_and_report | intros _].
    apply io_safe_continue.
  - destruct (negb (existsb (str_eqb (lower (strip line)))
                      [u "q"; u "query"; u "y"; u "yes"; []]));
      [apply io_safe_goodbye | apply io_safe_continue].
Qed.

(** A turn of the loop lets nothing escape but the exit with status 0,
    and breaks the loop after a farewell only. *)
Lemma turn_result (w : world) (r : result flow) (w' : world) :
  turn session_get exception_text w = (r, w') ->
  match r with
  | Ok Continue => True
  | Ok Break =>
    last w'.(output) [] = u "👋 Goodbye!" ++ nl \/ last w'.(output) [] = farewell
  | Raise e => e = SystemExit 0 /\ last w'.(output) [] = farewell
  end.
Proof.
  unfold turn, guarded.
  pose proof (io_safe_bind anything after_goodbye (query session_get)
                (fun _ => ask_continue) io_safe_query (fun _ => io_safe_ask_continue) w)
    as H.
  destruct (io_bind (query session_get) (fun _ => ask_continue) w) as [[f|e] w1].
  - intros [= <- <-]. destruct f; [exact I|]. left. now apply H.
  - destruct H as [He|[->|[-> Hl]]].
    + destruct e; try discriminate He;
        intros [= <- <-]; exact I.
    + intros [= <- <-]. right. unfold io_print, console. cbn [snd output].
      unfold print, farewell. rewrite last_last. reflexivity.
    + intros [= <- <-]. now split.
Qed.

Lemma run_loop_result (fuel : nat) (w : world) (r : result (option unit)) (w' : world) :
  run_loop session_get exception_text fuel w = (r, w') ->
  match r with
  | Ok None => True
  | Ok (Some _) =>
    last w'.(output) [] = u "👋 Goodbye!" ++ nl \/ last w'.(output) [] = farewell
  | Raise e => e = SystemExit 0 /\ last w'.(output) [] = farewell
  end.
Proof.
  revert w. induction fuel as [|fuel IH]; intros w.
  - intros [= <- <-]. exact I.
  - cbn [run_loop]. unfold io_bind.
    destruct (turn session_get exception_text w) as [[f|e] w1] eqn:E.
    + pose proof (turn_result _ _ _ E) as H. destruct f.
      * apply IH.
      * intros [= <- <-]. exact H.
    + pose proof (turn_result _ _ _ E) as H. intros [= <- <-]. exact H.
Qed.

End Joined.

(** X20.  What a query writes and returns once the address is known, for
    each answer of the network.  The announcement is written and one
    request is sent in every case.  A request that fails and an answer
    that is no JSON are reported with their text, and then, like an answer
    that is empty ([null], [{}], [[]], 0, the empty string), with "Failed
    to retrieve data": [format_response] is only applied to answers that
    are not empty.  When the formatter raises, the heading of the result
    has been written already. *)
Theorem fetch_and_show_outcomes (e : endpoint) (params : list (str * value)) (w : world)
    (url : str) :
  request_url w.(cli) e.(endpoint_path) (Some params) = Ok url ->
  let sent :=
    {| cli := w.(cli); inputs := w.(inputs);
       output := w.(output)
                   ++ [(nl ++ u "🔄 Making request to " ++ e.(endpoint_path) ++ u "...") ++ nl];
       requests := S w.(requests) |} in
  fetch_and_show session_get e params w
  = match session_get w.(requests) url with
    | RequestException message =>
      (Ok tt,
       written sent [(u "❌ Error making request: " ++ message) ++ nl;
                     u "❌ Failed to retrieve data" ++ nl])
    | JSONDecodeError message =>
      (Ok tt,
       written sent [(u "❌ Error parsing JSON response: " ++ message) ++ nl;
                     u "❌ Failed to retrieve data" ++ nl])
    | Answer data =>
      if truthy data then
        match format_response w.(cli) data with
        | Ok text =>
          (Ok tt,
           written sent [(nl ++ u "✅ Result:") ++ nl; str_mul (u "-") 50 ++ nl; text ++ nl])
        | Raise x =>
          (Raise x, written sent [(nl ++ u "✅ Result:") ++ nl; str_mul (u "-") 50 ++ nl])
        end
      else (Ok tt, written sent [u "❌ Failed to retrieve data" ++ nl])
    end.
Proof.
  intros Hu sent. unfold fetch_and_show, make_request, io_bind, io_print, console, this,
    lift, io_ret. cbn [cli inputs output requests]. rewrite Hu.
  destruct (session_get (requests w) url) as [data|message|message].
  - destruct (truthy data).
    + cbn [cli inputs output requests].
      destruct (format_response (cli w) data) as [text|x];
        unfold written, sent, print; cbn [cli inputs output requests];
        rewrite <- !app_assoc; reflexivity.
    + unfold written, sent, print. cbn [cli inputs output requests]. reflexivity.
  - cbn [truthy cli inputs output requests]. unfold written, sent, print.
    cbn [cli inputs output requests]. now rewrite <- !app_assoc.
  - cbn [truthy cli inputs output requests]. unfold written, sent, print.
    cbn [cli inputs output requests]. now rewrite <- !app_assoc.
Qed.

(** X21.  After a query the answer to the question how to go on is
    stripped and put in lower case.  "q", "query", "y", "yes" and the empty
    answer start the next turn; "s" and "switch" lead to the chain menu;
    every other answer, not only "e" and "exit", ends the loop after the
    farewell. *)
Theorem ask_continue_answers (w : world) (answer : str) (rest : list input_event) :
  consistent w.(cli) -> w.(inputs) = Line answer :: rest ->
  let choice := lower (strip answer) in
  let asked :=
    {| cli := w.(cli); inputs := rest;
       output := w.(output)
                   ++ [(nl ++ u "Current chain: " ++ chain_name w.(cli).(current_chain)) ++ nl;
                       nl ++ u "Options: (q)uery again, (s)witch chain, (e)xit: "];
       requests := w.(requests) |} in
  (In choice [u "q"; u "query"; u "y"; u "yes"; []] ->
   ask_continue w = (Ok Continue, asked)) /\
  (In choice [u "s"; u "switch"] ->
   ask_continue w
   = (selected_chain <~ chain_menu ;;
      _ <~ switch_and_report (u "Switched to") selected_chain ;;
      io_ret Continue) asked) /\
  (~ In choice [u "s"; u "switch"; u "q"; u "query"; u "y"; u "yes"; []] ->
   ask_continue w = (Ok Break, written asked [u "👋 Goodbye!" ++ nl])).
Proof.
  intros Hs Hi choice asked.
  destruct (chain_name_of_current _ Hs) as (info & Ei & En).
  assert (E : ask_continue w
              = (if existsb (str_eqb choice) [u "e"; u "exit"]
                 then _ <~ io_print (u "👋 Goodbye!") ;; io_ret Break
                 else if existsb (str_eqb choice) [u "s"; u "switch"]
                 then selected_chain <~ chain_menu ;;
                      _ <~ switch_and_report (u "Switched to") selected_chain ;;
                      io_ret Continue
                 else if negb (existsb (str_eqb choice)
                                 [u "q"; u "query"; u "y"; u "yes"; []])
                 then _ <~ io_print (u "👋 Goodbye!") ;; io_ret Break
                 else io_ret Continue) asked).
  { unfold ask_continue, io_bind at 1 2 3 4 5, this, lift, io_print, io_input, console.
    cbn [cli inputs output requests]. rewrite Ei, En, Hi.
    unfold asked, print, prompt. rewrite <- !app_assoc. reflexivity. }
  rewrite E. clear E. split; [|split].
  - intros Hc.
    assert (H1 : existsb (str_eqb choice) [u "e"; u "exit"] = false)
      by (cbn [In] in Hc; destruct Hc as [<-|[<-|[<-|[<-|[<-|[]]]]]]; reflexivity).
    assert (H2 : existsb (str_eqb choice) [u "s"; u "switch"] = false)
      by (cbn [In] in Hc; destruct Hc as [<-|[<-|[<-|[<-|[<-|[]]]]]]; reflexivity).
    apply existsb_str_eqb in Hc. now rewrite H1, H2, Hc.
  - intros Hc.
    assert (H1 : existsb (str_eqb choice) [u "e"; u "exit"] = false)
      by (cbn [In] in Hc; destruct Hc as [<-|[<-|[]]]; reflexivity).
    apply existsb_str_eqb in Hc. now rewrite H1, Hc.
  - intros Hc.
    assert (H2 : existsb (str_eqb choice) [u "s"; u "switch"] = false).
    { destruct (existsb (str_eqb choice) [u "s"; u "switch"]) eqn:E; [|reflexivity].
      apply existsb_str_eqb in E. exfalso. apply Hc. cbn [In] in *. tauto. }
    assert (H3 : existsb (str_eqb choice) [u "q"; u "query"; u "y"; u "yes"; []] = false).
    { destruct (existsb (str_eqb choice) [u "q"; u "query"; u "y"; u "yes"; []]) eqn:E;
        [|reflexivity].
      apply existsb_str_eqb in E. exfalso. apply Hc. cbn [In] in *. tauto. }
    rewrite H2, H3. cbn [negb].
    destruct (existsb (str_eqb choice) [u "e"; u "exit"]); reflexivity.
Qed.

Lemma chain_options_registry : chain_options_from registry [] = Ok chain_options.
Proof. vm_compute. reflexivity. Qed.

Lemma chain_option_registered (key : str) :
  In key (dict_keys chain_options) -> registered key = true.
Proof.
  intros H. apply registered_keys. unfold chain_options, dict_keys in H.
  cbn [map fst In] in H. destruct H as [<-|[<-|[]]]; [now left | now right].
Qed.

(** The choice of a chain on a consistent object: the switch always
    succeeds. *)
Lemma chain_selection_result (verb : str) (w : world) (r : result bool) (w' : world) :
  consistent w.(cli) ->
  (selected_chain <~ chain_menu ;; switch_and_report verb selected_chain) w = (r, w') ->
  match r with
  | Ok switched =>
    switched = true /\ consistent w'.(cli) /\ w'.(requests) = w.(requests) /\
    exists before,
      w'.(output)
      = before ++ [(nl ++ u "✅ " ++ verb ++ u ": " ++ chain_name w'.(cli).(current_chain))
                     ++ nl;
                   (u "🌐 Base URL: " ++ chain_address w'.(cli).(current_chain)) ++ nl]
  | Raise e =>
    (e = SystemExit 0 /\ last w'.(output) [] = farewell) \/
    (e = EOFError /\ w'.(inputs) = [] /\ w'.(requests) = w.(requests))
  end.
Proof.
  intros Hs. pose proof Hs as (Hc & _).
  unfold chain_menu, io_bind at 1 2 3, this, lift, console. rewrite Hc, chain_options_registry.
  destruct (display_menu (u "Which chain would you like to query? (EVM is recommended)")
              chain_options (inputs w) (output w)) as [[r1 ins1] out1] eqn:E1.
  pose proof (display_menu_result _ _ _ _ _ _ _ E1) as H1.
  destruct r1 as [key|e1].
  - pose proof (chain_option_registered key H1) as Hk.
    pose proof (switch_chain_to_consistent (cli w) key Hs) as Hs'.
    rewrite Hk in Hs'.
    destruct (chain_name_of_current _ Hs') as (info & Ei & En).
    destruct (consistent_base_url _ Hs') as [Hb _].
    unfold switch_and_report, io_bind at 1, io_switch_chain.
    cbn [cli inputs output requests].
    rewrite (switch_chain_to (cli w) key Hs), Hk.
    unfold io_bind, this, lift, io_print, console, io_ret.
    cbn [cli inputs output requests] in *. rewrite Ei, En.
    intros [= <- <-]. cbn [cli inputs output requests].
    split; [reflexivity|]. split; [exact Hs'|]. split; [reflexivity|].
    exists out1. unfold print. rewrite <- (app_assoc out1). reflexivity.
  - intros [= <- <-]. cbn [cli inputs output requests].
    destruct H1 as [[-> Hl]|[-> ->]]; [left; now split | right; now split].
Qed.

(** X22.  Choosing a chain, at the start of [run] and after the answer
    "s", cannot fail on a consistent object: the menu offers the two
    registered chains, the chain "evm" marked with a star, so the switch
    succeeds, the object stays consistent and the name and the base address
    of the chosen chain are reported; "Invalid chain selection" is never
    written.  Otherwise the choice ends by the exit with status 0 or by the
    [EOFError] of an exhausted input. *)
Theorem chain_selection (verb : str) (w : world) (r : result bool) (w' : world) :
  consistent w.(cli) ->
  (selected_chain <~ chain_menu ;; switch_and_report verb selected_chain) w = (r, w') ->
  chain_options_from w.(cli).(chains) [] = Ok chain_options /\
  match r with
  | Ok switched =>
    switched = true /\ consistent w'.(cli) /\
    exists before,
      w'.(output)
      = before ++ [(nl ++ u "✅ " ++ verb ++ u ": " ++ chain_name w'.(cli).(current_chain))
                     ++ nl;
                   (u "🌐 Base URL: " ++ chain_address w'.(cli).(current_chain)) ++ nl]
  | Raise e =>
    (e = SystemExit 0 /\ last w'.(output) [] = farewell) \/
    (e = EOFError /\ w'.(inputs) = [])
  end.
Proof.
  intros Hs H. split.
  - destruct Hs as (-> & _). exact chain_options_registry.
  - pose proof (chain_selection_result verb w r w' Hs H) as R.
    destruct r as [switched|e].
    + destruct R as (R1 & R2 & _ & R3). now split; [|split].
    + destruct R as [R|(R1 & R2 & _)]; [now left | right; now split].
Qed.

Lemma display_menu_at_end (title : str) (options : list (str * str)) (out : list str) :
  display_menu title options [] out
  = (Raise EOFError, [], out ++ menu_head title options ++ [menu_prompt options]).
Proof.
  unfold display_menu. cbn [menu_loop]. unfold prompt, print, menu_head.
  now rewrite <- !app_assoc.
Qed.

Lemma turn_at_end (w : world) :
  w.(inputs) = [] ->
  turn session_get exception_text w
  = (Ok Continue,
     written w (module_menu_text
                  ++ [(u "❌ An error occurred: " ++ exception_text EOFError) ++ nl])).
Proof.
  intros Hi. unfold turn, guarded, query, select_endpoint, io_bind, console.
  rewrite Hi, display_menu_at_end. unfold io_print, console. cbn [snd cli inputs output requests].
  unfold written, print, module_menu_text, module_options. rewrite Hi.
  now rewrite <- !app_assoc.
Qed.

Lemma run_loop_at_end (fuel : nat) (w : world) :
  w.(inputs) = [] ->
  run_loop session_get exception_text fuel w
  = (Ok None,
     written w
       (concat (repeat (module_menu_text
                          ++ [(u "❌ An error occurred: " ++ exception_text EOFError) ++ nl])
                  fuel))).
Proof.
  revert w. induction fuel as [|fuel IH]; intros w Hi.
  - cbn [run_loop repeat concat]. unfold io_ret. now rewrite written_nothing.
  - cbn [run_loop repeat concat]. unfold io_bind. rewrite (turn_at_end w Hi).
    rewrite IH by exact Hi. now rewrite written_written.
Qed.

(** X23.  Once the input is exhausted the loop of [run] never ends: the
    [EOFError] of the module menu is caught and reported, and the next
    turn meets the same end of input.  After any number of turns the loop
    is still running, having written the module menu and the error once
    per turn, and sent no request. *)
Theorem run_loop_at_end_of_input (fuel : nat) (w : world) :
  at_end_of_input w ->
  run_loop session_get exception_text fuel w
  = (Ok None,
     written w
       (concat (repeat (module_menu_text
                          ++ [(u "❌ An error occurred: " ++ exception_text EOFError) ++ nl])
                  fuel))) /\
  (forall more, exists r w',
      run_loop session_get exception_text (fuel + more) w = (r, w') /\ r = Ok None).
Proof.
  intros Hi. split; [exact (run_loop_at_end fuel w Hi)|].
  intros more. eexists. eexists. split; [exact (run_loop_at_end (fuel + more) w Hi)|].
  reflexivity.
Qed.

Section Outcomes.
Hypothesis urljoin_safe : forall base url, safe (urljoin base url).

(** X24.  Nothing leaves the loop of [run] but the exit with status 0,
    raised by a menu or a prompt on an interrupt, after the farewell.  What
    the body of a turn raises is an [Exception], the interrupt, or that
    exit; an [Exception] (of a look-up, of the request, of the formatter,
    the end of the input) is reported on one line and the next turn starts.
    The loop ends normally only after a farewell.  ([urljoin] is taken to
    raise nothing but an [Exception].) *)
Theorem run_loop_leaves_after_goodbye (fuel : nat) (w : world) :
  (forall r w',
      run_loop session_get exception_text fuel w = (r, w') ->
      match r with
      | Ok None => True
      | Ok (Some _) =>
        last w'.(output) [] = u "👋 Goodbye!" ++ nl \/ last w'.(output) [] = farewell
      | Raise e => e = SystemExit 0 /\ last w'.(output) [] = farewell
      end) /\
  (forall e w1,
      (_ <~ query session_get ;; ask_continue) w = (Raise e, w1) -> escapes e w1) /\
  (forall e w1,
      (_ <~ query session_get ;; ask_continue) w = (Raise e, w1) ->
      is_exception e = true ->
      turn session_get exception_text w
      = (Ok Continue, written w1 [(u "❌ An error occurred: " ++ exception_text e) ++ nl])).
Proof.
  split; [|split].
  - intros r w' H. exact (run_loop_result urljoin_safe fuel w r w' H).
  - intros e w1 H.
    pose proof (io_safe_bind anything after_goodbye (query session_get)
                  (fun _ => ask_continue) (io_safe_query urljoin_safe)
                  (fun _ => io_safe_ask_continue) w) as S.
    rewrite H in S. exact S.
  - intros e w1 H He. unfold turn, guarded. rewrite H.
    destruct e; try discriminate He; reflexivity.
Qed.

(** X25.  [main] ends in one of three ways only: it returns, and then the
    last thing written is a farewell; or the exit with status 0 ends it
    after the farewell; or the input is exhausted at the first chain menu,
    before any request, and the [EOFError] is not caught.  In particular
    the first choice of a chain cannot fail otherwise.  ([urljoin] is taken
    to raise nothing but an [Exception].) *)
Theorem main_outcomes (fuel : nat) (ins : list input_event) :
  exists r w',
    main session_get exception_text fuel ins = Ok (r, w') /\
    match r with
    | Ok None => True
    | Ok (Some _) =>
      last w'.(output) [] = u "👋 Goodbye!" ++ nl \/ last w'.(output) [] = farewell
    | Raise e =>
      (e = SystemExit 0 /\ last w'.(output) [] = farewell) \/
      (e = EOFError /\ w'.(inputs) = [] /\ w'.(requests) = 0%nat)
    end.
Proof.
  assert (E : main session_get exception_text fuel ins
              = Ok (run session_get exception_text fuel
                      {| cli := fresh_cli; inputs := ins; output := []; requests := 0 |}))
    by reflexivity.
  rewrite E. clear E.
  destruct (run session_get exception_text fuel
              {| cli := fresh_cli; inputs := ins; output := []; requests := 0 |})
    as [r w'] eqn:R.
  exists r, w'. split; [reflexivity|].
  unfold run in R. unfold io_bind at 1 2 3, io_print, console in R.
  cbn [cli inputs output requests] in R.
  pose proof (io_bind_assoc chain_menu (switch_and_report (u "Selected"))
                (fun switched : bool =>
                   if switched then run_loop session_get exception_text fuel
                   else io_ret (Some tt))) as A.
  cbv beta in A. rewrite <- A in R. clear A. unfold io_bind at 1 in R.
  match type of R with
  | match ?m ?w0 with _ => _ end = _ =>
    destruct (m w0) as [[switched|e] w1] eqn:S;
      pose proof (chain_selection_result (u "Selected") w0 _ _ fresh_cli_consistent S) as H
  end.
  - destruct H as (-> & _).
    pose proof (run_loop_result urljoin_safe fuel w1 r w' R) as L.
    destruct r as [[done|]|e]; [exact L | exact I | now left].
  - injection R as <- <-. cbn [requests] in H. exact H.
Qed.

End Outcomes.

End LoopFacts.

Lemma registry_paths_witness :
  let e := endpoint_at (u "gov") (u "tally") in
  let segs := parse_template e.(endpoint_path) in
  render_template segs = e.(endpoint_path) /\
  forallb segment_ok segs = true /\
  (forall name, In name (template_tokens segs) -> In name e.(endpoint_params)) /\
  (forall p, In p e.(endpoint_params) ->
             In p (template_tokens segs) \/
             (u "gov" = u "bank" /\ u "tally" = u "balance" /\ p = u "denom")) /\
  NoDup e.(endpoint_params) /\
  ~ In (u "denom")
      (template_tokens (parse_template (u "cosmos/bank/v1beta1/balances/{address}/by_denom"))).
Proof.
  intros e.
  apply (registry_paths (u "gov") (module_at (u "gov")) (u "tally") e).
  - vm_compute. right; right; left; reflexivity.
  - vm_compute. right; right; left; reflexivity.
Defined.

(** The tally of a proposal: one token, one parameter. *)
Example tally_path_parsed :
  parse_template (endpoint_at (u "gov") (u "tally")).(endpoint_path)
  = [Lit (u "cosmos/gov/v1/proposals/"); Tok (u "proposal_id"); Lit (u "/tally")] /\
  (endpoint_at (u "gov") (u "tally")).(endpoint_params) = [u "proposal_id"].
Proof. split; vm_compute; reflexivity. Qed.

Lemma select_endpoint_outcomes_witness :
  exists module_key module_entry endpoint_key,
    In (module_key, module_entry) modules /\
    In (endpoint_key, endpoint_at (u "gov") (u "tally")) module_entry.(module_endpoints).
Proof.
  apply (select_endpoint_outcomes (RT := ascii_runtime)
           (scripted fresh_cli [u "3"; u "3"]) (Ok (endpoint_at (u "gov") (u "tally")))
           (snd (select_endpoint (RT := ascii_runtime) (scripted fresh_cli [u "3"; u "3"])))).
  vm_compute. reflexivity.
Defined.

Lemma collect_params_answers_witness :
  collect_params (RT := ascii_runtime) [u "delegator_addr"; u "validator_addr"] []
    (scripted fresh_cli [u " cro1abc "; u "crocncl1xyz"; u "e"])
  = (Ok (combine [u "delegator_addr"; u "validator_addr"]
           (map (fun a => PyStr (strip (RT := ascii_runtime) a))
              [u " cro1abc "; u "crocncl1xyz"])),
     {| cli := (scripted fresh_cli [u " cro1abc "; u "crocncl1xyz"; u "e"]).(cli);
        inputs := [Line (u "e")];
        output := (scripted fresh_cli [u " cro1abc "; u "crocncl1xyz"; u "e"]).(output)
                    ++ map (fun n => param_prompt n ++ u ": ")
                         [u "delegator_addr"; u "validator_addr"];
        requests := (scripted fresh_cli [u " cro1abc "; u "crocncl1xyz"; u "e"]).(requests) |})
  /\
  dict_keys (combine [u "delegator_addr"; u "validator_addr"]
               (map (fun a => PyStr (strip (RT := ascii_runtime) a))
                  [u " cro1abc "; u "crocncl1xyz"]))
  = [u "delegator_addr"; u "validator_addr"].
Proof.
  apply (collect_params_answers (RT := ascii_runtime)
           [u "delegator_addr"; u "validator_addr"] [u " cro1abc "; u "crocncl1xyz"]
           (scripted fresh_cli [u " cro1abc "; u "crocncl1xyz"; u "e"]) [Line (u "e")]).
  - apply NoDup_cons; [vm_compute; intuition discriminate|].
    apply NoDup_cons; [intros []|apply NoDup_nil].
  - reflexivity.
  - apply Forall_cons; [vm_compute; reflexivity|].
    apply Forall_cons; [vm_compute; reflexivity | apply Forall_nil].
  - reflexivity.
Defined.

(** The two addresses of a delegation, asked for in the order of the
    declaration. *)
Example delegation_params_text :
  collect_params (RT := ascii_runtime) (endpoint_at (u "staking") (u "delegation")).(endpoint_params)
    [] (scripted fresh_cli [u " cro1abc "; u "crocncl1xyz"])
  = (Ok [(u "delegator_addr", PyStr (u "cro1abc"));
         (u "validator_addr", PyStr (u "crocncl1xyz"))],
     {| cli := fresh_cli; inputs := [];
        output := [u "Enter delegator address: "; u "Enter validator address: "];
        requests := 0 |}).
Proof. vm_compute. reflexivity. Qed.

Lemma request_address_witness :
  let e := endpoint_at (u "staking") (u "delegation") in
  let params := combine e.(endpoint_params) (map PyStr [u "cro1abc"; u "crocncl1xyz"]) in
  let url := chain_address fresh_cli.(current_chain)
               ++ flat_map (fill (RT := ascii_runtime) params)
                    (parse_template e.(endpoint_path)) in
  request_url (RT := ascii_runtime) fresh_cli e.(endpoint_path) (Some params) = Ok url /\
  no_open_brace url = true.
Proof.
  intros e.
  apply (request_address (RT := ascii_runtime) fresh_cli (u "staking")
           (module_at (u "staking")) (u "delegation") e [u "cro1abc"; u "crocncl1xyz"]).
  - exact fresh_cli_consistent.
  - vm_compute. right; right; right; left; reflexivity.
  - vm_compute. right; right; right; left; reflexivity.
  - reflexivity.
  - apply Forall_cons; [vm_compute; reflexivity|].
    apply Forall_cons; [vm_compute; reflexivity | apply Forall_nil].
  - vm_compute. reflexivity.
Defined.

(** The address of a delegation on the EVM chain. *)
Example delegation_address_text :
  request_url (RT := ascii_runtime) fresh_cli
    (endpoint_at (u "staking") (u "delegation")).(endpoint_path)
    (Some [(u "delegator_addr", PyStr (u "cro1abc"));
           (u "validator_addr", PyStr (u "crocncl1xyz"))])
  = Ok (u "https://rest.cronos.org/cosmos/staking/v1beta1/delegators/cro1abc/validators/"
          ++ u "crocncl1xyz").
Proof. vm_compute. reflexivity. Qed.


Lemma fetch_and_show_outcomes_witness :
  let e := endpoint_at (u "gov") (u "proposals") in
  let w := scripted fresh_cli [] in
  let sent :=
    {| cli := w.(cli); inputs := w.(inputs);
       output := w.(output)
                   ++ [(nl ++ u "🔄 Making request to " ++ e.(endpoint_path) ++ u "...") ++ nl];
       requests := S w.(requests) |} in
  fetch_and_show (RT := ascii_runtime) offline e [] w
  = (Ok tt,
     written sent [(u "❌ Error making request: " ++ u "offline") ++ nl;
                   u "❌ Failed to retrieve data" ++ nl]).
Proof.
  intros e w.
  apply (fetch_and_show_outcomes (RT := ascii_runtime) offline e [] w
           (u "https://rest.cronos.org/cosmos/gov/v1/proposals")).
  vm_compute. reflexivity.
Defined.

(** An answer that is the empty object is reported as a failure. *)
Example empty_answer_reported_as_failure :
  fetch_and_show (RT := ascii_runtime) (fun _ _ => Answer (PyDict []))
    (endpoint_at (u "gov") (u "proposals")) [] (scripted fresh_cli [])
  = (Ok tt,
     {| cli := fresh_cli; inputs := [];
        output := [nl ++ u "🔄 Making request to cosmos/gov/v1/proposals..." ++ nl;
                   u "❌ Failed to retrieve data" ++ nl];
        requests := 1 |}).
Proof. vm_compute. reflexivity. Qed.

Lemma ask_continue_answers_witness :
  let w := scripted fresh_cli [u " Quit "] in
  let choice := lower (RT := ascii_runtime) (strip (RT := ascii_runtime) (u " Quit ")) in
  let asked :=
    {| cli := w.(cli); inputs := [];
       output := w.(output)
                   ++ [(nl ++ u "Current chain: " ++ chain_name w.(cli).(current_chain)) ++ nl;
                       nl ++ u "Options: (q)uery again, (s)witch chain, (e)xit: "];
       requests := w.(requests) |} in
  ask_continue (RT := ascii_runtime) w = (Ok Break, written asked [u "👋 Goodbye!" ++ nl]).
Proof.
  intros w.
  apply (proj2 (proj2 (ask_continue_answers (RT := ascii_runtime) w (u " Quit ") []
                         fresh_cli_consistent eq_refl))).
  vm_compute. intuition discriminate.
Defined.

(** "Quit" is none of the answers that go on: it ends the loop, as "e"
    does; "Y" between spaces goes on. *)
Example quit_ends_the_loop :
  fst (ask_continue (RT := ascii_runtime) (scripted fresh_cli [u " Quit "])) = Ok Break /\
  fst (ask_continue (RT := ascii_runtime) (scripted fresh_cli [u " Y "])) = Ok Continue.
Proof. split; vm_compute; reflexivity. Qed.

Lemma chain_selection_witness :
  let w := scripted fresh_cli [u "2"] in
  let w' := snd ((selected_chain <~ chain_menu (RT := ascii_runtime) ;;
                  switch_and_report (u "Selected") selected_chain) w) in
  chain_options_from w.(cli).(chains) [] = Ok chain_options /\
  (true = true /\ consistent w'.(cli) /\
   exists before,
     w'.(output)
     = before ++ [(nl ++ u "✅ " ++ u "Selected" ++ u ": "
                     ++ chain_name w'.(cli).(current_chain)) ++ nl;
                  (u "🌐 Base URL: " ++ chain_address w'.(cli).(current_chain)) ++ nl]).
Proof.
  intros w w'.
  apply (chain_selection (RT := ascii_runtime) (u "Selected") w (Ok true) w').
  - exact fresh_cli_consistent.
  - vm_compute. reflexivity.
Defined.

(** The second line of the chain menu is the POS chain. *)
Example second_chain_selected :
  let w' := snd ((selected_chain <~ chain_menu (RT := ascii_runtime) ;;
                  switch_and_report (u "Selected") selected_chain)
                   (scripted fresh_cli [u "2"])) in
  w'.(cli).(current_chain) = u "pos" /\
  w'.(cli).(base_url) = u "https://rest.mainnet.crypto.org/" /\
  last w'.(output) [] = u "🌐 Base URL: https://rest.mainnet.crypto.org/" ++ nl.
Proof. vm_compute. repeat split; reflexivity. Qed.

Lemma run_loop_at_end_of_input_witness :
  run_loop (RT := ascii_runtime) offline short_text 2 (scripted fresh_cli [])
  = (Ok None,
     written (scripted fresh_cli [])
       (concat (repeat (module_menu_text
                          ++ [(u "❌ An error occurred: " ++ short_text EOFError) ++ nl])
                  2))) /\
  (forall more, exists r w',
      run_loop (RT := ascii_runtime) offline short_text (2 + more) (scripted fresh_cli [])
      = (r, w') /\ r = Ok None).
Proof.
  apply (run_loop_at_end_of_input (RT := ascii_runtime) offline short_text 2
           (scripted fresh_cli [])).
  reflexivity.
Defined.

Lemma run_loop_leaves_after_goodbye_witness :
  let w' := snd (run_loop (RT := ascii_runtime) tally_server short_text 3
                   (scripted fresh_cli [u "3"; u "3"; u "7"; u "e"])) in
  last w'.(output) [] = u "👋 Goodbye!" ++ nl \/ last w'.(output) [] = farewell.
Proof.
  intros w'.
  apply (proj1 (run_loop_leaves_after_goodbye (RT := ascii_runtime) tally_server short_text
                  (fun base url => I) 3 (scripted fresh_cli [u "3"; u "3"; u "7"; u "e"]))
               (Ok (Some tt)) w').
  vm_compute. reflexivity.
Defined.

Lemma main_outcomes_witness :
  exists r w',
    main (RT := ascii_runtime) tally_server short_text 3
      [Line (u "2"); Line (u "3"); Line (u "3"); Line (u "7"); Interrupt]
    = Ok (r, w') /\
    match r with
    | Ok None => True
    | Ok (Some _) =>
      last w'.(output) [] = u "👋 Goodbye!" ++ nl \/ last w'.(output) [] = farewell
    | Raise e =>
      (e = SystemExit 0 /\ last w'.(output) [] = farewell) \/
      (e = EOFError /\ w'.(inputs) = [] /\ w'.(requests) = 0%nat)
    end.
Proof.
  apply (main_outcomes (RT := ascii_runtime) tally_server short_text (fun base url => I) 3
           [Line (u "2"); Line (u "3"); Line (u "3"); Line (u "7"); Interrupt]).
Defined.

(** A session: the POS chain, the tally of proposal 7, then "e".  One
    request is sent, the tally is shown and the loop ends. *)
Example tally_session :
  match main (RT := ascii_runtime) tally_server short_text 3
          (map Line [u "2"; u "3"; u "3"; u "7"; u "e"]) with
  | Ok (r, w') =>
    r = Ok (Some tt) /\ w'.(requests) = 1%nat /\ w'.(inputs) = [] /\
    w'.(cli).(current_chain) = u "pos" /\
    firstn 4 (skipn 31 w'.(output))
    = [ nl ++ u "🔄 Making request to cosmos/gov/v1/proposals/{proposal_id}/tally..." ++ nl;
        nl ++ u "✅ Result:" ++ nl;
        str_mul (u "-") 50 ++ nl;
        tally_header ++ u "✅ Yes:     70 (70.0%)" ++ nl ++ u "❌ No:      20 (20.0%)" ++ nl
          ++ u "⏸️  Abstain: 5 (5.0%)" ++ nl ++ u "🚫 Veto:    5 (5.0%)" ++ nl
          ++ nl ++ u "📊 Total Votes: 100" ++ nl ] /\
    last w'.(output) [] = u "👋 Goodbye!" ++ nl
  | Raise _ => False
  end.
Proof. vm_compute. repeat split; reflexivity. Qed.

(** An interrupt at the question how to go on ends the loop after the
    farewell, and [run] returns. *)
Example interrupt_after_query :
  match main (RT := ascii_runtime) offline short_text 3
          [Line (u "1"); Line (u "3"); Line (u "1"); Interrupt] with
  | Ok (r, w') => r = Ok (Some tt) /\ last w'.(output) [] = farewell
  | Raise _ => False
  end.
Proof. vm_compute. split; reflexivity. Qed.


(** ** What a session keeps *)

Section Invariant.
Context {RT : PyRuntime}.
Variable session_get : nat -> str -> http_outcome.
Variable exception_text : exn -> str.

Lemma io_keeps_bind {A B} (n k : nat) (m : io A) (f : A -> io B) :
  io_keeps n m -> (forall a, io_keeps k (f a)) -> io_keeps (n + k) (io_bind m f).
Proof.
  intros Hm Hf w Hw. unfold io_bind. specialize (Hm w Hw).
  destruct (m w) as [[a|e] w1]; cbn [snd] in *.
  - destruct Hm as [Hc Hr]. specialize (Hf a w1 Hc). destruct Hf as [Hc' Hr'].
    split; [exact Hc' | lia].
  - destruct Hm as [Hc Hr]. split; [exact Hc | lia].
Qed.

Lemma io_keeps_more {A} (n k : nat) (m : io A) :
  (n <= k)%nat -> io_keeps n m -> io_keeps k m.
Proof.
  intros Hn Hm w Hw. destruct (Hm w Hw) as [Hc Hr]. split; [exact Hc | lia].
Qed.

Lemma io_keeps_ret {A} (a : A) : io_keeps 0 (io_ret a).
Proof. intros w Hw. cbn [io_ret snd]. split; [exact Hw | lia]. Qed.

Lemma io_keeps_lift {A} (r : result A) : io_keeps 0 (lift r).
Proof. intros w Hw. cbn [lift snd]. split; [exact Hw | lia]. Qed.

Lemma io_keeps_this : io_keeps 0 this.
Proof. intros w Hw. cbn [this snd]. split; [exact Hw | lia]. Qed.

Lemma io_keeps_console {A}
    (f : list input_event -> list str -> result A * list input_event * list str) :
  io_keeps 0 (console f).
Proof.
  intros w Hw. unfold console.
  destruct (f (inputs w) (output w)) as [[r ins] out]. cbn [snd cli requests].
  split; [exact Hw | lia].
Qed.

Lemma io_keeps_switch (key : str) : io_keeps 0 (io_switch_chain key).
Proof.
  intros w Hw. unfold io_switch_chain.
  rewrite (switch_chain_to (cli w) key Hw). cbn [snd cli requests].
  split; [exact (switch_chain_to_consistent (cli w) key Hw) | lia].
Qed.

Tactic Notation "keeps_step" open_constr(lemma) :=
  apply (io_keeps_bind 0); [apply lemma | intros ?].

Lemma io_keeps_chain_menu : io_keeps 0 chain_menu.
Proof.
  unfold chain_menu.
  keeps_step io_keeps_this. keeps_step io_keeps_lift. apply io_keeps_console.
Qed.

Lemma io_keeps_switch_and_report (verb key : str) :
  io_keeps 0 (switch_and_report verb key).
Proof.
  unfold switch_and_report, io_print.
  apply (io_keeps_bind 0); [apply io_keeps_switch | intros [|]].
  - keeps_step io_keeps_this. keeps_step io_keeps_lift. keeps_step io_keeps_lift.
    keeps_step io_keeps_console. keeps_step io_keeps_console. apply io_keeps_ret.
  - keeps_step io_keeps_console. apply io_keeps_ret.
Qed.

Lemma io_keeps_collect_params (names : list str) (params : list (str * value)) :
  io_keeps 0 (collect_params names params).
Proof.
  revert params. induction names as [|n names IH]; intros params.
  - apply io_keeps_ret.
  - cbn [collect_params]. keeps_step io_keeps_console. apply IH.
Qed.

Lemma io_keeps_select_endpoint : io_keeps 0 select_endpoint.
Proof.
  unfold select_endpoint.
  keeps_step io_keeps_console. keeps_step io_keeps_lift. keeps_step io_keeps_console.
  apply io_keeps_lift.
Qed.

Lemma io_keeps_make_request (endpoint : str) (params : option (list (str * value))) :
  io_keeps 1 (make_request session_get endpoint params).
Proof.
  unfold make_request, io_print.
  keeps_step io_keeps_this. keeps_step io_keeps_lift.
  apply (io_keeps_bind 1 0).
  - intros w Hw. cbn [snd cli requests]. split; [exact Hw | lia].
  - intros [data|message|message].
    + apply io_keeps_ret.
    + keeps_step io_keeps_console. apply io_keeps_ret.
    + keeps_step io_keeps_console. apply io_keeps_ret.
Qed.

Lemma io_keeps_fetch_and_show (e : endpoint) (params : list (str * value)) :
  io_keeps 1 (fetch_and_show session_get e params).
Proof.
  unfold fetch_and_show, io_print.
  keeps_step io_keeps_console.
  apply (io_keeps_bind 1 0); [apply io_keeps_make_request | intros data].
  destruct (truthy data); [|apply io_keeps_console].
  keeps_step io_keeps_console. keeps_step io_keeps_console. keeps_step io_keeps_this.
  keeps_step io_keeps_lift. apply io_keeps_console.
Qed.

Lemma io_keeps_query : io_keeps 1 (query session_get).
Proof.
  unfold query.
  keeps_step io_keeps_select_endpoint. keeps_step io_keeps_collect_params.
  apply io_keeps_fetch_and_show.
Qed.

Lemma io_keeps_ask_continue : io_keeps 0 ask_continue.
Proof.
  unfold ask_continue, io_print, io_input.
  keeps_step io_keeps_this. keeps_step io_keeps_lift. keeps_step io_keeps_lift.
  keeps_step io_keeps_console. keeps_step io_keeps_console. cbv zeta.
  repeat match goal with
         | |- io_keeps _ (if ?b then _ else _) => destruct b
         end.
  - keeps_step io_keeps_console. apply io_keeps_ret.
  - keeps_step io_keeps_chain_menu. keeps_step io_keeps_switch_and_report.
    apply io_keeps_ret.
  - keeps_step io_keeps_console. apply io_keeps_ret.
  - apply io_keeps_ret.
Qed.

Lemma io_keeps_turn : io_keeps 1 (turn session_get exception_text).
Proof.
  intros w Hw. unfold turn, guarded.
  pose proof (io_keeps_bind 1 0 (query session_get) (fun _ => ask_continue)
                io_keeps_query (fun _ => io_keeps_ask_continue) w Hw) as H.
  destruct (io_bind (query session_get) (fun _ => ask_continue) w) as [[f|e] w1].
  - cbn [snd] in *. destruct H as [Hc Hr]. split; [exact Hc | lia].
  - cbn [snd] in H. destruct H as [Hc Hr].
    destruct e; unfold io_print, console; cbn [snd cli requests];
      (split; [exact Hc | lia]).
Qed.

Lemma io_keeps_run_loop (fuel : nat) :
  io_keeps fuel (run_loop session_get exception_text fuel).
Proof.
  induction fuel as [|fuel IH].
  - apply io_keeps_ret.
  - cbn [run_loop]. change (S fuel) with (1 + fuel)%nat.
    apply io_keeps_bind; [apply io_keeps_turn | intros [|]].
    + exact IH.
    + apply (io_keeps_more 0); [lia | apply io_keeps_ret].
Qed.

(** X26.  A session keeps the object consistent: whatever is typed and
    whatever the network answers, after any number of turns of the loop of
    [run], also turns cut short by an exception, the current chain is one
    of the two registered chains and the base address is the one registered
    for it.  A turn sends at most one request, so the requests sent after
    [fuel] turns are at most [fuel] more, and [main] as a whole leaves a
    consistent object. *)
Theorem session_keeps_consistency (fuel : nat) (w : world) :
  consistent w.(cli) ->
  let w' := snd (run_loop session_get exception_text fuel w) in
  (consistent w'.(cli) /\
   (w.(requests) <= w'.(requests) <= w.(requests) + fuel)%nat) /\
  (let w1 := snd (turn session_get exception_text w) in
   consistent w1.(cli) /\ (w.(requests) <= w1.(requests) <= w.(requests) + 1)%nat) /\
  (forall ins,
      exists r w2,
        main session_get exception_text fuel ins = Ok (r, w2) /\
        consistent w2.(cli) /\ (w2.(requests) <= fuel)%nat).
Proof.
  intros Hw w'. split; [exact (io_keeps_run_loop fuel w Hw)|].
  split; [exact (io_keeps_turn w Hw)|].
  intros ins.
  assert (K : io_keeps (0 + (0 + (0 + (0 + (0 + fuel)))))
                (run session_get exception_text fuel)).
  { unfold run, io_print.
    apply io_keeps_bind; [apply io_keeps_console | intros _].
    apply io_keeps_bind; [apply io_keeps_console | intros _].
    apply io_keeps_bind; [apply io_keeps_console | intros _].
    apply io_keeps_bind; [apply io_keeps_chain_menu | intros key].
    apply io_keeps_bind; [apply io_keeps_switch_and_report | intros [|]].
    - apply io_keeps_run_loop.
    - apply (io_keeps_more 0); [lia | apply io_keeps_ret]. }
  specialize (K {| cli := fresh_cli; inputs := ins; output := []; requests := 0 |}
                fresh_cli_consistent).
  cbn [cli requests] in K.
  destruct (run session_get exception_text fuel
              {| cli := fresh_cli; inputs := ins; output := []; requests := 0 |})
    as [r w2] eqn:R.
  exists r, w2. split.
  - change (main session_get exception_text fuel ins)
      with (Ok (run session_get exception_text fuel
                  {| cli := fresh_cli; inputs := ins; output := []; requests := 0 |})).
    now rewrite R.
  - cbn [snd] in K. destruct K as [Kc Kr]. split; [exact Kc | lia].
Qed.

End Invariant.

Lemma session_keeps_consistency_witness :
  let w := scripted fresh_cli [u "3"; u "3"; u "7"; u "s"; u "2"; u "hello"] in
  let w' := snd (run_loop (RT := ascii_runtime) tally_server short_text 3 w) in
  consistent w'.(cli) /\ (w.(requests) <= w'.(requests) <= w.(requests) + 3)%nat.
Proof.
  intros w.
  apply (proj1 (session_keeps_consistency (RT := ascii_runtime) tally_server short_text 3 w
                  fresh_cli_consistent)).
Defined.

(** A query, a switch to the POS chain, then a line the module menu
    refuses until the input ends: one request was sent and the object is on
    the POS chain. *)
Example session_after_switch :
  let w' := snd (run_loop (RT := ascii_runtime) tally_server short_text 3
                   (scripted fresh_cli [u "3"; u "3"; u "7"; u "s"; u "2"; u "hello"])) in
  w'.(cli) = {| base_url := u "https://rest.mainnet.crypto.org/"; chains := registry;
                current_chain := u "pos" |} /\
  w'.(requests) = 1%nat.
Proof. vm_compute. split; reflexivity. Qed.
